(** * Lemur ACME issuer plugin: a shallow embedding of
      [lemur/plugins/lemur_acme/plugin.py] and its specification.

    The plugin drives two remote systems (an ACME certificate authority and
    a DNS provider) and a few services of the hosting application.  The
    embedding keeps the plugin's own control flow (loops, [try]/[except],
    [try]/[finally], early returns) and treats everything it calls outside
    the module as an environment: a record of functions that answer each
    call, possibly depending on the calls made so far.  Every such call is
    appended to a trace, so that statements about which calls happen, how
    often and in which order are statements about that trace. *)

From Stdlib Require Import ZArith Lia Ascii String.
From stdpp Require Import base option list strings gmap.

Open Scope string_scope.
Set Warnings "-register-all".

(** ** Python values *)

(** The values the plugin handles dynamically: JSON documents decoded by
    [json.loads], the [issuer_options] dictionary, model objects with
    attributes (authority, DNS provider, pending certificate, x509 names).
    Dictionaries have string keys and keep insertion order; floats do not
    occur. *)
Inductive pyval : Type :=
| PNone
| PBool (b : bool)
| PInt (z : Z)
| PStr (s : string)
| PList (items : list pyval)
| PDict (entries : list (string * pyval))
| PObj (attrs : list (string * pyval)).

(** Python truth value, as tested by [if x] and [not x]. *)
Definition truthy (v : pyval) : bool :=
  match v with
  | PNone => false
  | PBool b => b
  | PInt z => negb (Z.eqb z 0)
  | PStr s => negb (String.eqb s EmptyString)
  | PList items => match items with [] => false | _ => true end
  | PDict entries => match entries with [] => false | _ => true end
  | PObj _ => true
  end.

(** First binding of a key in an ordered list of bindings. *)
Fixpoint assoc (k : string) (kv : list (string * pyval)) : option pyval :=
  match kv with
  | [] => None
  | (k', v) :: rest => if String.eqb k k' then Some v else assoc k rest
  end.

(** [type(d) == str] *)
Definition is_str (v : pyval) : bool :=
  match v with PStr _ => true | _ => false end.

(** [v == 'literal'] for a string literal. *)
Definition eq_str (v : pyval) (lit : string) : bool :=
  match v with PStr s => String.eqb s lit | _ => false end.

(** Lists and dictionaries cannot be used as dictionary keys. *)
Definition hashable (v : pyval) : bool :=
  match v with PList _ | PDict _ => false | _ => true end.

(** ** Exceptions *)

(** The exception classes the plugin raises, catches, or receives from the
    builtins it uses.  All of them derive from [Exception]; interrupts and
    interpreter exits, which do not, are outside the model.  The message
    of an exception built with [format] is kept as its format string. *)
Inductive exc_class : Type :=
| Exception
| ValueError
| JSONDecodeError
| KeyError
| TypeError
| AttributeError
| ImportError
| InvalidAuthority
| InvalidConfiguration
| UnknownProvider
| ClientError
| AcmeError
| PollError
| OtherError (name : string).

#[global] Instance exc_class_eq_dec : EqDecision exc_class.
Proof. solve_decision. Defined.

Record exn : Type := Raise { exc_type : exc_class; exc_msg : string }.

(** [issubclass(c, d)]: every class derives from [Exception], and
    [json.JSONDecodeError] derives from [ValueError]. *)
Definition issubclass (c d : exc_class) : bool :=
  match d with
  | Exception => true
  | ValueError =>
      match c with ValueError | JSONDecodeError => true | _ => false end
  | _ => bool_decide (c = d)
  end.

(** Does [except (c1, ..., cn):] catch [e]? *)
Definition except_matches (classes : list exc_class) (e : exn) : bool :=
  existsb (issubclass (exc_type e)) classes.

Definition result (A : Type) : Type := exn + A.

(** ** Objects of the ACME library *)

(** An account key ([jose.JWKRSA]) and its public half. *)
Inductive jwk : Type := JWKRSA (material : string).
Inductive pubkey : Type := PublicKey (material : string).

(** [acme.challenges]: the challenge types a CA can offer. *)
Inductive challenge : Type :=
| DNS01 (token : string)
| HTTP01 (token : string)
| TLSSNI01 (token : string).

(** [isinstance(c, challenges.DNS01)] *)
Definition is_DNS01 (c : challenge) : bool :=
  match c with DNS01 _ => true | _ => false end.

(** [messages.ChallengeBody]: a challenge with its CA-side resource. *)
Record ChallengeBody : Type :=
  { chall : challenge; challb_uri : string }.

(** [messages.AuthorizationResource]; [resolved_combinations] stands for
    [authz.body.resolved_combinations]. *)
Record AuthorizationResource : Type :=
  { authz_uri : string;
    resolved_combinations : list (list ChallengeBody) }.

Inductive ChallengeResponse : Type := DNS01Response (key_authorization : string).

Record RegistrationResource : Type := { uri : string }.

(** [acme.client.Client(directory_url, key)] *)
Record AcmeClient : Type := { directory : pyval; key : jwk }.

Inductive x509 : Type := X509 (der : string).
Inductive x509_req : Type := X509Req (der : string).
Record CertificateResource : Type := { body : x509; cert_chain_uri : string }.

(** The DNS provider modules of the package, and any other module a
    relative import can find. *)
Inductive dns_module : Type :=
| cloudflare
| dyn
| route53
| other_module (name : string).

(** [lemur.authorizations] order information. *)
Record OrderInfo : Type := { account_number : pyval; domains : list pyval }.

(** ** The plugin's own record type *)

(** [class AuthorizationRecord]: four attributes set by [__init__]. *)
Record AuthorizationRecord : Type :=
  { host : pyval;
    authz : AuthorizationResource;
    dns_challenge : ChallengeBody;
    change_id : pyval }.

(** Python objects are references: a list of authorizations is a list of
    references into a store of [AuthorizationRecord] objects. *)
Definition ref : Type := positive.

(** ** Calls that leave the module *)

Inductive log_level : Type := DEBUG | ERROR.

(** One constructor per kind of call the plugin makes to its surroundings,
    with the arguments of the call.  [EvLog] is [current_app.logger]; the
    message is kept as its format string and arguments. *)
Inductive event : Type :=
| EvLog (level : log_level) (fmt : string) (args : list pyval)
| EvGeneratePrivateKey (kind : string)
| EvClient (directory_url : pyval) (k : jwk)
| EvRegister (c : AcmeClient) (email : pyval)
| EvAgreeToTos (c : AcmeClient) (reg : RegistrationResource)
| EvRequestDomainChallenges (c : AcmeClient) (h : pyval)
| EvSimpleVerify (r : ChallengeResponse) (ch : challenge) (h : pyval)
    (pk : pubkey)
| EvAnswerChallenge (c : AcmeClient) (cb : ChallengeBody)
    (r : ChallengeResponse)
| EvPollAndRequestIssuance (c : AcmeClient) (csr : x509_req)
    (authzrs : list AuthorizationResource) (mintime max_attempts : nat)
| EvFetchChain (c : AcmeClient) (cr : CertificateResource)
| EvCreateTxtRecord (m : dns_module) (name value : string) (account : pyval)
| EvWaitForDnsChange (m : dns_module) (cid : pyval) (account : pyval)
| EvDeleteTxtRecord (m : dns_module) (cid : pyval) (account : pyval)
    (name value : string)
| EvAuthorizationGet (external_id : pyval)
| EvAuthorizationCreate (account : pyval) (doms : list pyval)
    (provider_type : pyval)
| EvDnsProviderGet (provider_id : pyval).

(** Calls to the DNS provider module. *)
Definition is_dns_call (ev : event) : bool :=
  match ev with
  | EvCreateTxtRecord _ _ _ _
  | EvWaitForDnsChange _ _ _
  | EvDeleteTxtRecord _ _ _ _ _ => true
  | _ => false
  end.

(** Calls that reach the certificate authority. *)
Definition is_ca_call (ev : event) : bool :=
  match ev with
  | EvClient _ _
  | EvRegister _ _
  | EvAgreeToTos _ _
  | EvRequestDomainChallenges _ _
  | EvAnswerChallenge _ _ _
  | EvPollAndRequestIssuance _ _ _ _ _
  | EvFetchChain _ _ => true
  | _ => false
  end.

(** Calls of the challenge pipeline: orchestration, finalization and
    issuance. *)
Definition is_pipeline_call (ev : event) : bool :=
  match ev with
  | EvRequestDomainChallenges _ _
  | EvCreateTxtRecord _ _ _ _
  | EvWaitForDnsChange _ _ _
  | EvSimpleVerify _ _ _ _
  | EvAnswerChallenge _ _ _
  | EvDeleteTxtRecord _ _ _ _ _
  | EvPollAndRequestIssuance _ _ _ _ _
  | EvFetchChain _ _ => true
  | _ => false
  end.

Definition is_delete (ev : event) : bool :=
  match ev with EvDeleteTxtRecord _ _ _ _ _ => true | _ => false end.

Definition is_create (ev : event) : bool :=
  match ev with EvCreateTxtRecord _ _ _ _ => true | _ => false end.

Definition is_authorization_create (ev : event) : bool :=
  match ev with EvAuthorizationCreate _ _ _ => true | _ => false end.

Definition is_error_log (ev : event) : bool :=
  match ev with EvLog ERROR _ _ => true | _ => false end.

(** ** The environment *)

(** Everything the module imports.  A function that talks to a remote
    system or to a service of the application takes the calls made so far
    and either returns or raises; the remaining ones are functions of
    their arguments. *)
Record World : Type :=
  { (* flask: current_app.config.get *)
    config : string -> pyval;
    (* builtins *)
    json_loads : pyval -> result pyval;
    py_str : pyval -> string;
    splitlines : string -> list string;
    import_module : pyval -> result dns_module;
    (* lemur.common.utils, josepy *)
    generate_private_key : list event -> string -> result jwk;
    public_key : jwk -> pubkey;
    (* acme.client.Client *)
    Client : list event -> pyval -> jwk -> result unit;
    register : list event -> AcmeClient -> pyval -> result RegistrationResource;
    agree_to_tos : list event -> AcmeClient -> RegistrationResource -> result unit;
    request_domain_challenges :
      list event -> AcmeClient -> pyval -> result AuthorizationResource;
    answer_challenge :
      list event -> AcmeClient -> ChallengeBody -> ChallengeResponse -> result unit;
    poll_and_request_issuance :
      list event -> AcmeClient -> x509_req -> list AuthorizationResource ->
      nat -> nat -> result CertificateResource;
    fetch_chain : list event -> AcmeClient -> CertificateResource -> result (list x509);
    (* acme.challenges *)
    validation_domain_name : ChallengeBody -> pyval -> string;
    validation : ChallengeBody -> jwk -> string;
    response : ChallengeBody -> jwk -> ChallengeResponse;
    simple_verify :
      list event -> ChallengeResponse -> challenge -> pyval -> pubkey -> result bool;
    (* OpenSSL.crypto *)
    load_certificate_request : pyval -> result x509_req;
    dump_certificate : x509 -> string;
    (* the DNS provider modules *)
    create_txt_record :
      list event -> dns_module -> string -> string -> pyval -> result pyval;
    wait_for_dns_change : list event -> dns_module -> pyval -> pyval -> result unit;
    delete_txt_record :
      list event -> dns_module -> pyval -> pyval -> string -> string -> result unit;
    (* lemur.authorizations.service, lemur.dns_providers.service *)
    authorization_service_get : list event -> pyval -> result OrderInfo;
    authorization_service_create :
      list event -> pyval -> list pyval -> pyval -> result pyval;
    dns_provider_service_get : list event -> pyval -> result pyval }.

(** ** Program state and the effect monad *)

Record state : Type :=
  { trace : list event;
    heap : gmap ref AuthorizationRecord }.

(** A computation runs from a state to a value or a raised exception, and a
    new state. *)
Definition M (A : Type) : Type := state -> result A * state.

Definition ret {A} (a : A) : M A := fun s => (inr a, s).

Definition raise {A} (e : exn) : M A := fun s => (inl e, s).

Definition bind {A B} (m : M A) (k : A -> M B) : M B :=
  fun s =>
    match m s with
    | (inr a, s') => k a s'
    | (inl e, s') => (inl e, s')
    end.

Declare Scope py_scope.
Delimit Scope py_scope with py.
Notation "x <- m ;; k" := (bind m (fun x => k))
  (at level 100, m at next level, right associativity) : py_scope.
Notation "m ;; k" := (bind m (fun _ => k))
  (at level 100, right associativity) : py_scope.
Open Scope py_scope.

(** A value or exception computed without touching the state. *)
Definition lift {A} (r : result A) : M A := fun s => (r, s).

(** A call that leaves the module: the environment answers from the calls
    made before this one, and the call is recorded. *)
Definition extern {A} (ev : event) (answer : list event -> result A) : M A :=
  fun s => (answer (trace s), {| trace := (trace s ++ [ev])%list; heap := heap s |}).

Definition log (level : log_level) (fmt : string) (args : list pyval) : M unit :=
  extern (EvLog level fmt args) (fun _ => inr tt).

(** [try: body / except classes: handler] *)
Definition try_except {A} (body : M A) (classes : list exc_class)
    (handler : M A) : M A :=
  fun s =>
    match body s with
    | (inl e, s') =>
        if except_matches classes e then handler s' else (inl e, s')
    | (inr a, s') => (inr a, s')
    end.

(** [try: body / finally: cleanup].  The cleanup runs on both exits of the
    body; an exception raised by the cleanup replaces the outcome of the
    body. *)
Definition try_finally {A} (body : M A) (cleanup : M unit) : M A :=
  fun s =>
    match body s with
    | (r, s') =>
        match cleanup s' with
        | (inr _, s'') => (r, s'')
        | (inl e, s'') => (inl e, s'')
        end
    end.

(** [for x in xs: body x] *)
Fixpoint for_each {A} (xs : list A) (body : A -> M unit) : M unit :=
  match xs with
  | [] => ret tt
  | x :: rest => body x ;; for_each rest body
  end.

(** [[f(x) for x in xs]] *)
Fixpoint for_list {A B} (xs : list A) (f : A -> M B) : M (list B) :=
  match xs with
  | [] => ret []
  | x :: rest => y <- f x ;; ys <- for_list rest f ;; ret (y :: ys)
  end.

(** *** Store of authorization records *)

(** [AuthorizationRecord(host, authz, dns_challenge, change_id)]: a new
    object. *)
Definition new_AuthorizationRecord (r : AuthorizationRecord) : M ref :=
  fun s =>
    let l := fresh (dom (heap s)) in
    (inr l, {| trace := trace s; heap := <[l := r]> (heap s) |}).

(** [obj.field] for one of the four attributes; a reference that is not an
    [AuthorizationRecord] has none of them. *)
Definition get_field {A} (field : AuthorizationRecord -> A) (name : string)
    (l : ref) : M A :=
  fun s =>
    match heap s !! l with
    | Some r => (inr (field r), s)
    | None => (inl (Raise AttributeError name), s)
    end.

(** *** Operations on dynamic values *)

(** [obj.name] *)
Definition getattr (v : pyval) (name : string) : result pyval :=
  match v with
  | PObj attrs =>
      match assoc name attrs with
      | Some x => inr x
      | None => inl (Raise AttributeError name)
      end
  | _ => inl (Raise AttributeError name)
  end.

(** [v[k]] for a string key [k] *)
Definition subscript (v : pyval) (k : string) : result pyval :=
  match v with
  | PDict entries =>
      match assoc k entries with
      | Some x => inr x
      | None => inl (Raise KeyError k)
      end
  | _ => inl (Raise TypeError k)
  end.

(** [v.get(k, default)]: only dictionaries have the method. *)
Definition dict_get (v : pyval) (k : string) (default : pyval) : result pyval :=
  match v with
  | PDict entries =>
      match assoc k entries with
      | Some x => inr x
      | None => inr default
      end
  | _ => inl (Raise AttributeError "get")
  end.

Fixpoint chars (s : string) : list pyval :=
  match s with
  | EmptyString => []
  | String c rest => PStr (String c EmptyString) :: chars rest
  end.

(** The items [for x in v] goes through. *)
Definition iterate (v : pyval) : result (list pyval) :=
  match v with
  | PList items => inr items
  | PDict entries => inr (map (fun kv => PStr (fst kv)) entries)
  | PStr s => inr (chars s)
  | _ => inl (Raise TypeError "object is not iterable")
  end.

(** ["\n".join(parts)] *)
Definition join_lines (parts : list string) : string :=
  String.concat (String "010"%char EmptyString) parts.

(** ** The module's functions *)

Section Plugin.

Variable w : World.

(** [find_dns_challenge]: the generator's items, in order. *)
Definition find_dns_challenge (authz : AuthorizationResource) : list ChallengeBody :=
  flat_map
    (fun combo =>
       match combo with
       | combo_0 :: _ =>
           if (length combo =? 1)%nat && is_DNS01 (chall combo_0)
           then [combo_0] else []
       | [] => []
       end)
    (resolved_combinations authz).

(** [[x] = items]: unpacking into a one-element target. *)
Definition unpack_one {A} (items : list A) : M A :=
  match items with
  | [x] => ret x
  | [] => raise (Raise ValueError "not enough values to unpack (expected 1, got 0)")
  | _ => raise (Raise ValueError "too many values to unpack (expected 1)")
  end.

Definition start_dns_challenge (acme_client : AcmeClient) (account_number : pyval)
    (host : pyval) (dns_provider : dns_module) : M ref :=
  log DEBUG "Starting DNS challenge for {0}" [host] ;;
  authz <- extern (EvRequestDomainChallenges acme_client host)
             (fun tr => request_domain_challenges w tr acme_client host) ;;
  dns_challenge <- unpack_one (find_dns_challenge authz) ;;
  let name := validation_domain_name w dns_challenge host in
  let value := validation w dns_challenge (key acme_client) in
  change_id <- extern (EvCreateTxtRecord dns_provider name value account_number)
                 (fun tr => create_txt_record w tr dns_provider name value account_number) ;;
  new_AuthorizationRecord
    {| host := host; authz := authz; dns_challenge := dns_challenge;
       change_id := change_id |}.

Definition complete_dns_challenge (acme_client : AcmeClient) (account_number : pyval)
    (authz_record : ref) (dns_provider : dns_module) : M unit :=
  record_host <- get_field host "host" authz_record ;;
  log DEBUG "Finalizing DNS challenge for {0}" [record_host] ;;
  record_change_id <- get_field change_id "change_id" authz_record ;;
  extern (EvWaitForDnsChange dns_provider record_change_id account_number)
    (fun tr => wait_for_dns_change w tr dns_provider record_change_id account_number) ;;
  record_challenge <- get_field dns_challenge "dns_challenge" authz_record ;;
  let response := response w record_challenge (key acme_client) in
  record_challenge <- get_field dns_challenge "dns_challenge" authz_record ;;
  record_host <- get_field host "host" authz_record ;;
  let pk := public_key w (key acme_client) in
  verified <- extern (EvSimpleVerify response (chall record_challenge) record_host pk)
                (fun tr => simple_verify w tr response (chall record_challenge) record_host pk) ;;
  if negb verified then raise (Raise ValueError "Failed verification")
  else
    record_challenge <- get_field dns_challenge "dns_challenge" authz_record ;;
    extern (EvAnswerChallenge acme_client record_challenge response)
      (fun tr => answer_challenge w tr acme_client record_challenge response).

Definition request_certificate (acme_client : AcmeClient) (authorizations : list ref)
    (csr : pyval) : M (string * string) :=
  request <- lift (load_certificate_request w csr) ;;
  authzrs <- for_list authorizations (get_field authz "authz") ;;
  cert_response <- extern (EvPollAndRequestIssuance acme_client request authzrs 60 10)
                     (fun tr => poll_and_request_issuance w tr acme_client request authzrs 60 10) ;;
  let pem_certificate := dump_certificate w (body cert_response) in
  certs <- extern (EvFetchChain acme_client cert_response)
             (fun tr => fetch_chain w tr acme_client cert_response) ;;
  let full_chain := fold_left (fun acc cert => (acc ++ [dump_certificate w cert])%list) certs [] in
  let pem_certificate_chain := join_lines full_chain in
  log DEBUG "{0} {1}" [PStr "<class 'str'>"; PStr "<class 'str'>"] ;;
  ret (pem_certificate, pem_certificate_chain).

(** The local dictionary [options] of [setup_acme_client]: its keys are
    whatever the decoded entries carry under ["name"]. *)
Definition options_dict : Type := list (pyval * pyval).

(** [options[k] = v]: the latest binding of a key is the one found. *)
Definition options_set (options : options_dict) (k v : pyval) : result options_dict :=
  if hashable k then inr ((k, v) :: options)
  else inl (Raise TypeError "unhashable type").

(** [options.get(name, default)] for a string [name]. *)
Fixpoint options_get (options : options_dict) (name : string) (default : pyval) : pyval :=
  match options with
  | [] => default
  | (k, v) :: rest => if eq_str k name then v else options_get rest name default
  end.

(** The loop [for option in json.loads(...): options[option["name"]] =
    option.get("value")]; the right-hand side is evaluated first. *)
Fixpoint read_options (items : list pyval) (options : options_dict) : result options_dict :=
  match items with
  | [] => inr options
  | option :: rest =>
      match dict_get option "value" PNone with
      | inl e => inl e
      | inr v =>
          match subscript option "name" with
          | inl e => inl e
          | inr k =>
              match options_set options k v with
              | inl e => inl e
              | inr options' => read_options rest options'
              end
          end
      end
  end.

Definition setup_acme_client (authority : pyval) : M (AcmeClient * RegistrationResource) :=
  authority_options <- lift (getattr authority "options") ;;
  if negb (truthy authority_options)
  then raise (Raise InvalidAuthority "Invalid authority. Options not set")
  else
    decoded <- lift (json_loads w authority_options) ;;
    items <- lift (iterate decoded) ;;
    options <- lift (read_options items []) ;;
    let email := options_get options "email" (config w "ACME_EMAIL") in
    let tel := options_get options "telephone" (config w "ACME_TEL") in
    let directory_url := options_get options "acme_url" (config w "ACME_DIRECTORY_URL") in
    private_key <- extern (EvGeneratePrivateKey "RSA2048")
                     (fun tr => generate_private_key w tr "RSA2048") ;;
    log DEBUG "Connecting with directory at {0}" [directory_url] ;;
    extern (EvClient directory_url private_key)
      (fun tr => Client w tr directory_url private_key) ;;
    let client := {| directory := directory_url; key := private_key |} in
    registration <- extern (EvRegister client email)
                      (fun tr => register w tr client email) ;;
    log DEBUG "Connected: {0}" [PStr (uri registration)] ;;
    extern (EvAgreeToTos client registration)
      (fun tr => agree_to_tos w tr client registration) ;;
    ret (client, registration).

Definition get_domains (options : pyval) : M (list pyval) :=
  log DEBUG "Fetching domains" [] ;;
  common_name <- lift (subscript options "common_name") ;;
  let domains := [common_name] in
  extensions <- lift (dict_get options "extensions" PNone) ;;
  domains <-
    (if truthy extensions then
       extensions <- lift (subscript options "extensions") ;;
       sub_alt_names <- lift (subscript extensions "sub_alt_names") ;;
       names <- lift (subscript sub_alt_names "names") ;;
       items <- lift (iterate names) ;;
       ret (fold_left (fun acc name => (acc ++ [name])%list) items domains)
     else ret domains) ;;
  log DEBUG "Got these domains: {0}" [PList domains] ;;
  ret domains.

Fixpoint get_authorizations_from (acme_client : AcmeClient) (account_number : pyval)
    (domains : list pyval) (dns_provider : dns_module) (authorizations : list ref)
    : M (list ref) :=
  match domains with
  | [] => ret authorizations
  | domain :: rest =>
      authz_record <- start_dns_challenge acme_client account_number domain dns_provider ;;
      get_authorizations_from acme_client account_number rest dns_provider
        (authorizations ++ [authz_record])%list
  end.

Definition get_authorizations (acme_client : AcmeClient) (account_number : pyval)
    (domains : list pyval) (dns_provider : dns_module) : M (list ref) :=
  get_authorizations_from acme_client account_number domains dns_provider [].

(** The body of the [finally] loop for one record. *)
Definition delete_record (acme_client : AcmeClient) (account_number : pyval)
    (dns_provider : dns_module) (authz_record : ref) : M unit :=
  dns_challenge <- get_field dns_challenge "dns_challenge" authz_record ;;
  record_change_id <- get_field change_id "change_id" authz_record ;;
  record_host <- get_field host "host" authz_record ;;
  let name := validation_domain_name w dns_challenge record_host in
  let value := validation w dns_challenge (key acme_client) in
  extern (EvDeleteTxtRecord dns_provider record_change_id account_number name value)
    (fun tr => delete_txt_record w tr dns_provider record_change_id account_number name value).

Definition finalize_authorizations (acme_client : AcmeClient) (account_number : pyval)
    (dns_provider : dns_module) (authorizations : list ref) : M (list ref) :=
  try_finally
    (for_each authorizations
       (fun authz_record =>
          complete_dns_challenge acme_client account_number authz_record dns_provider))
    (for_each authorizations
       (delete_record acme_client account_number dns_provider)) ;;
  ret authorizations.

(** *** [class ACMEIssuerPlugin] *)

(** [get_dns_provider]: a lookup in the dictionary of the three provider
    modules. *)
Definition get_dns_provider (type : pyval) : M dns_module :=
  if negb (hashable type) then raise (Raise TypeError "unhashable type")
  else
    if eq_str type "cloudflare" then ret cloudflare
    else if eq_str type "dyn" then ret dyn
    else if eq_str type "route53" then ret route53
    else raise (Raise UnknownProvider "No such DNS provider: {}").

(** The certificate dictionary built by both [get_ordered_certificate] and
    [get_ordered_certificates]. *)
Definition cert_dict (pem_certificate pem_certificate_chain : string)
    (pending_cert : pyval) : M pyval :=
  let cert_body := join_lines (splitlines w pem_certificate) in
  let cert_chain := join_lines (splitlines w pem_certificate_chain) in
  external_id <- lift (getattr pending_cert "external_id") ;;
  ret (PDict [("body", PStr cert_body); ("chain", PStr cert_chain);
              ("external_id", PStr (py_str w external_id))]).

(** The statements that set up one pending certificate: session, order
    information and provider module. *)
Definition resolve_pending (pending_cert : pyval)
    : M (AcmeClient * OrderInfo * dns_module) :=
  authority <- lift (getattr pending_cert "authority") ;;
  session <- setup_acme_client authority ;;
  let acme_client := fst session in
  external_id <- lift (getattr pending_cert "external_id") ;;
  order_info <- extern (EvAuthorizationGet external_id)
                  (fun tr => authorization_service_get w tr external_id) ;;
  dns_provider_id <- lift (getattr pending_cert "dns_provider_id") ;;
  dns_provider <- extern (EvDnsProviderGet dns_provider_id)
                    (fun tr => dns_provider_service_get w tr dns_provider_id) ;;
  provider_type <- lift (getattr dns_provider "provider_type") ;;
  dns_provider_type <- get_dns_provider provider_type ;;
  ret (acme_client, order_info, dns_provider_type).

(** [get_ordered_certificate]: the value returned is [False] or the
    certificate dictionary. *)
Definition get_ordered_certificate (pending_cert : pyval) : M pyval :=
  resolved <- resolve_pending pending_cert ;;
  let acme_client := fst (fst resolved) in
  let order_info := snd (fst resolved) in
  let dns_provider_type := snd resolved in
  orchestrated <-
    try_except
      (authorizations <- get_authorizations acme_client (account_number order_info)
                           (domains order_info) dns_provider_type ;;
       ret (Some authorizations))
      [ClientError]
      (name <- lift (getattr pending_cert "name") ;;
       log ERROR "Unable to resolve pending cert: {}" [name] ;;
       ret None) ;;
  match orchestrated with
  | None => ret (PBool false)
  | Some authorizations =>
      authorizations <- finalize_authorizations acme_client (account_number order_info)
                          dns_provider_type authorizations ;;
      csr <- lift (getattr pending_cert "csr") ;;
      pems <- request_certificate acme_client authorizations csr ;;
      cert_dict (fst pems) (snd pems) pending_cert
  end.

(** An element of the local list [pending]. *)
Record entry : Type :=
  { entry_acme_client : AcmeClient;
    entry_account_number : pyval;
    entry_dns_provider_type : dns_module;
    entry_authorizations : list ref;
    entry_pending_cert : pyval }.

(** An element of the returned list [certs]: [cert] is [False] or the
    certificate dictionary. *)
Record outcome : Type := { cert : pyval; pending_cert : pyval }.

(** Body of the first [try] of [get_ordered_certificates]: the entry that
    is appended to [pending]. *)
Definition orchestrate_one (pending_cert : pyval) : M entry :=
  resolved <- resolve_pending pending_cert ;;
  let acme_client := fst (fst resolved) in
  let order_info := snd (fst resolved) in
  let dns_provider_type := snd resolved in
  authorizations <- get_authorizations acme_client (account_number order_info)
                      (domains order_info) dns_provider_type ;;
  ret {| entry_acme_client := acme_client;
         entry_account_number := account_number order_info;
         entry_dns_provider_type := dns_provider_type;
         entry_authorizations := authorizations;
         entry_pending_cert := pending_cert |}.

(** First loop of [get_ordered_certificates]. *)
Fixpoint orchestrate_all (pending_certs : list pyval) (pending : list entry)
    (certs : list outcome) : M (list entry * list outcome) :=
  match pending_certs with
  | [] => ret (pending, certs)
  | pending_cert :: rest =>
      lists <-
        try_except
          (entry <- orchestrate_one pending_cert ;;
           ret ((pending ++ [entry])%list, certs))
          [ClientError; ValueError; Exception]
          (log ERROR "Unable to resolve pending cert: {}" [pending_cert] ;;
           ret (pending,
                (certs ++ [{| cert := PBool false; pending_cert := pending_cert |}])%list)) ;;
      orchestrate_all rest (fst lists) (snd lists)
  end.

(** Body of the second [try] of [get_ordered_certificates]: the
    certificate dictionary of one entry. *)
Definition issue_one (entry : entry) : M pyval :=
  authorizations <- finalize_authorizations (entry_acme_client entry)
                      (entry_account_number entry)
                      (entry_dns_provider_type entry)
                      (entry_authorizations entry) ;;
  csr <- lift (getattr (entry_pending_cert entry) "csr") ;;
  pems <- request_certificate (entry_acme_client entry) authorizations csr ;;
  cert_dict (fst pems) (snd pems) (entry_pending_cert entry).

(** Second loop of [get_ordered_certificates].  [last_pending_cert] is the
    variable [pending_cert] left over from the first loop, which the error
    message of this loop formats. *)
Fixpoint issue_all (last_pending_cert : pyval) (pending : list entry)
    (certs : list outcome) : M (list outcome) :=
  match pending with
  | [] => ret certs
  | entry :: rest =>
      certs <-
        try_except
          (cert <- issue_one entry ;;
           ret (certs ++ [{| cert := cert;
                             pending_cert := entry_pending_cert entry |}])%list)
          [PollError; AcmeError; Exception]
          (log ERROR "Unable to resolve pending cert: {}" [last_pending_cert] ;;
           ret (certs ++ [{| cert := PBool false;
                             pending_cert := entry_pending_cert entry |}])%list) ;;
      issue_all last_pending_cert rest certs
  end.

Definition get_ordered_certificates (pending_certs : list pyval) : M (list outcome) :=
  lists <- orchestrate_all pending_certs [] [] ;;
  issue_all (List.last pending_certs PNone) (fst lists) (snd lists).

(** The loop that flattens [domains] into [authz_domains]. *)
Fixpoint flatten_domains (domains : list pyval) (authz_domains : list pyval)
    : result (list pyval) :=
  match domains with
  | [] => inr authz_domains
  | d :: rest =>
      if is_str d then flatten_domains rest (authz_domains ++ [d])%list
      else
        match getattr d "value" with
        | inl e => inl e
        | inr v => flatten_domains rest (authz_domains ++ [v])%list
        end
  end.

(** [create_certificate]: the returned triple. *)
Definition create_certificate (csr : pyval) (issuer_options : pyval)
    : M (pyval * pyval * pyval) :=
  authority <- lift (dict_get issuer_options "authority" PNone) ;;
  create_immediately <- lift (dict_get issuer_options "create_immediately" (PBool false)) ;;
  session <- setup_acme_client authority ;;
  let acme_client := fst session in
  dns_provider <- lift (dict_get issuer_options "dns_provider" PNone) ;;
  if negb (truthy dns_provider)
  then raise (Raise InvalidConfiguration
                "DNS Provider setting is required for ACME certificates.")
  else
    credentials_text <- lift (getattr dns_provider "credentials") ;;
    credentials <- lift (json_loads w credentials_text) ;;
    provider_type <- lift (getattr dns_provider "provider_type") ;;
    log DEBUG "Using DNS provider: {0}" [provider_type] ;;
    dns_provider_type <- lift (import_module w provider_type) ;;
    account_number <- lift (dict_get credentials "account_id" PNone) ;;
    if eq_str provider_type "route53" && negb (truthy account_number)
    then
      provider_name <- lift (getattr dns_provider "name") ;;
      let error := "Route53 DNS Provider {} does not have an account number configured." in
      log ERROR error [provider_name] ;;
      raise (Raise InvalidConfiguration error)
    else
      domains <- get_domains issuer_options ;;
      if negb (truthy create_immediately)
      then
        authz_domains <- lift (flatten_domains domains []) ;;
        dns_authorization <-
          extern (EvAuthorizationCreate account_number authz_domains provider_type)
            (fun tr => authorization_service_create w tr account_number authz_domains
                         provider_type) ;;
        authorization_id <- lift (getattr dns_authorization "id") ;;
        ret (PNone, PNone, authorization_id)
      else
        authorizations <- get_authorizations acme_client account_number domains
                            dns_provider_type ;;
        finalize_authorizations acme_client account_number dns_provider_type
          authorizations ;;
        pems <- request_certificate acme_client authorizations csr ;;
        ret (PStr (fst pems), PStr (snd pems), PNone).

(** The role handed back by [create_authority]. *)
Definition role : pyval :=
  PDict [("username", PStr EmptyString); ("password", PStr EmptyString);
         ("name", PStr "acme")].

(** The loop of [create_authority]: an option named ["certificate"]
    replaces the root found so far by its value. *)
Fixpoint scan_certificate (plugin_options : list pyval) (acme_root : pyval)
    : result pyval :=
  match plugin_options with
  | [] => inr acme_root
  | option :: rest =>
      match dict_get option "name" PNone with
      | inl e => inl e
      | inr name =>
          if eq_str name "certificate"
          then
            match dict_get option "value" PNone with
            | inl e => inl e
            | inr value => scan_certificate rest value
            end
          else scan_certificate rest acme_root
      end
  end.

(** [create_authority]: the returned triple (root, chain, roles). *)
Definition create_authority (options : pyval) : M (pyval * string * list pyval) :=
  plugin <- lift (dict_get options "plugin" (PDict [])) ;;
  plugin_options <- lift (dict_get plugin "plugin_options" PNone) ;;
  if negb (truthy plugin_options)
  then
    let error := "Invalid options for lemur_acme plugin: {}" in
    log ERROR error [options] ;;
    raise (Raise InvalidConfiguration error)
  else
    let acme_root := config w "ACME_ROOT" in
    items <- lift (iterate plugin_options) ;;
    acme_root <- lift (scan_certificate items acme_root) ;;
    ret (acme_root, EmptyString, [role]).

End Plugin.

(** ** A concrete environment for examples *)

Module Sample.

Definition dns01_challenge : ChallengeBody :=
  {| chall := DNS01 "token-1"; challb_uri := "https://ca.example/chall/1" |}.

Definition http01_challenge : ChallengeBody :=
  {| chall := HTTP01 "token-2"; challb_uri := "https://ca.example/chall/2" |}.

(** A CA answer offering DNS-01 alone, HTTP-01 alone, and both together. *)
Definition offered : AuthorizationResource :=
  {| authz_uri := "https://ca.example/authz/1";
     resolved_combinations :=
       [[http01_challenge]; [dns01_challenge]; [dns01_challenge; http01_challenge]] |}.

(** The text of a JSON string literal. *)
Definition quoted (s : string) : string :=
  String "034"%char (s ++ String "034"%char EmptyString).

(** Credentials that carry an account id. *)
Definition account_credentials : string :=
  "{" ++ quoted "account_id" ++ ": " ++ quoted "123" ++ "}".

(** Decoding of the few JSON documents the examples use. *)
Definition loads (v : pyval) : result pyval :=
  match v with
  | PStr s =>
      if String.eqb s "[]" then inr (PList [])
      else if String.eqb s "{}" then inr (PDict [])
      else if String.eqb s account_credentials
      then inr (PDict [("account_id", PStr "123")])
      else inl (Raise JSONDecodeError "Expecting value: line 1 column 1 (char 0)")
  | _ => inl (Raise TypeError "the JSON object must be str, bytes or bytearray")
  end.

Definition import (v : pyval) : result dns_module :=
  if eq_str v "cloudflare" then inr cloudflare
  else if eq_str v "dyn" then inr dyn
  else if eq_str v "route53" then inr route53
  else inl (Raise ImportError "No module named").

(** An environment in which every call succeeds, except for the three
    behaviours given as arguments: the answer of the CA to a domain, local
    verification, and the three DNS provider operations. *)
Definition world_with
    (create : string -> result pyval)
    (challenges : pyval -> result AuthorizationResource)
    (verify : result bool)
    (wait : result unit)
    (delete : pyval -> result unit) : World :=
  {| config := fun name =>
       if String.eqb name "ACME_DIRECTORY_URL"
       then PStr "https://ca.example/directory" else PNone;
     json_loads := loads;
     py_str := fun v => match v with PStr s => s | _ => "None" end;
     splitlines := fun s => [s];
     import_module := import;
     generate_private_key := fun _ _ => inr (JWKRSA "account-key");
     public_key := fun k => match k with JWKRSA m => PublicKey m end;
     Client := fun _ _ _ => inr tt;
     register := fun _ _ _ => inr {| uri := "https://ca.example/reg/1" |};
     agree_to_tos := fun _ _ _ => inr tt;
     request_domain_challenges := fun _ _ h => challenges h;
     answer_challenge := fun _ _ _ _ => inr tt;
     poll_and_request_issuance := fun _ _ _ _ _ _ =>
       inr {| body := X509 "leaf"; cert_chain_uri := "https://ca.example/chain/1" |};
     fetch_chain := fun _ _ _ => inr [X509 "intermediate"];
     validation_domain_name := fun _ h =>
       match h with PStr s => "_acme-challenge." ++ s | _ => "_acme-challenge." end;
     validation := fun cb k =>
       match chall cb, k with
       | DNS01 t, JWKRSA m | HTTP01 t, JWKRSA m | TLSSNI01 t, JWKRSA m => t ++ "." ++ m
       end;
     response := fun cb k =>
       match chall cb, k with
       | DNS01 t, JWKRSA m | HTTP01 t, JWKRSA m | TLSSNI01 t, JWKRSA m =>
           DNS01Response (t ++ "." ++ m)
       end;
     simple_verify := fun _ _ _ _ _ => verify;
     load_certificate_request := fun v =>
       match v with
       | PStr s => inr (X509Req s)
       | _ => inl (Raise TypeError "initializer for ctype 'char[]' must be bytes")
       end;
     dump_certificate := fun c => match c with X509 d => d end;
     create_txt_record := fun _ _ name _ _ => create name;
     wait_for_dns_change := fun _ _ _ _ => wait;
     delete_txt_record := fun _ _ cid _ _ _ => delete cid;
     authorization_service_get := fun _ _ =>
       inr {| account_number := PStr "123"; domains := [PStr "example.com"] |};
     authorization_service_create := fun _ _ _ _ => inr (PObj [("id", PInt 7)]);
     dns_provider_service_get := fun _ _ =>
       inr (PObj [("provider_type", PStr "route53")]) |}.

Definition world : (pyval -> result AuthorizationResource) -> result bool ->
    result unit -> (pyval -> result unit) -> World :=
  world_with (fun name => inr (PStr ("change-" ++ name))).

(** Every call succeeds. *)
Definition happy : World :=
  world (fun _ => inr offered) (inr true) (inr tt) (fun _ => inr tt).

Definition client : AcmeClient :=
  {| directory := PStr "https://ca.example/directory"; key := JWKRSA "account-key" |}.

Definition record_1 : AuthorizationRecord :=
  {| host := PStr "example.com"; authz := offered;
     dns_challenge := dns01_challenge; change_id := PStr "change-1" |}.

Definition record_2 : AuthorizationRecord :=
  {| host := PStr "www.example.com"; authz := offered;
     dns_challenge := dns01_challenge; change_id := PStr "change-2" |}.

(** A state in which two authorization records exist and no call has been
    made yet. *)
Definition two_records : state :=
  {| trace := []; heap := <[2%positive := record_2]> (<[1%positive := record_1]> ∅) |}.

Definition empty_state : state := {| trace := []; heap := ∅ |}.

(** The provider fails to delete the record of the first change and would
    delete any other. *)
Definition first_deletion_fails : World :=
  world (fun _ => inr offered) (inr true) (inr tt)
    (fun cid =>
       if eq_str cid "change-1" then inl (Raise ClientError "Throttling")
       else inr tt).

(** Local verification fails, and so does the deletion of the first
    record. *)
Definition unverified_and_first_deletion_fails : World :=
  world (fun _ => inr offered) (inr false) (inr tt)
    (fun cid =>
       if eq_str cid "change-1" then inl (Raise ClientError "Throttling")
       else inr tt).

(** Local verification fails; the provider works. *)
Definition unverified : World :=
  world (fun _ => inr offered) (inr false) (inr tt) (fun _ => inr tt).

(** The provider refuses to create TXT records. *)
Definition creation_fails : World :=
  world_with (fun _ => inl (Raise ClientError "AccessDenied"))
    (fun _ => inr offered) (inr true) (inr tt) (fun _ => inr tt).

(** The provider fails while waiting for the change to propagate. *)
Definition propagation_fails : World :=
  world (fun _ => inr offered) (inr true) (inl (Raise ClientError "Throttling"))
    (fun _ => inr tt).

(** A pending certificate. *)
Definition pending_certificate (name : string) : pyval :=
  PObj [("authority", PObj [("options", PStr "[]")]);
        ("external_id", PStr "7"); ("dns_provider_id", PInt 1);
        ("csr", PStr "CSR"); ("name", PStr name)].

(** A pending certificate whose authority has no options. *)
Definition misconfigured_certificate (name : string) : pyval :=
  PObj [("authority", PObj [("options", PNone)]);
        ("external_id", PStr "8"); ("dns_provider_id", PInt 1);
        ("csr", PStr "CSR"); ("name", PStr name)].

(** An authority whose options are the empty JSON list. *)
Definition authority : pyval := PObj [("options", PStr "[]")].

(** A route53 provider whose credentials carry no account id. *)
Definition route53_without_account : list (string * pyval) :=
  [("authority", authority);
   ("dns_provider",
    PObj [("credentials", PStr "{}"); ("provider_type", PStr "route53");
          ("name", PStr "prod-dns")]);
   ("common_name", PStr "example.com")].

(** An immediate request for two domains through route53. *)
Definition immediate_request : list (string * pyval) :=
  [("authority", authority);
   ("create_immediately", PBool true);
   ("dns_provider",
    PObj [("credentials", PStr account_credentials);
          ("provider_type", PStr "route53"); ("name", PStr "prod-dns")]);
   ("common_name", PStr "example.com");
   ("extensions",
    PDict [("sub_alt_names", PDict [("names", PList [PStr "www.example.com"])])])].

(** A deferred request through the cloudflare provider, with a subject
    alternative name given as an x509 name object. *)
Definition deferred_request : list (string * pyval) :=
  [("authority", authority);
   ("create_immediately", PBool false);
   ("dns_provider",
    PObj [("credentials", PStr "{}"); ("provider_type", PStr "cloudflare");
          ("name", PStr "cf")]);
   ("common_name", PStr "example.com");
   ("extensions",
    PDict [("sub_alt_names",
            PDict [("names", PList [PObj [("value", PStr "www.example.com")]])])])].

(** Certificate options with two subject alternative names. *)
Definition san_entries : list (string * pyval) :=
  [("common_name", PStr "example.com");
   ("extensions",
    PDict [("sub_alt_names",
            PDict [("names", PList [PStr "www.example.com";
                                    PStr "api.example.com"])])])].

(** An environment with another JSON decoder. *)
Definition with_json_loads (decode : pyval -> result pyval) (w : World) : World :=
  {| config := config w;
     json_loads := decode;
     py_str := py_str w;
     splitlines := splitlines w;
     import_module := import_module w;
     generate_private_key := generate_private_key w;
     public_key := public_key w;
     Client := Client w;
     register := register w;
     agree_to_tos := agree_to_tos w;
     request_domain_challenges := request_domain_challenges w;
     answer_challenge := answer_challenge w;
     poll_and_request_issuance := poll_and_request_issuance w;
     fetch_chain := fetch_chain w;
     validation_domain_name := validation_domain_name w;
     validation := validation w;
     response := response w;
     simple_verify := simple_verify w;
     load_certificate_request := load_certificate_request w;
     dump_certificate := dump_certificate w;
     create_txt_record := create_txt_record w;
     wait_for_dns_change := wait_for_dns_change w;
     delete_txt_record := delete_txt_record w;
     authorization_service_get := authorization_service_get w;
     authorization_service_create := authorization_service_create w;
     dns_provider_service_get := dns_provider_service_get w |}.

(** Authority options that name [acme_url] twice, the second time without
    a value. *)
Definition repeated_acme_url : string :=
  "[{" ++ quoted "name" ++ ": " ++ quoted "acme_url" ++ ", "
       ++ quoted "value" ++ ": " ++ quoted "https://old.example/directory" ++ "}, {"
       ++ quoted "name" ++ ": " ++ quoted "email" ++ ", "
       ++ quoted "value" ++ ": " ++ quoted "admin@example.com" ++ "}, {"
       ++ quoted "name" ++ ": " ++ quoted "acme_url" ++ "}]".

Definition repeated_acme_url_decoded : pyval :=
  PList [PDict [("name", PStr "acme_url"); ("value", PStr "https://old.example/directory")];
         PDict [("name", PStr "email"); ("value", PStr "admin@example.com")];
         PDict [("name", PStr "acme_url")]].

(** The happy environment, whose decoder also knows that document. *)
Definition configured : World :=
  with_json_loads
    (fun v =>
       if eq_str v repeated_acme_url then inr repeated_acme_url_decoded else loads v)
    happy.

(** Plugin options with two certificates; the second is the root. *)
Definition plugin_options : list pyval :=
  [PDict [("name", PStr "certificate"); ("value", PStr "OLD ROOT")];
   PDict [("name", PStr "acme_url"); ("value", PStr "https://ca.example/directory")];
   PDict [("name", PStr "certificate"); ("value", PStr "NEW ROOT")];
   PDict [("name", PStr "email"); ("value", PStr "a@b.com")]].

Definition plugin_entries : list (string * pyval) :=
  [("plugin_options", PList plugin_options)].

Definition authority_entries : list (string * pyval) :=
  [("plugin", PDict plugin_entries)].

(** An environment with other order information. *)
Definition with_order (order_info : OrderInfo) (w : World) : World :=
  {| config := config w;
     json_loads := json_loads w;
     py_str := py_str w;
     splitlines := splitlines w;
     import_module := import_module w;
     generate_private_key := generate_private_key w;
     public_key := public_key w;
     Client := Client w;
     register := register w;
     agree_to_tos := agree_to_tos w;
     request_domain_challenges := request_domain_challenges w;
     answer_challenge := answer_challenge w;
     poll_and_request_issuance := poll_and_request_issuance w;
     fetch_chain := fetch_chain w;
     validation_domain_name := validation_domain_name w;
     validation := validation w;
     response := response w;
     simple_verify := simple_verify w;
     load_certificate_request := load_certificate_request w;
     dump_certificate := dump_certificate w;
     create_txt_record := create_txt_record w;
     wait_for_dns_change := wait_for_dns_change w;
     delete_txt_record := delete_txt_record w;
     authorization_service_get := fun _ _ => inr order_info;
     authorization_service_create := authorization_service_create w;
     dns_provider_service_get := dns_provider_service_get w |}.

(** An order for two domains with a provider that creates the record of
    the first and refuses the second. *)
Definition second_creation_fails : World :=
  with_order
    {| account_number := PStr "123";
       domains := [PStr "example.com"; PStr "www.example.com"] |}
    (world_with
       (fun name =>
          if String.eqb name "_acme-challenge.www.example.com"
          then inl (Raise ClientError "Throttling")
          else inr (PStr ("change-" ++ name)))
       (fun _ => inr offered) (inr true) (inr tt) (fun _ => inr tt)).

End Sample.

(** ** Vocabulary of the specification *)

(** A challenge combination that consists of a single DNS-01 challenge. *)
Definition single_dns01 (combo : list ChallengeBody) : bool :=
  match combo with
  | [c] => is_DNS01 (chall c)
  | _ => false
  end.

(** The deletion call that cleans up after one authorization record: the
    record's change id, with the validation name and value computed from
    its challenge and host. *)
Definition deletion_of (w : World) (acme_client : AcmeClient) (account_number : pyval)
    (dns_provider : dns_module) (r : AuthorizationRecord) : event :=
  EvDeleteTxtRecord dns_provider (change_id r) account_number
    (validation_domain_name w (dns_challenge r) (host r))
    (validation w (dns_challenge r) (key acme_client)).

(** The references of a list denote the given records in a store. *)
Definition denotes (h : gmap ref AuthorizationRecord) (refs : list ref)
    (records : list AuthorizationRecord) : Prop :=
  Forall2 (fun l r => h !! l = Some r) refs records.

(** The DNS provider never fails to delete a record. *)
Definition deletion_never_raises (w : World) : Prop :=
  forall tr m cid account name value,
    delete_txt_record w tr m cid account name value = inr tt.

(** A domain and its entry in the flattened list: a string stands for
    itself, any other object for its [value] attribute. *)
Definition flattened (d v : pyval) : Prop :=
  if is_str d then v = d else getattr d "value" = inr v.

(** The route53 misconfiguration message (its format string). *)
Definition route53_error : string :=
  "Route53 DNS Provider {} does not have an account number configured.".

(** The creation call that publishes the TXT record of one authorization
    record. *)
Definition creation_of (w : World) (acme_client : AcmeClient) (account_number : pyval)
    (dns_provider : dns_module) (r : AuthorizationRecord) : event :=
  EvCreateTxtRecord dns_provider
    (validation_domain_name w (dns_challenge r) (host r))
    (validation w (dns_challenge r) (key acme_client)) account_number.

Definition is_log (ev : event) : bool :=
  match ev with EvLog _ _ _ => true | _ => false end.

Definition is_answer (ev : event) : bool :=
  match ev with EvAnswerChallenge _ _ _ => true | _ => false end.

(** Calls made while challenges are started: the challenge request and the
    TXT record creation. *)
Definition is_orchestration_call (ev : event) : bool :=
  match ev with
  | EvRequestDomainChallenges _ _ | EvCreateTxtRecord _ _ _ _ => true
  | _ => false
  end.

(** Calls made while challenges are completed and the certificate is
    issued. *)
Definition is_completion_call (ev : event) : bool :=
  match ev with
  | EvWaitForDnsChange _ _ _
  | EvSimpleVerify _ _ _ _
  | EvAnswerChallenge _ _ _
  | EvDeleteTxtRecord _ _ _ _ _
  | EvPollAndRequestIssuance _ _ _ _ _
  | EvFetchChain _ _ => true
  | _ => false
  end.

(** An option of an authority or plugin that carries the given name. *)
Definition named (name : string) (option : pyval) : bool :=
  match dict_get option "name" PNone with
  | inr n => eq_str n name
  | inl _ => false
  end.

(** The TXT record a provider call is about: module, name, value and
    account. *)
Definition txt_record_of (ev : event) : option (dns_module * string * string * pyval) :=
  match ev with
  | EvCreateTxtRecord m name value account => Some (m, name, value, account)
  | EvDeleteTxtRecord m _ account name value => Some (m, name, value, account)
  | _ => None
  end.

(** A dictionary that is not the option of the given name. *)
Definition other_option (name : string) (option : pyval) : Prop :=
  (exists entries, option = PDict entries) /\ named name option = false.

(** A computation works in two phases: first calls that satisfy [P], then
    calls that satisfy [Q]. *)
Definition phased {A} (P Q : event -> bool) (m : M A) : Prop :=
  forall s, exists first second,
    trace (snd (m s)) = (trace s ++ first ++ second)%list /\
    forallb P first = true /\ forallb Q second = true.

(** Requests for issuance. *)
Definition is_issuance_call (ev : event) : bool :=
  match ev with
  | EvPollAndRequestIssuance _ _ _ _ _ | EvFetchChain _ _ => true
  | _ => false
  end.

(** The calls that complete the challenge of one record, in order: the
    wait for propagation, the local verification, the answer to the CA. *)
Definition completion_of (w : World) (acme_client : AcmeClient) (account_number : pyval)
    (dns_provider : dns_module) (r : AuthorizationRecord) : list event :=
  [EvLog DEBUG "Finalizing DNS challenge for {0}" [host r];
   EvWaitForDnsChange dns_provider (change_id r) account_number;
   EvSimpleVerify (response w (dns_challenge r) (key acme_client))
     (chall (dns_challenge r)) (host r) (public_key w (key acme_client));
   EvAnswerChallenge acme_client (dns_challenge r)
     (response w (dns_challenge r) (key acme_client))].

(** What the provider answers when asked, after the calls [tr], to delete
    the TXT record of an authorization record. *)
Definition deletion_answer (w : World) (acme_client : AcmeClient) (account_number : pyval)
    (dns_provider : dns_module) (tr : list event) (r : AuthorizationRecord)
    : result unit :=
  delete_txt_record w tr dns_provider (change_id r) account_number
    (validation_domain_name w (dns_challenge r) (host r))
    (validation w (dns_challenge r) (key acme_client)).

(** A computation only makes calls that satisfy [P]. *)
Definition emits {A} (P : event -> bool) (m : M A) : Prop :=
  forall s, exists evs, trace (snd (m s)) = (trace s ++ evs)%list /\ forallb P evs = true.

(** A computation leaves the store of records as it found it. *)
Definition frame {A} (m : M A) : Prop :=
  forall s, heap (snd (m s)) = heap s.

(** ** Running the model *)

Example find_dns_challenge_offered :
  find_dns_challenge Sample.offered = [Sample.dns01_challenge].
Proof. reflexivity. Qed.

Example issubclass_json_decode_error : issubclass JSONDecodeError ValueError = true.
Proof. reflexivity. Qed.

Example except_client_error_misses_value_error :
  except_matches [ClientError] (Raise ValueError "Failed verification") = false.
Proof. reflexivity. Qed.

Example get_dns_provider_dyn :
  fst (get_dns_provider (PStr "dyn") Sample.empty_state) = inr dyn.
Proof. reflexivity. Qed.

Example get_dns_provider_unknown :
  fst (get_dns_provider (PStr "bind9") Sample.empty_state)
  = inl (Raise UnknownProvider "No such DNS provider: {}").
Proof. reflexivity. Qed.

Example read_options_latest_binding :
  read_options
    [PDict [("name", PStr "acme_url"); ("value", PStr "https://a.example/dir")];
     PDict [("name", PStr "email")];
     PDict [("name", PStr "acme_url"); ("value", PStr "https://b.example/dir")]] []
  = inr [(PStr "acme_url", PStr "https://b.example/dir");
         (PStr "email", PNone);
         (PStr "acme_url", PStr "https://a.example/dir")].
Proof. reflexivity. Qed.

Example read_options_entry_without_name :
  read_options [PDict [("value", PStr "x")]] [] = inl (Raise KeyError "name").
Proof. reflexivity. Qed.

(** The end-to-end scenario: two domains through route53 with an account
    id.  Two TXT records are created, the same two are deleted after the
    challenges are answered, and the certificate and its chain come
    back. *)
Example create_certificate_immediately :
  let outcome :=
    create_certificate Sample.happy (PStr "CSR") (PDict Sample.immediate_request)
      Sample.empty_state in
  fst outcome = inr (PStr "leaf", PStr "intermediate", PNone) /\
  List.filter is_create (trace (snd outcome))
  = [EvCreateTxtRecord route53 "_acme-challenge.example.com" "token-1.account-key"
       (PStr "123");
     EvCreateTxtRecord route53 "_acme-challenge.www.example.com" "token-1.account-key"
       (PStr "123")] /\
  List.filter is_delete (trace (snd outcome))
  = [EvDeleteTxtRecord route53 (PStr "change-_acme-challenge.example.com") (PStr "123")
       "_acme-challenge.example.com" "token-1.account-key";
     EvDeleteTxtRecord route53 (PStr "change-_acme-challenge.www.example.com") (PStr "123")
       "_acme-challenge.www.example.com" "token-1.account-key"] /\
  size (heap (snd outcome)) = 2.
Proof. vm_compute. repeat split; reflexivity. Qed.

(** ** Properties of the control operators *)

Section Control.

Context {A B : Type}.

Lemma frame_ret (a : A) : frame (ret a).
Proof. intros s; reflexivity. Qed.

Lemma frame_raise (e : exn) : frame (@raise A e).
Proof. intros s; reflexivity. Qed.

Lemma frame_lift (r : result A) : frame (lift r).
Proof. intros s; reflexivity. Qed.

Lemma frame_extern (ev : event) (answer : list event -> result A) :
  frame (extern ev answer).
Proof. intros s; reflexivity. Qed.

Lemma frame_get_field (field : AuthorizationRecord -> A) name l :
  frame (get_field field name l).
Proof. intros s; unfold get_field; destruct (heap s !! l); reflexivity. Qed.

Lemma frame_bind (m : M A) (k : A -> M B) :
  frame m -> (forall a, frame (k a)) -> frame (bind m k).
Proof.
  intros Hm Hk s. unfold bind. specialize (Hm s).
  destruct (m s) as [[e | a] s1]; simpl in *; [assumption |].
  rewrite Hk. assumption.
Qed.

Lemma frame_try_except (body handler : M A) classes :
  frame body -> frame handler -> frame (try_except body classes handler).
Proof.
  intros Hb Hh s. unfold try_except. specialize (Hb s).
  destruct (body s) as [[e | a] s1]; simpl in *; [| assumption].
  destruct (except_matches classes e); simpl; [| assumption].
  rewrite Hh. assumption.
Qed.

Lemma frame_try_finally (body : M A) (cleanup : M unit) :
  frame body -> frame cleanup -> frame (try_finally body cleanup).
Proof.
  intros Hb Hc s. unfold try_finally. specialize (Hb s).
  destruct (body s) as [r s1]; simpl in *.
  specialize (Hc s1).
  destruct (cleanup s1) as [[e | []] s2]; simpl in *; congruence.
Qed.

Lemma emits_ret P (a : A) : emits P (ret a).
Proof. intros s; exists []; simpl; rewrite app_nil_r; auto. Qed.

Lemma emits_raise P (e : exn) : emits P (@raise A e).
Proof. intros s; exists []; simpl; rewrite app_nil_r; auto. Qed.

Lemma emits_lift P (r : result A) : emits P (lift r).
Proof. intros s; exists []; simpl; rewrite app_nil_r; auto. Qed.

Lemma emits_extern (P : event -> bool) ev (answer : list event -> result A) :
  P ev = true -> emits P (extern ev answer).
Proof. intros HP s; exists [ev]; simpl; rewrite HP; auto. Qed.

Lemma emits_get_field P (field : AuthorizationRecord -> A) name l :
  emits P (get_field field name l).
Proof.
  intros s; exists []; unfold get_field.
  destruct (heap s !! l); simpl; rewrite app_nil_r; auto.
Qed.

Lemma emits_bind P (m : M A) (k : A -> M B) :
  emits P m -> (forall a, emits P (k a)) -> emits P (bind m k).
Proof.
  intros Hm Hk s. unfold bind. destruct (Hm s) as (evs & Htr & HP).
  destruct (m s) as [[e | a] s1]; simpl in *; [eauto |].
  destruct (Hk a s1) as (evs' & Htr' & HP').
  exists (evs ++ evs')%list. rewrite Htr', Htr, app_assoc, forallb_app, HP, HP'; auto.
Qed.

Lemma emits_try_except P (body handler : M A) classes :
  emits P body -> emits P handler -> emits P (try_except body classes handler).
Proof.
  intros Hb Hh s. unfold try_except. destruct (Hb s) as (evs & Htr & HP).
  destruct (body s) as [[e | a] s1]; simpl in *; [| eauto].
  destruct (except_matches classes e); simpl; [| eauto].
  destruct (Hh s1) as (evs' & Htr' & HP').
  exists (evs ++ evs')%list. rewrite Htr', Htr, app_assoc, forallb_app, HP, HP'; auto.
Qed.

Lemma emits_try_finally P (body : M A) (cleanup : M unit) :
  emits P body -> emits P cleanup -> emits P (try_finally body cleanup).
Proof.
  intros Hb Hc s. unfold try_finally. destruct (Hb s) as (evs & Htr & HP).
  destruct (body s) as [r s1]; simpl in *.
  destruct (Hc s1) as (evs' & Htr' & HP').
  exists (evs ++ evs')%list.
  destruct (cleanup s1) as [[e | []] s2]; simpl in *;
    rewrite Htr', Htr, app_assoc, forallb_app, HP, HP'; auto.
Qed.

End Control.

Lemma frame_for_each {A} (xs : list A) (body : A -> M unit) :
  (forall x, frame (body x)) -> frame (for_each xs body).
Proof.
  intros Hb. induction xs as [| x xs IH]; simpl.
  - apply frame_ret.
  - apply frame_bind; auto.
Qed.

Lemma emits_for_each {A} P (xs : list A) (body : A -> M unit) :
  (forall x, emits P (body x)) -> emits P (for_each xs body).
Proof.
  intros Hb. induction xs as [| x xs IH]; simpl.
  - apply emits_ret.
  - apply emits_bind; auto.
Qed.

Lemma frame_for_list {A B} (xs : list A) (f : A -> M B) :
  (forall x, frame (f x)) -> frame (for_list xs f).
Proof.
  intros Hf. induction xs as [| x xs IH]; simpl.
  - apply frame_ret.
  - apply frame_bind; auto. intros y. apply frame_bind; auto.
    intros ys. apply frame_ret.
Qed.

Lemma emits_for_list {A B} P (xs : list A) (f : A -> M B) :
  (forall x, emits P (f x)) -> emits P (for_list xs f).
Proof.
  intros Hf. induction xs as [| x xs IH]; simpl.
  - apply emits_ret.
  - apply emits_bind; auto. intros y. apply emits_bind; auto.
    intros ys. apply emits_ret.
Qed.

(** One turn of a loop. *)
Lemma for_each_cons {A} (x : A) (xs : list A) (body : A -> M unit) (s : state) :
  for_each (x :: xs) body s
  = match body x s with
    | (inr _, s') => for_each xs body s'
    | (inl e, s') => (inl e, s')
    end.
Proof. reflexivity. Qed.

Lemma frame_log level fmt args : frame (log level fmt args).
Proof. apply frame_extern. Qed.

Lemma emits_log (P : event -> bool) level fmt args :
  P (EvLog level fmt args) = true -> emits P (log level fmt args).
Proof. apply emits_extern. Qed.

Create HintDb py discriminated.

#[export] Hint Resolve
  frame_ret frame_raise frame_lift frame_extern frame_get_field frame_log
  frame_for_each frame_for_list frame_try_except frame_try_finally
  emits_ret emits_raise emits_lift emits_get_field
  emits_for_each emits_for_list emits_try_except emits_try_finally : py.

(** Walks through a computation built from the operators above. *)
Ltac walk :=
  repeat first
    [ progress intros
    | apply frame_bind | apply emits_bind
    | apply emits_extern; reflexivity
    | apply emits_log; reflexivity
    | solve [auto with py]
    | match goal with
      | |- frame (if ?b then _ else _) => destruct b
      | |- emits _ (if ?b then _ else _) => destruct b
      | |- frame (match ?x with _ => _ end) => destruct x
      | |- emits _ (match ?x with _ => _ end) => destruct x
      end ].

(** The accumulation loop [for x in items: acc.append(x)]. *)
Lemma fold_left_append {A} (items acc : list A) :
  fold_left (fun acc x => (acc ++ [x])%list) items acc = (acc ++ items)%list.
Proof.
  revert acc. induction items as [| x items IH]; intros acc; simpl.
  - symmetry. apply app_nil_r.
  - rewrite IH, <- app_assoc. reflexivity.
Qed.

(** ** [get_domains] *)

(** C8. For an options dictionary with a [common_name], [get_domains]
    returns the list made of the common name alone when there is no
    [extensions] entry (or an empty one), and the common name followed by
    the names of [extensions.sub_alt_names.names], in their order, when
    that list is present. *)
Theorem get_domains_common_name_then_sans (entries : list (string * pyval))
    (common_name : pyval) (s : state) :
  assoc "common_name" entries = Some common_name ->
  (assoc "extensions" entries = None ->
   fst (get_domains (PDict entries) s) = inr [common_name]) /\
  (forall extensions,
     assoc "extensions" entries = Some extensions ->
     truthy extensions = false ->
     fst (get_domains (PDict entries) s) = inr [common_name]) /\
  (forall extensions sub_alt_names names,
     assoc "extensions" entries = Some (PDict extensions) ->
     assoc "sub_alt_names" extensions = Some (PDict sub_alt_names) ->
     assoc "names" sub_alt_names = Some (PList names) ->
     fst (get_domains (PDict entries) s) = inr (common_name :: names)).
Proof.
  intros Hcn. split; [| split].
  - intros Hext. unfold get_domains, bind, log, extern, lift, ret; simpl.
    rewrite Hcn, Hext. reflexivity.
  - intros extensions Hext Hfalsy.
    unfold get_domains, bind, log, extern, lift, ret; simpl.
    rewrite Hcn, Hext, Hfalsy. reflexivity.
  - intros extensions sub_alt_names names Hext Hsan Hnames.
    unfold get_domains, bind, log, extern, lift, ret; simpl.
    rewrite Hcn, Hext.
    destruct extensions as [| binding extensions']; [discriminate Hsan |].
    simpl truthy. cbv iota. unfold subscript at 1.
    rewrite Hsan. simpl. rewrite Hnames. simpl.
    rewrite fold_left_append. reflexivity.
Qed.

Lemma get_domains_common_name_then_sans_witness :
  fst (get_domains (PDict Sample.san_entries) Sample.empty_state)
  = inr [PStr "example.com"; PStr "www.example.com"; PStr "api.example.com"].
Proof.
  apply (proj2 (proj2 (get_domains_common_name_then_sans Sample.san_entries
                         (PStr "example.com") Sample.empty_state eq_refl))
           _ _ _ eq_refl eq_refl eq_refl).
Defined.

(** ** [find_dns_challenge] and [start_dns_challenge] *)

(** The generator yields the head of every combination that is a single
    DNS-01 challenge. *)
Lemma find_dns_challenge_filter (authz : AuthorizationResource) :
  map (fun c => [c]) (find_dns_challenge authz)
  = List.filter single_dns01 (resolved_combinations authz).
Proof.
  unfold find_dns_challenge.
  induction (resolved_combinations authz) as [| combo combos IH]; [reflexivity |].
  simpl flat_map. rewrite map_app, IH.
  destruct combo as [| c [| c' rest]]; simpl; try reflexivity.
  destruct (is_DNS01 (chall c)); reflexivity.
Qed.

Lemma find_dns_challenge_length (authz : AuthorizationResource) :
  length (find_dns_challenge authz)
  = length (List.filter single_dns01 (resolved_combinations authz)).
Proof. rewrite <- find_dns_challenge_filter, length_map. reflexivity. Qed.

(** C2. Given the CA's answer to the challenge request,
    [start_dns_challenge] goes on to create the TXT record for a DNS-01
    challenge exactly when that answer holds one combination that is a
    single DNS-01 challenge, and that challenge is the one recorded; with
    none or several it raises [ValueError] after the request, with no TXT
    record created and no record built. *)
Theorem start_dns_challenge_selects_unique_dns01 (w : World) (acme_client : AcmeClient)
    (account_number host : pyval) (dns_provider : dns_module) (s : state)
    (authz : AuthorizationResource) :
  let asked :=
    [EvLog DEBUG "Starting DNS challenge for {0}" [host];
     EvRequestDomainChallenges acme_client host] in
  let singles :=
    List.filter single_dns01 (resolved_combinations authz) in
  request_domain_challenges w
    (trace s ++ [EvLog DEBUG "Starting DNS challenge for {0}" [host]])%list
    acme_client host = inr authz ->
  (length singles = 1 ->
   exists c,
     singles = [[c]] /\
     is_DNS01 (chall c) = true /\
     let creation :=
       EvCreateTxtRecord dns_provider (validation_domain_name w c host)
         (validation w c (key acme_client)) account_number in
     let outcome := start_dns_challenge w acme_client account_number host dns_provider s in
     trace (snd outcome) = (trace s ++ asked ++ [creation])%list /\
     match fst outcome with
     | inr l =>
         exists cid,
           create_txt_record w (trace s ++ asked)%list dns_provider
             (validation_domain_name w c host) (validation w c (key acme_client))
             account_number = inr cid /\
           heap s !! l = None /\
           heap (snd outcome)
           = <[l := {| host := host; authz := authz; dns_challenge := c;
                       change_id := cid |}]> (heap s)
     | inl e =>
         create_txt_record w (trace s ++ asked)%list dns_provider
           (validation_domain_name w c host) (validation w c (key acme_client))
           account_number = inl e /\
         heap (snd outcome) = heap s
     end) /\
  (length singles <> 1 ->
   exists msg,
     start_dns_challenge w acme_client account_number host dns_provider s
     = (inl (Raise ValueError msg),
        {| trace := (trace s ++ asked)%list; heap := heap s |})).
Proof.
  intros asked singles Hreq.
  assert (Hrun : forall k : AuthorizationResource -> M ref,
    bind (log DEBUG "Starting DNS challenge for {0}" [host])
      (fun _ => bind (extern (EvRequestDomainChallenges acme_client host)
                        (fun tr => request_domain_challenges w tr acme_client host)) k) s
    = k authz {| trace := (trace s ++ asked)%list; heap := heap s |}).
  { intros k. unfold bind, log, extern; simpl. rewrite Hreq.
    rewrite <- app_assoc. reflexivity. }
  pose proof (find_dns_challenge_filter authz) as Hfilter. fold singles in Hfilter.
  split.
  - intros Hone.
    destruct (find_dns_challenge authz) as [| c [| c' rest]] eqn:Hfind;
      simpl in Hfilter; rewrite <- Hfilter in Hone; simpl in Hone; try discriminate.
    exists c. split; [symmetry; exact Hfilter |].
    split.
    { assert (Hin : In [c] singles) by (rewrite <- Hfilter; left; reflexivity).
      apply List.filter_In in Hin. exact (proj2 Hin). }
    unfold start_dns_challenge. rewrite Hrun, Hfind. simpl unpack_one.
    unfold bind, ret, extern, new_AuthorizationRecord; simpl.
    destruct (create_txt_record w (trace s ++ asked)%list dns_provider
                (validation_domain_name w c host) (validation w c (key acme_client))
                account_number) as [e | cid] eqn:Hcreate; simpl.
    + rewrite <- app_assoc. auto.
    + rewrite <- app_assoc. split; [reflexivity |].
      exists cid. split; [reflexivity |]. split; [| reflexivity].
      apply not_elem_of_dom. apply is_fresh.
  - intros Hnot.
    unfold start_dns_challenge. rewrite Hrun.
    destruct (find_dns_challenge authz) as [| c [| c' rest]] eqn:Hfind;
      simpl in Hfilter; rewrite <- Hfilter in Hnot; simpl in Hnot.
    + eexists. reflexivity.
    + contradiction Hnot. reflexivity.
    + eexists. reflexivity.
Qed.

Lemma start_dns_challenge_selects_unique_dns01_witness :
  exists c,
    List.filter single_dns01
      (resolved_combinations Sample.offered) = [[c]] /\
    trace (snd (start_dns_challenge Sample.happy Sample.client (PStr "123")
                  (PStr "example.com") route53 Sample.empty_state))
    = [EvLog DEBUG "Starting DNS challenge for {0}" [PStr "example.com"];
       EvRequestDomainChallenges Sample.client (PStr "example.com");
       EvCreateTxtRecord route53
         (validation_domain_name Sample.happy c (PStr "example.com"))
         (validation Sample.happy c (key Sample.client)) (PStr "123")].
Proof.
  destruct (proj1 (start_dns_challenge_selects_unique_dns01 Sample.happy Sample.client
                     (PStr "123") (PStr "example.com") route53 Sample.empty_state
                     Sample.offered eq_refl) eq_refl)
    as (c & Hsingle & _ & Htrace & _).
  exists c. split; [exact Hsingle | exact Htrace].
Defined.

(** ** [finalize_authorizations] *)

Section Finalize.

Variable w : World.
Variable acme_client : AcmeClient.
Variable account_number : pyval.
Variable dns_provider : dns_module.

Let complete (authz_record : ref) : M unit :=
  complete_dns_challenge w acme_client account_number authz_record dns_provider.

Let cleanup : ref -> M unit :=
  delete_record w acme_client account_number dns_provider.

Let deletion : AuthorizationRecord -> event :=
  deletion_of w acme_client account_number dns_provider.

Lemma frame_complete_dns_challenge l : frame (complete l).
Proof. unfold complete, complete_dns_challenge. walk. Qed.

Lemma emits_complete_dns_challenge l :
  emits (fun ev => negb (is_delete ev)) (complete l).
Proof. unfold complete, complete_dns_challenge. walk. Qed.

Lemma frame_delete_record l : frame (cleanup l).
Proof. unfold cleanup, delete_record. walk. Qed.

(** Cleaning up one record makes exactly the deletion call of that record,
    and its outcome is the provider's. *)
Lemma delete_record_run l r s :
  heap s !! l = Some r ->
  cleanup l s
  = (delete_txt_record w (trace s) dns_provider (change_id r) account_number
       (validation_domain_name w (dns_challenge r) (host r))
       (validation w (dns_challenge r) (key acme_client)),
     {| trace := (trace s ++ [deletion r])%list; heap := heap s |}).
Proof.
  intros Hl. unfold cleanup, delete_record, bind, get_field, extern; simpl.
  repeat (rewrite Hl; simpl). reflexivity.
Qed.

(** The cleanup loop deletes the records in order and stops after the
    first deletion that raises. *)
Lemma cleanup_loop_run refs records s :
  denotes (heap s) refs records ->
  exists k,
    k <= length records /\
    trace (snd (for_each refs cleanup s))
    = (trace s ++ map deletion (take k records))%list /\
    heap (snd (for_each refs cleanup s)) = heap s /\
    (fst (for_each refs cleanup s) = inr tt -> k = length records) /\
    (k < length records -> exists e, fst (for_each refs cleanup s) = inl e) /\
    (deletion_never_raises w ->
     fst (for_each refs cleanup s) = inr tt /\ k = length records).
Proof.
  intros Hden. revert records s Hden.
  induction refs as [| l refs IH]; intros records s Hden.
  - inversion Hden; subst. exists 0. simpl. rewrite app_nil_r.
    repeat split; auto; lia.
  - inversion Hden as [| l' r refs' records' Hl Hrest]; subst.
    rewrite for_each_cons, (delete_record_run l r s Hl).
    destruct (delete_txt_record w (trace s) dns_provider (change_id r) account_number
                (validation_domain_name w (dns_challenge r) (host r))
                (validation w (dns_challenge r) (key acme_client)))
      as [e | []] eqn:Hdel.
    + exists 1. simpl. simpl.
      split; [lia |]. split; [reflexivity |]. split; [reflexivity |].
      split; [discriminate |]. split; [eauto |].
      intros Hnever. rewrite Hnever in Hdel. discriminate.
    + set (s1 := {| trace := (trace s ++ [deletion r])%list; heap := heap s |}).
      destruct (IH records' s1 Hrest) as (k & Hk & Htr & Hheap & Hok & Hfail & Hnever).
      exists (S k). simpl. rewrite Htr. simpl. rewrite <- app_assoc. simpl.
      split; [lia |]. split; [reflexivity |]. split; [assumption |].
      split; [intros Hr; f_equal; auto |].
      split; [intros Hlt; apply Hfail; lia |].
      intros Hn. destruct (Hnever Hn). split; [assumption | f_equal; assumption].
Qed.

Lemma filter_is_delete_deletions (records : list AuthorizationRecord) :
  List.filter is_delete (map deletion records) = map deletion records.
Proof. induction records as [| r records IH]; simpl; congruence. Qed.

Lemma filter_is_delete_none (evs : list event) :
  forallb (fun ev => negb (is_delete ev)) evs = true ->
  List.filter is_delete evs = [].
Proof.
  induction evs as [| ev evs IH]; simpl; [reflexivity |].
  destruct (is_delete ev); simpl; [discriminate | assumption].
Qed.

(** [finalize_authorizations] is the challenge loop, then the cleanup
    loop, then the outcome: the cleanup's exception if it raised, else the
    challenge loop's exception if it raised, else the list. *)
Lemma finalize_authorizations_run refs s :
  finalize_authorizations w acme_client account_number dns_provider refs s
  = let challenged := for_each refs complete s in
    let cleaned := for_each refs cleanup (snd challenged) in
    (match fst cleaned with
     | inl e => inl e
     | inr _ =>
         match fst challenged with
         | inl e => inl e
         | inr _ => inr refs
         end
     end, snd cleaned).
Proof.
  unfold finalize_authorizations, bind, try_finally, ret.
  fold complete. fold cleanup.
  destruct (for_each refs complete s) as [[e1 | []] s1]; simpl;
    destruct (for_each refs cleanup s1) as [[e2 | []] s2]; reflexivity.
Qed.

(** A loop that raises did so at its first failing item. *)
Lemma for_each_raise_inv {A} (xs : list A) (body : A -> M unit) s e s' :
  for_each xs body s = (inl e, s') ->
  exists k x sk,
    xs !! k = Some x /\
    for_each (take k xs) body s = (inr tt, sk) /\
    body x sk = (inl e, s').
Proof.
  revert s. induction xs as [| x xs IH]; intros s Hrun.
  - discriminate Hrun.
  - rewrite for_each_cons in Hrun.
    destruct (body x s) as [[e0 | []] s0] eqn:Hbody.
    + inversion Hrun; subst. exists 0, x, s. auto.
    + destruct (IH s0 Hrun) as (k & y & sk & Hk & Hpre & Hy).
      exists (S k), y, sk. split; [exact Hk |]. split; [| exact Hy].
      simpl take. rewrite for_each_cons, Hbody. exact Hpre.
Qed.

(** The cleanup loop, deletion by deletion: the [i]-th deletion is asked
    after the [i] deletions before it; the loop makes the deletions up to
    and including the first one that raises and raises its exception, and
    makes all of them and returns when none raises. *)
Lemma cleanup_loop_exact refs records s :
  denotes (heap s) refs records ->
  let answer i r :=
    deletion_answer w acme_client account_number dns_provider
      (trace s ++ map deletion (take i records))%list r in
  exists k,
    k <= length records /\
    trace (snd (for_each refs cleanup s))
    = (trace s ++ map deletion (take k records))%list /\
    (forall i r, records !! i = Some r -> S i < k -> answer i r = inr tt) /\
    (forall i r e,
       records !! i = Some r ->
       (forall j r', j < i -> records !! j = Some r' -> answer j r' = inr tt) ->
       answer i r = inl e ->
       k = S i /\ fst (for_each refs cleanup s) = inl e) /\
    ((forall i r, records !! i = Some r -> answer i r = inr tt) ->
     k = length records /\ fst (for_each refs cleanup s) = inr tt).
Proof.
  intros Hden. revert records s Hden.
  induction refs as [| l refs IH]; intros records s Hden answer.
  - inversion Hden; subst. exists 0. simpl. rewrite app_nil_r.
    split; [lia |]. split; [reflexivity |].
    split; [intros i r _ Hlt; lia |].
    split; [intros i r e Hi; rewrite lookup_nil in Hi; discriminate |].
    intros _. split; reflexivity.
  - inversion Hden as [| l' r refs' records' Hl Hrest]; subst.
    rewrite for_each_cons, (delete_record_run l r s Hl).
    assert (Hfirst : answer 0 r
                     = delete_txt_record w (trace s) dns_provider (change_id r)
                         account_number
                         (validation_domain_name w (dns_challenge r) (host r))
                         (validation w (dns_challenge r) (key acme_client))).
    { subst answer. unfold deletion_answer. simpl. rewrite app_nil_r. reflexivity. }
    rewrite <- Hfirst.
    destruct (answer 0 r) as [e0 | []] eqn:Hdel.
    + exists 1. simpl.
      split; [lia |]. split; [reflexivity |].
      split; [intros i r0 _ Hlt; lia |].
      split.
      * intros i r0 e Hi Hbefore Hraises. destruct i as [| i].
        -- simpl in Hi. inversion Hi; subst r0. rewrite Hdel in Hraises.
           inversion Hraises; subst. split; reflexivity.
        -- assert (Hzero : answer 0 r = inr tt)
             by (apply Hbefore; [lia | reflexivity]).
           rewrite Hdel in Hzero. discriminate.
      * intros Hall. assert (Hzero : answer 0 r = inr tt) by (apply Hall; reflexivity).
        rewrite Hdel in Hzero. discriminate.
    + set (s1 := {| trace := (trace s ++ [deletion r])%list; heap := heap s |}).
      assert (Hshift : forall i r0,
                deletion_answer w acme_client account_number dns_provider
                  (trace s1 ++ map deletion (take i records'))%list r0
                = answer (S i) r0).
      { intros i r0. subst answer. simpl. rewrite <- app_assoc. reflexivity. }
      destruct (IH records' s1 Hrest) as (k & Hk & Htr & Hbeforek & Hraise & Hall).
      exists (S k). simpl.
      split; [lia |].
      split; [rewrite Htr; simpl; rewrite <- app_assoc; reflexivity |].
      split.
      { intros i r0 Hi Hlt. destruct i as [| i].
        - simpl in Hi. inversion Hi; subst r0. exact Hdel.
        - rewrite <- Hshift. apply Hbeforek; [exact Hi | lia]. }
      split.
      { intros i r0 e Hi Hbefore Hraises. destruct i as [| i].
        - simpl in Hi. inversion Hi; subst r0. rewrite Hdel in Hraises. discriminate.
        - simpl in Hi. rewrite <- Hshift in Hraises.
          destruct (Hraise i r0 e Hi) as [Hki Hres]; [| exact Hraises |].
          + intros j r' Hj Hr'. rewrite Hshift. apply Hbefore; [lia | exact Hr'].
          + split; [f_equal; exact Hki | exact Hres]. }
      intros Hevery. destruct Hall as [Hkall Hres].
      { intros i r0 Hi. rewrite Hshift. apply Hevery. exact Hi. }
      split; [f_equal; exact Hkall | exact Hres].
Qed.

(** C1 (amended). Whatever the outcome of the challenge loop, the cleanup
    pass calls [delete_txt_record] for the records in list order, once
    each, with the name and value computed from the record's challenge and
    host, up to and including the first deletion that raises.  When no
    deletion raises, every record is deleted and the outcome is that of
    the challenge loop.  The first deletion that raises ends the pass: the
    records after it are not deleted and [finalize_authorizations] raises
    that deletion's exception. *)
Theorem finalize_deletes_records_until_a_deletion_raises
    (refs : list ref) (records : list AuthorizationRecord) (s : state) :
  denotes (heap s) refs records ->
  let outcome :=
    finalize_authorizations w acme_client account_number dns_provider refs s in
  let challenged := for_each refs complete s in
  exists evs k,
    let answer i r :=
      deletion_answer w acme_client account_number dns_provider
        (trace s ++ evs ++ map deletion (take i records))%list r in
    trace (snd challenged) = (trace s ++ evs)%list /\
    List.filter is_delete evs = [] /\
    trace (snd outcome) = (trace s ++ evs ++ map deletion (take k records))%list /\
    k <= length records /\
    (forall i r, records !! i = Some r -> S i < k -> answer i r = inr tt) /\
    (forall i r e,
       records !! i = Some r ->
       (forall j r', j < i -> records !! j = Some r' -> answer j r' = inr tt) ->
       answer i r = inl e ->
       k = S i /\ fst outcome = inl e) /\
    ((forall i r, records !! i = Some r -> answer i r = inr tt) ->
     k = length records /\
     fst outcome
     = match fst challenged with
       | inl e => inl e
       | inr _ => inr refs
       end).
Proof.
  intros Hden outcome challenged. subst outcome challenged.
  rewrite finalize_authorizations_run. cbv zeta.
  destruct (emits_for_each _ refs complete emits_complete_dns_challenge s)
    as (evs1 & Htr1 & Hnone).
  pose proof (frame_for_each refs complete frame_complete_dns_challenge s) as Hheap1.
  set (s1 := snd (for_each refs complete s)) in *.
  assert (Hden1 : denotes (heap s1) refs records) by (rewrite Hheap1; exact Hden).
  destruct (cleanup_loop_exact refs records s1 Hden1)
    as (k & Hk & Htr2 & Hbefore & Hraise & Hall).
  assert (Hbase : forall i r,
            deletion_answer w acme_client account_number dns_provider
              (trace s ++ evs1 ++ map deletion (take i records))%list r
            = deletion_answer w acme_client account_number dns_provider
                (trace s1 ++ map deletion (take i records))%list r)
    by (intros i r; rewrite Htr1, <- app_assoc; reflexivity).
  exists evs1, k.
  split; [exact Htr1 |].
  split; [exact (filter_is_delete_none _ Hnone) |].
  split; [cbn [snd]; rewrite Htr2, Htr1, <- app_assoc; reflexivity |].
  split; [exact Hk |].
  split; [intros i r Hi Hlt; rewrite Hbase; exact (Hbefore i r Hi Hlt) |].
  split.
  - intros i r e Hi Hprev Hraises. rewrite Hbase in Hraises.
    destruct (Hraise i r e Hi) as [Hki Hres]; [| exact Hraises |].
    + intros j r' Hj Hr'. rewrite <- Hbase. exact (Hprev j r' Hj Hr').
    + split; [exact Hki |]. cbn [fst]. rewrite Hres. reflexivity.
  - intros Hevery. destruct Hall as [Hkall Hres].
    { intros i r Hi. rewrite <- Hbase. exact (Hevery i r Hi). }
    split; [exact Hkall |]. cbn [fst]. rewrite Hres. reflexivity.
Qed.

(** C6 (amended). When the challenge loop raises, its exception is that of
    the first record whose challenge failed.  If the cleanup pass then
    completes, [finalize_authorizations] raises that exception, and by
    then every record's deletion call has been made.  If instead a
    deletion of the cleanup pass raises, the first such deletion ends the
    pass and its exception is the one the caller receives, in place of the
    challenge loop's. *)
Theorem finalize_reraises_after_completed_cleanup
    (refs : list ref) (records : list AuthorizationRecord) (s s1 : state) (e : exn) :
  denotes (heap s) refs records ->
  for_each refs complete s = (inl e, s1) ->
  let answer i r :=
    deletion_answer w acme_client account_number dns_provider
      (trace s1 ++ map deletion (take i records))%list r in
  (forall s2,
     for_each refs cleanup s1 = (inr tt, s2) ->
     finalize_authorizations w acme_client account_number dns_provider refs s
     = (inl e, s2) /\
     trace s2 = (trace s1 ++ map deletion records)%list) /\
  ((forall i r, records !! i = Some r -> answer i r = inr tt) ->
   finalize_authorizations w acme_client account_number dns_provider refs s
   = (inl e, {| trace := (trace s1 ++ map deletion records)%list; heap := heap s |})) /\
  (forall i r e',
     records !! i = Some r ->
     (forall j r', j < i -> records !! j = Some r' -> answer j r' = inr tt) ->
     answer i r = inl e' ->
     finalize_authorizations w acme_client account_number dns_provider refs s
     = (inl e',
        {| trace := (trace s1 ++ map deletion (take (S i) records))%list;
           heap := heap s |})) /\
  (exists k l sk,
     refs !! k = Some l /\
     for_each (take k refs) complete s = (inr tt, sk) /\
     complete l sk = (inl e, s1)).
Proof.
  intros Hden Hloop answer.
  pose proof (frame_for_each refs complete frame_complete_dns_challenge s) as Hheap1.
  rewrite Hloop in Hheap1. simpl in Hheap1.
  assert (Hden1 : denotes (heap s1) refs records) by (rewrite Hheap1; exact Hden).
  destruct (cleanup_loop_exact refs records s1 Hden1)
    as (k & Hk & Htr & _ & Hraise & Hall).
  pose proof (frame_for_each refs cleanup frame_delete_record s1) as Hheap2.
  assert (Hstate : forall tr,
            trace (snd (for_each refs cleanup s1)) = tr ->
            snd (for_each refs cleanup s1) = {| trace := tr; heap := heap s |}).
  { intros tr Heq. destruct (snd (for_each refs cleanup s1)) as [tr2 h2].
    simpl in *. subst. rewrite Hheap1. reflexivity. }
  split; [| split; [| split]].
  - intros s2 Hclean.
    split; [rewrite finalize_authorizations_run, Hloop; simpl; rewrite Hclean; reflexivity |].
    destruct (cleanup_loop_run refs records s1 Hden1) as (k' & _ & Htr' & _ & Hok & _).
    rewrite Hclean in Htr', Hok. simpl in Htr', Hok.
    rewrite (Hok eq_refl), firstn_all in Htr'. exact Htr'.
  - intros Hevery. destruct (Hall Hevery) as [Hkall Hres].
    rewrite finalize_authorizations_run, Hloop. cbv zeta. cbn [fst snd].
    rewrite Hres. f_equal. apply Hstate. rewrite Htr, Hkall, firstn_all. reflexivity.
  - intros i r e' Hi Hprev Hraises.
    destruct (Hraise i r e' Hi Hprev Hraises) as [Hki Hres].
    rewrite finalize_authorizations_run, Hloop. cbv zeta. cbn [fst snd].
    rewrite Hres. f_equal. apply Hstate. rewrite Htr, Hki. reflexivity.
  - exact (for_each_raise_inv refs complete s e s1 Hloop).
Qed.

(** C10. [finalize_authorizations] leaves every authorization record as it
    was, whether the challenge loop and the cleanup complete or raise, and
    when it returns it returns the list of references it was given. *)
Theorem finalize_returns_its_list_and_keeps_records (refs : list ref) (s : state) :
  let outcome :=
    finalize_authorizations w acme_client account_number dns_provider refs s in
  heap (snd outcome) = heap s /\
  match fst outcome with
  | inr returned => returned = refs
  | inl _ => True
  end /\
  (forall s1 s2,
     for_each refs complete s = (inr tt, s1) ->
     for_each refs cleanup s1 = (inr tt, s2) ->
     outcome = (inr refs, s2)).
Proof.
  intros outcome. subst outcome. rewrite finalize_authorizations_run. simpl.
  split; [| split].
  - rewrite (frame_for_each refs cleanup frame_delete_record).
    apply (frame_for_each refs complete frame_complete_dns_challenge).
  - destruct (fst (for_each refs cleanup _)); [exact I |].
    destruct (fst (for_each refs complete s)); [exact I | reflexivity].
  - intros s1 s2 Hloop Hclean. rewrite Hloop. simpl. rewrite Hclean. reflexivity.
Qed.

End Finalize.

(** *** Instances and counterexamples *)

Lemma two_records_denote :
  denotes (heap Sample.two_records) [1%positive; 2%positive]
    [Sample.record_1; Sample.record_2].
Proof. repeat constructor. Qed.

Lemma happy_deletion_never_raises : deletion_never_raises Sample.happy.
Proof. intros tr m cid account name value. reflexivity. Qed.

Lemma finalize_deletes_records_until_a_deletion_raises_witness :
  (exists evs,
     trace (snd (finalize_authorizations Sample.happy Sample.client (PStr "123") route53
                   [1%positive; 2%positive] Sample.two_records)) = evs /\
     List.filter is_delete evs
     = [deletion_of Sample.happy Sample.client (PStr "123") route53 Sample.record_1;
        deletion_of Sample.happy Sample.client (PStr "123") route53 Sample.record_2]) /\
  fst (finalize_authorizations Sample.first_deletion_fails Sample.client (PStr "123")
         route53 [1%positive; 2%positive] Sample.two_records)
  = inl (Raise ClientError "Throttling").
Proof.
  split.
  - destruct (finalize_deletes_records_until_a_deletion_raises Sample.happy Sample.client
                (PStr "123") route53 [1%positive; 2%positive]
                [Sample.record_1; Sample.record_2] Sample.two_records two_records_denote)
      as (evs & k & _ & Hnone & Htrace & _ & _ & _ & Hall).
    destruct Hall as [Hk _]; [intros i r _; reflexivity |].
    eexists. split; [exact Htrace |].
    rewrite Hk. simpl. rewrite List.filter_app, Hnone. reflexivity.
  - destruct (finalize_deletes_records_until_a_deletion_raises
                Sample.first_deletion_fails Sample.client (PStr "123") route53
                [1%positive; 2%positive] [Sample.record_1; Sample.record_2]
                Sample.two_records two_records_denote)
      as (evs & k & _ & _ & _ & _ & _ & Hraise & _).
    apply (Hraise 0 Sample.record_1 (Raise ClientError "Throttling") eq_refl).
    + intros j r' Hj. lia.
    + reflexivity.
Defined.

(** C1, as stated, fails: when the deletion of the first record raises, the
    second record's deletion is never attempted, although the provider
    would have carried it out. *)
Lemma cleanup_stops_at_first_failed_deletion :
  let outcome :=
    finalize_authorizations Sample.first_deletion_fails Sample.client (PStr "123")
      route53 [1%positive; 2%positive] Sample.two_records in
  let deleted := List.filter is_delete (trace (snd outcome)) in
  deleted
  = [deletion_of Sample.first_deletion_fails Sample.client (PStr "123") route53
       Sample.record_1] /\
  ~ In (deletion_of Sample.first_deletion_fails Sample.client (PStr "123") route53
          Sample.record_2) deleted /\
  delete_txt_record Sample.first_deletion_fails (trace (snd outcome)) route53
    (change_id Sample.record_2) (PStr "123")
    (validation_domain_name Sample.first_deletion_fails
       (dns_challenge Sample.record_2) (host Sample.record_2))
    (validation Sample.first_deletion_fails (dns_challenge Sample.record_2)
       (key Sample.client))
  = inr tt.
Proof.
  vm_compute. split; [reflexivity |]. split; [| reflexivity].
  intros [H | []]. discriminate H.
Qed.

Lemma finalize_reraises_after_completed_cleanup_witness :
  fst (finalize_authorizations Sample.unverified Sample.client (PStr "123") route53
         [1%positive; 2%positive] Sample.two_records)
  = inl (Raise ValueError "Failed verification") /\
  fst (finalize_authorizations Sample.unverified_and_first_deletion_fails Sample.client
         (PStr "123") route53 [1%positive; 2%positive] Sample.two_records)
  = inl (Raise ClientError "Throttling").
Proof.
  split.
  - set (s1 := snd (for_each [1%positive; 2%positive]
                      (fun authz_record =>
                         complete_dns_challenge Sample.unverified Sample.client
                           (PStr "123") authz_record route53)
                      Sample.two_records)).
    set (s2 := snd (for_each [1%positive; 2%positive]
                      (delete_record Sample.unverified Sample.client (PStr "123") route53)
                      s1)).
    rewrite (proj1 (proj1 (finalize_reraises_after_completed_cleanup Sample.unverified
                             Sample.client (PStr "123") route53 [1%positive; 2%positive]
                             [Sample.record_1; Sample.record_2] Sample.two_records s1
                             (Raise ValueError "Failed verification")
                             two_records_denote eq_refl) s2 eq_refl)).
    reflexivity.
  - set (s1 := snd (for_each [1%positive; 2%positive]
                      (fun authz_record =>
                         complete_dns_challenge Sample.unverified_and_first_deletion_fails
                           Sample.client (PStr "123") authz_record route53)
                      Sample.two_records)).
    destruct (finalize_reraises_after_completed_cleanup
                Sample.unverified_and_first_deletion_fails Sample.client (PStr "123")
                route53 [1%positive; 2%positive] [Sample.record_1; Sample.record_2]
                Sample.two_records s1 (Raise ValueError "Failed verification")
                two_records_denote eq_refl)
      as (_ & _ & Hreplaced & _).
    rewrite (Hreplaced 0 Sample.record_1 (Raise ClientError "Throttling") eq_refl).
    + reflexivity.
    + intros j r' Hj. lia.
    + reflexivity.
Defined.

(** C6, as stated, fails: when local verification fails and a deletion of
    the cleanup pass raises as well, the caller receives the deletion's
    exception, not the verification error. *)
Lemma cleanup_error_replaces_verification_error :
  fst (for_each [1%positive; 2%positive]
         (fun authz_record =>
            complete_dns_challenge Sample.unverified_and_first_deletion_fails
              Sample.client (PStr "123") authz_record route53)
         Sample.two_records)
  = inl (Raise ValueError "Failed verification") /\
  fst (finalize_authorizations Sample.unverified_and_first_deletion_fails Sample.client
         (PStr "123") route53 [1%positive; 2%positive] Sample.two_records)
  = inl (Raise ClientError "Throttling").
Proof. split; reflexivity. Qed.

Lemma finalize_returns_its_list_and_keeps_records_witness :
  fst (finalize_authorizations Sample.happy Sample.client (PStr "123") route53
         [1%positive; 2%positive] Sample.two_records)
  = inr [1%positive; 2%positive] /\
  heap (snd (finalize_authorizations Sample.happy Sample.client (PStr "123") route53
               [1%positive; 2%positive] Sample.two_records))
  = heap Sample.two_records.
Proof.
  destruct (finalize_returns_its_list_and_keeps_records Sample.happy Sample.client
              (PStr "123") route53 [1%positive; 2%positive] Sample.two_records)
    as (Hheap & _ & Hreturns).
  split; [| exact Hheap].
  rewrite (Hreturns _ _ eq_refl eq_refl). reflexivity.
Defined.

(** ** [setup_acme_client] *)

Lemma frame_setup_acme_client w authority : frame (setup_acme_client w authority).
Proof. unfold setup_acme_client. walk. Qed.

(** Setting up the session makes no call to a DNS provider and none of the
    challenge pipeline. *)
Lemma emits_setup_acme_client w authority :
  emits (fun ev => negb (is_dns_call ev) && negb (is_pipeline_call ev))
    (setup_acme_client w authority).
Proof. unfold setup_acme_client. walk. Qed.

(** C4 (amended). [setup_acme_client] raises [InvalidAuthority] when the
    authority's options are unset or empty.  When the options do not
    decode, or decode to something that is not a sequence of objects with
    a [name], the error of the decoder or of the access is raised as it
    is, before any call is made.  When the options name no [acme_url], the
    configured [ACME_DIRECTORY_URL] is used and the directory is
    contacted. *)
Theorem setup_acme_client_option_errors (w : World) (authority options : pyval)
    (s : state) :
  getattr authority "options" = inr options ->
  (truthy options = false ->
   setup_acme_client w authority s
   = (inl (Raise InvalidAuthority "Invalid authority. Options not set"), s)) /\
  (truthy options = true ->
   forall e,
     json_loads w options = inl e ->
     setup_acme_client w authority s = (inl e, s)) /\
  (truthy options = true ->
   forall decoded e,
     json_loads w options = inr decoded ->
     iterate decoded = inl e \/
     (exists items, iterate decoded = inr items /\ read_options items [] = inl e) ->
     setup_acme_client w authority s = (inl e, s)) /\
  (truthy options = true ->
   forall decoded items named private_key,
     json_loads w options = inr decoded ->
     iterate decoded = inr items ->
     read_options items [] = inr named ->
     (forall default, options_get named "acme_url" default = default) ->
     generate_private_key w (trace s) "RSA2048" = inr private_key ->
     exists evs,
       trace (snd (setup_acme_client w authority s))
       = (trace s
          ++ [EvGeneratePrivateKey "RSA2048";
              EvLog DEBUG "Connecting with directory at {0}"
                [config w "ACME_DIRECTORY_URL"];
              EvClient (config w "ACME_DIRECTORY_URL") private_key]
          ++ evs)%list).
Proof.
  intros Hopt. unfold setup_acme_client, bind, lift, raise. rewrite Hopt.
  split; [| split; [| split]].
  - intros Hfalsy. rewrite Hfalsy. reflexivity.
  - intros Htruthy e Hloads. rewrite Htruthy. simpl. rewrite Hloads. reflexivity.
  - intros Htruthy decoded e Hloads Hbad. rewrite Htruthy. simpl. rewrite Hloads.
    destruct Hbad as [Hiter | (items & Hiter & Hread)].
    + rewrite Hiter. reflexivity.
    + rewrite Hiter, Hread. reflexivity.
  - intros Htruthy decoded items named private_key Hloads Hiter Hread Hnone Hkey.
    rewrite Htruthy. simpl. rewrite Hloads, Hiter, Hread, Hnone.
    unfold extern, log, ret; simpl. rewrite Hkey.
    repeat match goal with
           | |- context [match ?x with inl _ => _ | inr _ => _ end] =>
               destruct x
           end;
      simpl; repeat rewrite <- app_assoc; simpl; eexists; reflexivity.
Qed.

Lemma setup_acme_client_option_errors_witness :
  setup_acme_client Sample.happy (PObj [("options", PStr EmptyString)]) Sample.empty_state
  = (inl (Raise InvalidAuthority "Invalid authority. Options not set"),
     Sample.empty_state) /\
  setup_acme_client Sample.happy (PObj [("options", PStr "not json")]) Sample.empty_state
  = (inl (Raise JSONDecodeError "Expecting value: line 1 column 1 (char 0)"), Sample.empty_state).
Proof.
  split.
  - apply (proj1 (setup_acme_client_option_errors Sample.happy
                    (PObj [("options", PStr EmptyString)]) (PStr EmptyString)
                    Sample.empty_state eq_refl) eq_refl).
  - apply (proj1 (proj2 (setup_acme_client_option_errors Sample.happy
                           (PObj [("options", PStr "not json")]) (PStr "not json")
                           Sample.empty_state eq_refl)) eq_refl _ eq_refl).
Defined.

(** C4, as stated, fails twice.  Options that name no [acme_url] do not
    make the call raise: the configured directory is contacted and a
    session is returned.  Options that do not decode make it raise the
    decoder's error, which is not [InvalidAuthority]. *)
Lemma setup_acme_client_proceeds_without_acme_url :
  (exists session s',
     setup_acme_client Sample.happy (PObj [("options", PStr "[]")]) Sample.empty_state
     = (inr session, s') /\
     In (EvClient (PStr "https://ca.example/directory") (JWKRSA "account-key"))
       (trace s')) /\
  (exists e,
     fst (setup_acme_client Sample.happy (PObj [("options", PStr "not json")])
            Sample.empty_state) = inl e /\
     exc_type e <> InvalidAuthority).
Proof.
  split.
  - eexists. eexists. split; [vm_compute; reflexivity |]. simpl. auto.
  - eexists. split; [vm_compute; reflexivity |]. discriminate.
Qed.

(** ** [create_certificate] *)

(** A pure step whose value is known to the rest of the computation. *)
Lemma emits_bind_lift {A B} P (r : result A) (k : A -> M B) :
  (forall a, r = inr a -> emits P (k a)) -> emits P (bind (lift r) k).
Proof.
  intros Hk s. unfold bind, lift. destruct r as [e | a]; simpl.
  - exists []. rewrite app_nil_r. auto.
  - apply Hk. reflexivity.
Qed.

Lemma frame_get_domains options : frame (get_domains options).
Proof. unfold get_domains. walk. Qed.

Lemma emits_get_domains options :
  emits (fun ev => negb (is_pipeline_call ev)) (get_domains options).
Proof. unfold get_domains. walk. Qed.

Lemma emits_weaken {A} (P Q : event -> bool) (m : M A) :
  (forall ev, P ev = true -> Q ev = true) -> emits P m -> emits Q m.
Proof.
  intros HPQ Hm s. destruct (Hm s) as (evs & Htr & HP).
  exists evs. split; [exact Htr |].
  rewrite forallb_forall in *. auto.
Qed.

Lemma emits_setup_no_pipeline w authority :
  emits (fun ev => negb (is_pipeline_call ev)) (setup_acme_client w authority).
Proof.
  apply (emits_weaken _ _ _ (fun ev H => proj2 (andb_prop _ _ H))
           (emits_setup_acme_client w authority)).
Qed.

(** With [create_immediately] unset or false, [create_certificate] makes
    no call of the challenge pipeline. *)
Lemma emits_create_certificate_deferred w csr entries :
  match assoc "create_immediately" entries with
  | Some flag => truthy flag = false
  | None => True
  end ->
  emits (fun ev => negb (is_pipeline_call ev)) (create_certificate w csr (PDict entries)).
Proof.
  intros Hflag. unfold create_certificate.
  apply emits_bind; [auto with py | intros authority].
  apply emits_bind_lift. intros create_immediately Hget.
  assert (Hfalsy : truthy create_immediately = false).
  { simpl in Hget. destruct (assoc "create_immediately" entries);
      inversion Hget; subst; auto. }
  apply emits_bind; [apply emits_setup_no_pipeline | intros session].
  apply emits_bind; [auto with py | intros dns_provider].
  destruct (negb (truthy dns_provider)); [auto with py |].
  do 3 (apply emits_bind; [auto with py | intros ?]).
  apply emits_bind; [apply emits_log; reflexivity | intros _].
  do 2 (apply emits_bind; [auto with py | intros ?]).
  match goal with |- emits _ (if ?b then _ else _) => destruct b end.
  - walk.
  - apply emits_bind; [apply emits_get_domains | intros domains].
    rewrite Hfalsy. simpl. walk.
Qed.

Lemma frame_bind_lift {A B} (r : result A) (k : A -> M B) :
  (forall a, r = inr a -> frame (k a)) -> frame (bind (lift r) k).
Proof.
  intros Hk s. unfold bind, lift. destruct r as [e | a]; simpl.
  - reflexivity.
  - apply Hk. reflexivity.
Qed.

Lemma frame_create_certificate_deferred w csr entries :
  match assoc "create_immediately" entries with
  | Some flag => truthy flag = false
  | None => True
  end ->
  frame (create_certificate w csr (PDict entries)).
Proof.
  intros Hflag. unfold create_certificate.
  apply frame_bind; [auto with py | intros authority].
  apply frame_bind_lift. intros create_immediately Hget.
  assert (Hfalsy : truthy create_immediately = false).
  { simpl in Hget. destruct (assoc "create_immediately" entries);
      inversion Hget; subst; auto. }
  apply frame_bind; [apply frame_setup_acme_client | intros session].
  apply frame_bind; [auto with py | intros dns_provider].
  destruct (negb (truthy dns_provider)); [auto with py |].
  do 3 (apply frame_bind; [auto with py | intros ?]).
  apply frame_bind; [apply frame_log | intros _].
  do 2 (apply frame_bind; [auto with py | intros ?]).
  match goal with |- frame (if ?b then _ else _) => destruct b end.
  - walk.
  - apply frame_bind; [apply frame_get_domains | intros domains].
    rewrite Hfalsy. simpl. walk.
Qed.

Lemma flatten_domains_flattened (domains acc flat : list pyval) :
  flatten_domains domains acc = inr flat ->
  exists tail, flat = (acc ++ tail)%list /\ Forall2 flattened domains tail.
Proof.
  revert acc. induction domains as [| d domains IH]; intros acc Hflat; simpl in Hflat.
  - inversion Hflat; subst. exists []. rewrite app_nil_r. split; [reflexivity | constructor].
  - destruct (is_str d) eqn:Hstr.
    + destruct (IH _ Hflat) as (tail & Heq & Hall).
      exists (d :: tail). rewrite <- app_assoc in Heq. split; [exact Heq |].
      constructor; [| exact Hall]. unfold flattened. rewrite Hstr. reflexivity.
    + destruct (getattr d "value") as [e | v] eqn:Hvalue; [discriminate |].
      destruct (IH _ Hflat) as (tail & Heq & Hall).
      exists (v :: tail). rewrite <- app_assoc in Heq. split; [exact Heq |].
      constructor; [| exact Hall]. unfold flattened. rewrite Hstr. exact Hvalue.
Qed.

Lemma filter_none {P : event -> bool} (Q : event -> bool) (evs : list event) :
  (forall ev, P ev = true -> Q ev = false) ->
  forallb P evs = true -> List.filter Q evs = [].
Proof.
  intros HPQ. induction evs as [| ev evs IH]; simpl; [reflexivity |].
  intros Hall. apply andb_prop in Hall as [Hev Hrest].
  rewrite (HPQ ev Hev). auto.
Qed.

Lemma emits_setup_only_session w authority :
  emits (fun ev => negb (is_authorization_create ev)) (setup_acme_client w authority).
Proof. unfold setup_acme_client. walk. Qed.

Lemma emits_get_domains_only_logs options :
  emits (fun ev => negb (is_authorization_create ev)) (get_domains options).
Proof. unfold get_domains. walk. Qed.

(** The deferred branch, run after everything before it succeeded. *)
Lemma create_certificate_deferred_run (w : World) (csr : pyval)
    (entries : list (string * pyval)) (s s1 s3 : state)
    (session : AcmeClient * RegistrationResource)
    (dns_provider credentials_text credentials provider_type account_number : pyval)
    (dns_provider_type : dns_module) (domains authz_domains : list pyval)
    (dns_authorization authorization_id : pyval) :
  match assoc "create_immediately" entries with
  | Some flag => truthy flag = false
  | None => True
  end ->
  setup_acme_client w
    (match assoc "authority" entries with Some a => a | None => PNone end) s
  = (inr session, s1) ->
  assoc "dns_provider" entries = Some dns_provider ->
  truthy dns_provider = true ->
  getattr dns_provider "credentials" = inr credentials_text ->
  json_loads w credentials_text = inr credentials ->
  getattr dns_provider "provider_type" = inr provider_type ->
  import_module w provider_type = inr dns_provider_type ->
  dict_get credentials "account_id" PNone = inr account_number ->
  eq_str provider_type "route53" && negb (truthy account_number) = false ->
  get_domains (PDict entries)
    {| trace := (trace s1 ++ [EvLog DEBUG "Using DNS provider: {0}" [provider_type]])%list;
       heap := heap s1 |}
  = (inr domains, s3) ->
  flatten_domains domains [] = inr authz_domains ->
  authorization_service_create w (trace s3) account_number authz_domains provider_type
  = inr dns_authorization ->
  getattr dns_authorization "id" = inr authorization_id ->
  create_certificate w csr (PDict entries) s
  = (inr (PNone, PNone, authorization_id),
     {| trace := (trace s3
                  ++ [EvAuthorizationCreate account_number authz_domains provider_type])%list;
        heap := heap s3 |}).
Proof.
  intros Hflag Hsetup Hprov Htruthy Hcreds Hloads Htype Himport Haccount Hcheck
    Hdomains Hflat Hcreate Hid.
  unfold create_certificate.
  unfold bind at 1. unfold lift at 1. cbn [dict_get].
  destruct (assoc "authority" entries) as [a |];
    (unfold bind at 1; unfold lift at 1; cbn [dict_get];
     assert (Hfalsy : truthy (match assoc "create_immediately" entries with
                              | Some x => x | None => PBool false end) = false)
       by (destruct (assoc "create_immediately" entries); auto);
     destruct (assoc "create_immediately" entries) as [flag |];
     (unfold bind at 1; rewrite Hsetup;
      unfold bind at 1; unfold lift at 1; cbn [dict_get]; rewrite Hprov, Htruthy;
      cbn [negb];
      unfold bind at 1; unfold lift at 1; rewrite Hcreds;
      unfold bind at 1; unfold lift at 1; rewrite Hloads;
      unfold bind at 1; unfold lift at 1; rewrite Htype;
      unfold bind at 1; unfold log, extern; cbn [trace heap];
      unfold bind at 1; unfold lift at 1; rewrite Himport;
      unfold bind at 1; unfold lift at 1; rewrite Haccount;
      rewrite Hcheck;
      unfold bind at 1; rewrite Hdomains;
      rewrite Hfalsy; cbn [negb];
      unfold bind at 1; unfold lift at 1; rewrite Hflat;
      unfold bind at 1; cbn [trace heap]; rewrite Hcreate;
      unfold bind at 1; unfold lift at 1; rewrite Hid;
      reflexivity)).
Qed.

(** C9. With [create_immediately] false or absent, [create_certificate]
    makes no call of the challenge pipeline (no challenge request, no TXT
    record, no propagation wait, no verification or answer, no issuance)
    and leaves the authorization records alone, however it ends; and once
    the session is set up, the provider is configured and the domains are
    read, it calls the authorization service once, with the flattened
    domain list, and returns [(None, None, id)] for the identifier of the
    authorization that the service returned. *)
Theorem create_certificate_deferred_returns_authorization_id (w : World) (csr : pyval)
    (entries : list (string * pyval)) (s : state) :
  match assoc "create_immediately" entries with
  | Some flag => truthy flag = false
  | None => True
  end ->
  let outcome := create_certificate w csr (PDict entries) s in
  (exists evs,
     trace (snd outcome) = (trace s ++ evs)%list /\
     List.filter is_pipeline_call evs = []) /\
  heap (snd outcome) = heap s /\
  (forall session s1 s3 dns_provider credentials_text credentials provider_type
          account_number dns_provider_type domains authz_domains dns_authorization
          authorization_id,
     setup_acme_client w
       (match assoc "authority" entries with Some a => a | None => PNone end) s
     = (inr session, s1) ->
     assoc "dns_provider" entries = Some dns_provider ->
     truthy dns_provider = true ->
     getattr dns_provider "credentials" = inr credentials_text ->
     json_loads w credentials_text = inr credentials ->
     getattr dns_provider "provider_type" = inr provider_type ->
     import_module w provider_type = inr dns_provider_type ->
     dict_get credentials "account_id" PNone = inr account_number ->
     eq_str provider_type "route53" && negb (truthy account_number) = false ->
     get_domains (PDict entries)
       {| trace := (trace s1 ++ [EvLog DEBUG "Using DNS provider: {0}" [provider_type]])%list;
          heap := heap s1 |}
     = (inr domains, s3) ->
     flatten_domains domains [] = inr authz_domains ->
     authorization_service_create w (trace s3) account_number authz_domains provider_type
     = inr dns_authorization ->
     getattr dns_authorization "id" = inr authorization_id ->
     fst outcome = inr (PNone, PNone, authorization_id) /\
     Forall2 flattened domains authz_domains /\
     exists evs,
       trace (snd outcome) = (trace s ++ evs)%list /\
       List.filter is_authorization_create evs
       = [EvAuthorizationCreate account_number authz_domains provider_type]).
Proof.
  intros Hflag outcome. subst outcome. split; [| split].
  - destruct (emits_create_certificate_deferred w csr entries Hflag s)
      as (evs & Htr & Hnone).
    exists evs. split; [exact Htr |].
    apply (filter_none (P := fun ev => negb (is_pipeline_call ev))); [| exact Hnone].
    intros ev Hev. destruct (is_pipeline_call ev); [discriminate | reflexivity].
  - apply frame_create_certificate_deferred. exact Hflag.
  - intros session s1 s3 dns_provider credentials_text credentials provider_type
      account_number dns_provider_type domains authz_domains dns_authorization
      authorization_id Hsetup Hprov Htruthy Hcreds Hloads Htype Himport Haccount
      Hcheck Hdomains Hflat Hcreate Hid.
    rewrite (create_certificate_deferred_run w csr entries s s1 s3 session dns_provider
               credentials_text credentials provider_type account_number
               dns_provider_type domains authz_domains dns_authorization
               authorization_id Hflag Hsetup Hprov Htruthy Hcreds Hloads Htype Himport
               Haccount Hcheck Hdomains Hflat Hcreate Hid).
    split; [reflexivity |]. split.
    { destruct (flatten_domains_flattened _ _ _ Hflat) as (tail & Heq & Hall).
      simpl in Heq. subst tail. exact Hall. }
    destruct (emits_setup_only_session w
                (match assoc "authority" entries with Some a => a | None => PNone end) s)
      as (evs1 & Htr1 & Hnone1).
    rewrite Hsetup in Htr1. simpl in Htr1.
    destruct (emits_get_domains_only_logs (PDict entries)
                {| trace := (trace s1 ++ [EvLog DEBUG "Using DNS provider: {0}"
                                            [provider_type]])%list;
                   heap := heap s1 |})
      as (evs2 & Htr2 & Hnone2).
    rewrite Hdomains in Htr2. simpl in Htr2.
    exists (evs1 ++ [EvLog DEBUG "Using DNS provider: {0}" [provider_type]] ++ evs2
            ++ [EvAuthorizationCreate account_number authz_domains provider_type])%list.
    split.
    + simpl. rewrite Htr2, Htr1. repeat rewrite <- app_assoc. reflexivity.
    + assert (Hno : forall evs,
                forallb (fun ev => negb (is_authorization_create ev)) evs = true ->
                List.filter is_authorization_create evs = []).
      { intros evs. apply filter_none. intros ev Hev.
        destruct (is_authorization_create ev); [discriminate | reflexivity]. }
      rewrite List.filter_app, (Hno _ Hnone1). simpl.
      rewrite List.filter_app, (Hno _ Hnone2). reflexivity.
Qed.

Lemma create_certificate_deferred_returns_authorization_id_witness :
  fst (create_certificate Sample.happy (PStr "CSR") (PDict Sample.deferred_request)
         Sample.empty_state)
  = inr (PNone, PNone, PInt 7) /\
  exists evs,
    trace (snd (create_certificate Sample.happy (PStr "CSR")
                  (PDict Sample.deferred_request) Sample.empty_state))
    = ([] ++ evs)%list /\
    List.filter is_authorization_create evs
    = [EvAuthorizationCreate PNone [PStr "example.com"; PStr "www.example.com"]
         (PStr "cloudflare")].
Proof.
  destruct (create_certificate_deferred_returns_authorization_id Sample.happy (PStr "CSR")
              Sample.deferred_request Sample.empty_state eq_refl)
    as (_ & _ & Hreturns).
  destruct (Hreturns _ _ _ _ _ _ _ _ _ _ _ _ _
              eq_refl eq_refl eq_refl eq_refl eq_refl eq_refl eq_refl eq_refl eq_refl
              eq_refl eq_refl eq_refl eq_refl)
    as (Hvalue & _ & Hcalls).
  split; [exact Hvalue | exact Hcalls].
Defined.

(** C3 (amended). When the provider type is ["route53"] and its
    credentials carry no account id, [create_certificate] raises the
    route53 misconfiguration error before any DNS provider call and before
    any challenge, record-creation or issuance call; the ACME session has
    been set up by then (directory contacted, account registered, terms
    agreed), and the two log lines are all that follows it. *)
Theorem create_certificate_route53_needs_account (w : World) (csr : pyval)
    (entries : list (string * pyval)) (s s1 : state)
    (session : AcmeClient * RegistrationResource)
    (dns_provider credentials_text credentials account_number provider_name : pyval)
    (dns_provider_type : dns_module) :
  setup_acme_client w
    (match assoc "authority" entries with Some a => a | None => PNone end) s
  = (inr session, s1) ->
  assoc "dns_provider" entries = Some dns_provider ->
  truthy dns_provider = true ->
  getattr dns_provider "credentials" = inr credentials_text ->
  json_loads w credentials_text = inr credentials ->
  getattr dns_provider "provider_type" = inr (PStr "route53") ->
  import_module w (PStr "route53") = inr dns_provider_type ->
  dict_get credentials "account_id" PNone = inr account_number ->
  truthy account_number = false ->
  getattr dns_provider "name" = inr provider_name ->
  create_certificate w csr (PDict entries) s
  = (inl (Raise InvalidConfiguration route53_error),
     {| trace := (trace s1
                  ++ [EvLog DEBUG "Using DNS provider: {0}" [PStr "route53"];
                      EvLog ERROR route53_error [provider_name]])%list;
        heap := heap s |}) /\
  exists evs,
    trace s1 = (trace s ++ evs)%list /\
    List.filter is_dns_call evs = [] /\
    List.filter is_pipeline_call evs = [].
Proof.
  intros Hsetup Hprov Htruthy Hcreds Hloads Htype Himport Haccount Hfalsy Hname.
  split.
  - pose proof (frame_setup_acme_client w
                  (match assoc "authority" entries with Some a => a | None => PNone end) s)
      as Hheap.
    rewrite Hsetup in Hheap. simpl in Hheap. rewrite <- Hheap.
    unfold create_certificate.
    unfold bind at 1. unfold lift at 1. cbn [dict_get].
    destruct (assoc "authority" entries) as [a |];
      (unfold bind at 1; unfold lift at 1; cbn [dict_get];
       destruct (assoc "create_immediately" entries) as [flag |];
       (unfold bind at 1; rewrite Hsetup;
        unfold bind at 1; unfold lift at 1; cbn [dict_get]; rewrite Hprov, Htruthy;
        cbn [negb];
        unfold bind at 1; unfold lift at 1; rewrite Hcreds;
        unfold bind at 1; unfold lift at 1; rewrite Hloads;
        unfold bind at 1; unfold lift at 1; rewrite Htype;
        unfold bind at 1; unfold log, extern; cbn [trace heap];
        unfold bind at 1; unfold lift at 1; rewrite Himport;
        unfold bind at 1; unfold lift at 1; rewrite Haccount;
        rewrite Hfalsy;
        replace (eq_str (PStr "route53") "route53" && negb false) with true
          by reflexivity;
        unfold bind, lift, raise; rewrite Hname; cbn [trace heap];
        rewrite <- app_assoc; reflexivity)).
  - destruct (emits_setup_acme_client w
                (match assoc "authority" entries with Some a => a | None => PNone end) s)
      as (evs & Htr & Hnone).
    rewrite Hsetup in Htr. simpl in Htr.
    exists evs. split; [exact Htr |]. split.
    + apply (filter_none (P := fun ev => negb (is_dns_call ev) && negb (is_pipeline_call ev)));
        [| exact Hnone].
      intros ev Hev. destruct (is_dns_call ev); [discriminate | reflexivity].
    + apply (filter_none (P := fun ev => negb (is_dns_call ev) && negb (is_pipeline_call ev)));
        [| exact Hnone].
      intros ev Hev. destruct (is_pipeline_call ev);
        [rewrite andb_false_r in Hev; discriminate | reflexivity].
Qed.

Lemma create_certificate_route53_needs_account_witness :
  fst (create_certificate Sample.happy (PStr "CSR") (PDict Sample.route53_without_account)
         Sample.empty_state)
  = inl (Raise InvalidConfiguration route53_error).
Proof.
  rewrite (proj1 (create_certificate_route53_needs_account Sample.happy (PStr "CSR")
                    Sample.route53_without_account Sample.empty_state _ _ _ _ _ _ _ _
                    eq_refl eq_refl eq_refl eq_refl eq_refl eq_refl eq_refl eq_refl
                    eq_refl eq_refl)).
  reflexivity.
Defined.

(** C3, as stated, fails: by the time the route53 error is raised the
    session has been set up, which contacts the CA three times (directory,
    registration, agreement to the terms). *)
Lemma route53_error_follows_ca_calls :
  let outcome :=
    create_certificate Sample.happy (PStr "CSR") (PDict Sample.route53_without_account)
      Sample.empty_state in
  fst outcome = inl (Raise InvalidConfiguration route53_error) /\
  List.filter is_ca_call (trace (snd outcome))
  = [EvClient (PStr "https://ca.example/directory") (JWKRSA "account-key");
     EvRegister Sample.client PNone;
     EvAgreeToTos Sample.client {| uri := "https://ca.example/reg/1" |}].
Proof. vm_compute. split; reflexivity. Qed.

(** ** [get_ordered_certificate] *)

(** C7 (amended). Once the session, the order information and the provider
    module of a pending certificate are resolved, a [ClientError] raised
    while the challenges are being started is caught and logged, and the
    call returns [False]; any other exception of that stage, and any
    exception raised by finalization or issuance, a [ClientError]
    included, reaches the caller. *)
Theorem get_ordered_certificate_catches_orchestration_client_error (w : World)
    (pending_cert : pyval) (s s1 : state) (acme_client : AcmeClient)
    (order_info : OrderInfo) (dns_provider_type : dns_module) :
  resolve_pending w pending_cert s = (inr (acme_client, order_info, dns_provider_type), s1) ->
  (forall e s2 name,
     get_authorizations w acme_client (account_number order_info) (domains order_info)
       dns_provider_type s1 = (inl e, s2) ->
     exc_type e = ClientError ->
     getattr pending_cert "name" = inr name ->
     get_ordered_certificate w pending_cert s
     = (inr (PBool false),
        {| trace := (trace s2
                     ++ [EvLog ERROR "Unable to resolve pending cert: {}" [name]])%list;
           heap := heap s2 |})) /\
  (forall e s2,
     get_authorizations w acme_client (account_number order_info) (domains order_info)
       dns_provider_type s1 = (inl e, s2) ->
     exc_type e <> ClientError ->
     get_ordered_certificate w pending_cert s = (inl e, s2)) /\
  (forall authorizations s2 e s3,
     get_authorizations w acme_client (account_number order_info) (domains order_info)
       dns_provider_type s1 = (inr authorizations, s2) ->
     finalize_authorizations w acme_client (account_number order_info) dns_provider_type
       authorizations s2 = (inl e, s3) ->
     get_ordered_certificate w pending_cert s = (inl e, s3)) /\
  (forall authorizations s2 s3 csr e s4,
     get_authorizations w acme_client (account_number order_info) (domains order_info)
       dns_provider_type s1 = (inr authorizations, s2) ->
     finalize_authorizations w acme_client (account_number order_info) dns_provider_type
       authorizations s2 = (inr authorizations, s3) ->
     getattr pending_cert "csr" = inr csr ->
     request_certificate w acme_client authorizations csr s3 = (inl e, s4) ->
     get_ordered_certificate w pending_cert s = (inl e, s4)).
Proof.
  intros Hresolve.
  assert (Hrun : forall k : AcmeClient * OrderInfo * dns_module -> M pyval,
            bind (resolve_pending w pending_cert) k s
            = k (acme_client, order_info, dns_provider_type) s1)
    by (intros k; unfold bind; rewrite Hresolve; reflexivity).
  unfold get_ordered_certificate. rewrite Hrun. cbn [fst snd].
  split; [| split; [| split]].
  - intros e s2 name Hauth Hclass Hname.
    unfold bind at 1. unfold try_except. unfold bind at 1. rewrite Hauth.
    unfold except_matches. rewrite Hclass. cbn [existsb issubclass orb].
    rewrite bool_decide_eq_true_2 by reflexivity. cbn [orb].
    unfold bind, lift, log, extern, ret. rewrite Hname. reflexivity.
  - intros e s2 Hauth Hclass.
    unfold bind at 1. unfold try_except. unfold bind at 1. rewrite Hauth.
    unfold except_matches. cbn [existsb orb].
    replace (issubclass (exc_type e) ClientError) with false; [reflexivity |].
    symmetry. destruct (exc_type e); try reflexivity.
    contradiction Hclass. reflexivity.
  - intros authorizations s2 e s3 Hauth Hfinal.
    unfold bind at 1. unfold try_except. unfold bind at 1. rewrite Hauth.
    unfold ret at 1. unfold bind at 1. rewrite Hfinal. reflexivity.
  - intros authorizations s2 s3 csr e s4 Hauth Hfinal Hcsr Hrequest.
    unfold bind at 1. unfold try_except. unfold bind at 1. rewrite Hauth.
    unfold ret at 1. unfold bind at 1. rewrite Hfinal.
    unfold bind at 1. unfold lift. rewrite Hcsr.
    unfold bind at 1. rewrite Hrequest. reflexivity.
Qed.

Lemma get_ordered_certificate_catches_orchestration_client_error_witness :
  fst (get_ordered_certificate Sample.creation_fails
         (Sample.pending_certificate "example-cert") Sample.empty_state)
  = inr (PBool false) /\
  List.filter is_error_log
    (trace (snd (get_ordered_certificate Sample.creation_fails
                   (Sample.pending_certificate "example-cert") Sample.empty_state)))
  = [EvLog ERROR "Unable to resolve pending cert: {}" [PStr "example-cert"]].
Proof.
  rewrite (proj1 (get_ordered_certificate_catches_orchestration_client_error
                    Sample.creation_fails (Sample.pending_certificate "example-cert")
                    Sample.empty_state _ _ _ _ eq_refl)
             (Raise ClientError "AccessDenied") _ (PStr "example-cert")
             eq_refl eq_refl eq_refl).
  split; reflexivity.
Defined.

(** C7, as stated, fails: a provider failure during finalization (here,
    while waiting for the DNS change) is not caught; the caller receives
    the exception instead of [False]. *)
Lemma provider_failure_in_finalization_propagates :
  fst (get_ordered_certificate Sample.propagation_fails
         (Sample.pending_certificate "example-cert") Sample.empty_state)
  = inl (Raise ClientError "Throttling").
Proof. vm_compute. reflexivity. Qed.

(** ** [get_ordered_certificates] *)

(** A handler that lists [Exception] catches every exception. *)
Lemma except_matches_exception (classes : list exc_class) (e : exn) :
  In Exception classes -> except_matches classes e = true.
Proof.
  intros Hin. unfold except_matches. apply existsb_exists.
  exists Exception. split; [exact Hin | reflexivity].
Qed.

Lemma bind_inr_inv {A B} (m : M A) (k : A -> M B) s b s' :
  bind m k s = (inr b, s') ->
  exists a s1, m s = (inr a, s1) /\ k a s1 = (inr b, s').
Proof.
  unfold bind. destruct (m s) as [[e | a] s1]; [discriminate |].
  intros Hk. eauto.
Qed.

Section Batch.

Variable w : World.

(** The outcome record of a failed item. *)
Let failure (pc : pyval) : outcome := {| cert := PBool false; pending_cert := pc |}.

(** One turn of the first loop: the item is appended to [pending] when its
    orchestration returns, and a failure record is appended to [certs]
    when it raises. *)
Lemma orchestrate_all_cons pc rest pending certs s :
  orchestrate_all w (pc :: rest) pending certs s
  = match orchestrate_one w pc s with
    | (inr entry, s') => orchestrate_all w rest (pending ++ [entry])%list certs s'
    | (inl e, s') =>
        orchestrate_all w rest pending (certs ++ [failure pc])%list
          {| trace := (trace s' ++ [EvLog ERROR "Unable to resolve pending cert: {}" [pc]])%list;
             heap := heap s' |}
    end.
Proof.
  simpl orchestrate_all. unfold bind at 1. unfold try_except. unfold bind at 1.
  destruct (orchestrate_one w pc s) as [[e | entry] s']; [| reflexivity].
  rewrite except_matches_exception by (simpl; auto). reflexivity.
Qed.

(** One turn of the second loop. *)
Lemma issue_all_cons last entry rest certs s :
  issue_all w last (entry :: rest) certs s
  = match issue_one w entry s with
    | (inr cert, s') =>
        issue_all w last rest
          (certs ++ [{| cert := cert; pending_cert := entry_pending_cert entry |}])%list s'
    | (inl e, s') =>
        issue_all w last rest (certs ++ [failure (entry_pending_cert entry)])%list
          {| trace := (trace s' ++ [EvLog ERROR "Unable to resolve pending cert: {}" [last]])%list;
             heap := heap s' |}
    end.
Proof.
  simpl issue_all. unfold bind at 1. unfold try_except. unfold bind at 1.
  destruct (issue_one w entry s) as [[e | cert] s']; [| reflexivity].
  rewrite except_matches_exception by (simpl; auto). reflexivity.
Qed.

(** The first loop never raises; it sorts the items into orchestrated
    entries and failure records. *)
Lemma orchestrate_all_total pcs pending certs s :
  exists entries failed s',
    orchestrate_all w pcs pending certs s
    = (inr ((pending ++ entries)%list, (certs ++ failed)%list), s') /\
    Forall (fun o => cert o = PBool false) failed /\
    Permutation (map entry_pending_cert entries ++ map pending_cert failed)%list pcs.
Proof.
  revert pending certs s. induction pcs as [| pc pcs IH]; intros pending certs s.
  - exists [], [], s. simpl. rewrite !app_nil_r. auto.
  - rewrite orchestrate_all_cons.
    destruct (orchestrate_one w pc s) as [[e | entry] s1] eqn:Hone.
    + destruct (IH pending (certs ++ [failure pc])%list
                  {| trace := (trace s1 ++ [EvLog ERROR "Unable to resolve pending cert: {}" [pc]])%list;
                     heap := heap s1 |})
        as (entries & failed & s' & Hrun & Hfalse & Hperm).
      exists entries, (failure pc :: failed), s'.
      rewrite Hrun, <- app_assoc. split; [reflexivity |].
      split; [constructor; [reflexivity | exact Hfalse] |].
      simpl. rewrite <- Hperm. symmetry. apply Permutation_middle.
    + destruct (IH (pending ++ [entry])%list certs s1)
        as (entries & failed & s' & Hrun & Hfalse & Hperm).
      exists (entry :: entries), failed, s'.
      rewrite Hrun, <- app_assoc. split; [reflexivity |].
      split; [exact Hfalse |].
      simpl. rewrite <- Hperm.
      assert (Hentry : entry_pending_cert entry = pc).
      { unfold orchestrate_one in Hone.
        apply bind_inr_inv in Hone as (resolved & s2 & _ & Hone).
        apply bind_inr_inv in Hone as (auths & s3 & _ & Hone).
        inversion Hone; subst. reflexivity. }
      rewrite Hentry. reflexivity.
Qed.

Lemma cert_dict_is_dict pem chain pc s c s' :
  cert_dict w pem chain pc s = (inr c, s') -> exists d, c = PDict d.
Proof.
  unfold cert_dict. intros Hrun.
  apply bind_inr_inv in Hrun as (external_id & s1 & _ & Hrun).
  inversion Hrun; subst. eauto.
Qed.

Lemma issue_one_is_dict entry s c s' :
  issue_one w entry s = (inr c, s') -> exists d, c = PDict d.
Proof.
  unfold issue_one. intros Hrun.
  apply bind_inr_inv in Hrun as (auths & s1 & _ & Hrun).
  apply bind_inr_inv in Hrun as (csr & s2 & _ & Hrun).
  apply bind_inr_inv in Hrun as (pems & s3 & _ & Hrun).
  eapply cert_dict_is_dict. exact Hrun.
Qed.

(** The second loop never raises; it appends one outcome per entry, in
    order. *)
Lemma issue_all_total last pending certs s :
  exists issued s',
    issue_all w last pending certs s = (inr (certs ++ issued)%list, s') /\
    map pending_cert issued = map entry_pending_cert pending /\
    Forall (fun o => cert o = PBool false \/ exists d, cert o = PDict d) issued.
Proof.
  revert certs s. induction pending as [| entry pending IH]; intros certs s.
  - exists [], s. simpl. rewrite app_nil_r. auto.
  - rewrite issue_all_cons.
    destruct (issue_one w entry s) as [[e | c] s1] eqn:Hone.
    + destruct (IH (certs ++ [failure (entry_pending_cert entry)])%list
                  {| trace := (trace s1 ++ [EvLog ERROR "Unable to resolve pending cert: {}" [last]])%list;
                     heap := heap s1 |})
        as (issued & s' & Hrun & Hmap & Hshape).
      exists (failure (entry_pending_cert entry) :: issued), s'.
      rewrite Hrun, <- app_assoc. split; [reflexivity |].
      split; [simpl; f_equal; exact Hmap |].
      constructor; [left; reflexivity | exact Hshape].
    + destruct (IH (certs ++ [{| cert := c; pending_cert := entry_pending_cert entry |}])%list s1)
        as (issued & s' & Hrun & Hmap & Hshape).
      exists ({| cert := c; pending_cert := entry_pending_cert entry |} :: issued), s'.
      rewrite Hrun, <- app_assoc. split; [reflexivity |].
      split; [simpl; f_equal; exact Hmap |].
      constructor; [right; exact (issue_one_is_dict _ _ _ _ Hone) | exact Hshape].
Qed.

(** The first loop over a concatenation is the loop over the first part
    followed by the loop over the second. *)
Lemma orchestrate_all_app pcs1 pcs2 pending certs s :
  orchestrate_all w (pcs1 ++ pcs2) pending certs s
  = match orchestrate_all w pcs1 pending certs s with
    | (inr lists, s') => orchestrate_all w pcs2 (fst lists) (snd lists) s'
    | (inl e, s') => (inl e, s')
    end.
Proof.
  revert pending certs s. induction pcs1 as [| pc pcs1 IH]; intros pending certs s.
  - reflexivity.
  - simpl app. rewrite !orchestrate_all_cons.
    destruct (orchestrate_one w pc s) as [[e | entry] s1]; apply IH.
Qed.

End Batch.


(** * Further properties of the module *)

(** ** Challenge selection and completion *)

(** X1. [find_dns_challenge] yields a challenge exactly when the CA offered
    it as a combination of its own and it is a DNS-01 challenge;
    combinations of several challenges contribute nothing, even when they
    contain a DNS-01 challenge. *)
Theorem find_dns_challenge_yields_single_dns01 (authz : AuthorizationResource)
    (c : ChallengeBody) :
  In c (find_dns_challenge authz) <->
  In [c] (resolved_combinations authz) /\ is_DNS01 (chall c) = true.
Proof.
  unfold find_dns_challenge. rewrite in_flat_map. split.
  - intros (combo & Hin & Hc).
    destruct combo as [| c0 [| c1 rest]]; simpl in Hc; try contradiction.
    destruct (is_DNS01 (chall c0)) eqn:Hdns; simpl in Hc; [| contradiction].
    destruct Hc as [-> | []]. auto.
  - intros [Hin Hdns]. exists [c]. split; [exact Hin |].
    simpl. rewrite Hdns. left. reflexivity.
Qed.

Section Completion.

Variable w : World.
Variable acme_client : AcmeClient.
Variable account_number : pyval.
Variable dns_provider : dns_module.

(** X2. [complete_dns_challenge] submits a challenge answer to the CA only
    after the provider reported the change and local verification returned
    true; when verification returns false it raises
    [ValueError("Failed verification")] and the CA is not called. *)
Theorem complete_dns_challenge_answers_only_verified (l : ref)
    (r : AuthorizationRecord) (s : state) :
  heap s !! l = Some r ->
  let waited :=
    [EvLog DEBUG "Finalizing DNS challenge for {0}" [host r];
     EvWaitForDnsChange dns_provider (change_id r) account_number] in
  let answer := response w (dns_challenge r) (key acme_client) in
  let verification :=
    EvSimpleVerify answer (chall (dns_challenge r)) (host r)
      (public_key w (key acme_client)) in
  let verdict :=
    simple_verify w (trace s ++ waited)%list answer (chall (dns_challenge r)) (host r)
      (public_key w (key acme_client)) in
  let outcome :=
    complete_dns_challenge w acme_client account_number l dns_provider s in
  (wait_for_dns_change w
     (trace s ++ [EvLog DEBUG "Finalizing DNS challenge for {0}" [host r]])%list
     dns_provider (change_id r) account_number = inr tt ->
   verdict = inr false ->
   outcome
   = (inl (Raise ValueError "Failed verification"),
      {| trace := (trace s ++ waited ++ [verification])%list; heap := heap s |})) /\
  (forall evs,
     trace (snd outcome) = (trace s ++ evs)%list ->
     List.filter is_answer evs <> [] ->
     wait_for_dns_change w
       (trace s ++ [EvLog DEBUG "Finalizing DNS challenge for {0}" [host r]])%list
       dns_provider (change_id r) account_number = inr tt /\
     verdict = inr true /\
     evs = (waited ++ [verification;
                       EvAnswerChallenge acme_client (dns_challenge r) answer])%list).
Proof.
  intros Hl waited answer verification verdict outcome.
  subst outcome verdict verification answer.
  unfold complete_dns_challenge, bind, get_field, log, extern, raise; simpl.
  repeat (rewrite Hl; simpl).
  destruct (wait_for_dns_change w _ dns_provider (change_id r) account_number)
    as [e | []] eqn:Hwait; simpl.
  - split; [discriminate |].
    intros evs Htr Hans. exfalso. apply Hans.
    rewrite <- app_assoc in Htr. apply app_inv_head in Htr. subst evs. reflexivity.
  - repeat (rewrite Hl; simpl).
    replace ((trace s ++ [EvLog DEBUG "Finalizing DNS challenge for {0}" [host r]])
             ++ [EvWaitForDnsChange dns_provider (change_id r) account_number])%list
      with (trace s ++ waited)%list by (subst waited; rewrite <- app_assoc; reflexivity).
    destruct (simple_verify w (trace s ++ waited)%list
                (response w (dns_challenge r) (key acme_client))
                (chall (dns_challenge r)) (host r) (public_key w (key acme_client)))
      as [e | [|]] eqn:Hverify; simpl.
    + split; [discriminate |].
      intros evs Htr Hans. exfalso. apply Hans.
      rewrite <- app_assoc in Htr. apply app_inv_head in Htr. subst evs. reflexivity.
    + split; [discriminate |].
      repeat (rewrite Hl; simpl).
      intros evs Htr Hans. split; [reflexivity |]. split; [reflexivity |].
      rewrite <- !app_assoc in Htr. apply app_inv_head in Htr. subst evs. reflexivity.
    + split.
      * intros _ _. rewrite <- app_assoc. reflexivity.
      * intros evs Htr Hans. exfalso. apply Hans.
        rewrite <- app_assoc in Htr. apply app_inv_head in Htr. subst evs. reflexivity.
Qed.

End Completion.

Lemma complete_dns_challenge_answers_only_verified_witness :
  complete_dns_challenge Sample.unverified Sample.client (PStr "123") 1%positive route53
    Sample.two_records
  = (inl (Raise ValueError "Failed verification"),
     {| trace :=
          [EvLog DEBUG "Finalizing DNS challenge for {0}" [PStr "example.com"];
           EvWaitForDnsChange route53 (PStr "change-1") (PStr "123");
           EvSimpleVerify (DNS01Response "token-1.account-key") (DNS01 "token-1")
             (PStr "example.com") (PublicKey "account-key")];
        heap := heap Sample.two_records |}).
Proof.
  apply (proj1 (complete_dns_challenge_answers_only_verified Sample.unverified
                  Sample.client (PStr "123") route53 1%positive Sample.record_1
                  Sample.two_records eq_refl) eq_refl eq_refl).
Defined.

(** ** Orchestration *)

Lemma emits_unpack_one {A} P (items : list A) : emits P (unpack_one items).
Proof. destruct items as [| x [| y rest]]; simpl; auto with py. Qed.

Lemma emits_new_AuthorizationRecord P r : emits P (new_AuthorizationRecord r).
Proof. intros s. exists []. simpl. rewrite app_nil_r. auto. Qed.

Lemma emits_start_dns_challenge w acme_client account_number h dns_provider :
  emits (fun ev => is_log ev || is_orchestration_call ev)
    (start_dns_challenge w acme_client account_number h dns_provider).
Proof.
  unfold start_dns_challenge.
  apply emits_bind; [apply emits_log; reflexivity | intros _].
  apply emits_bind; [apply emits_extern; reflexivity | intros authz].
  apply emits_bind; [apply emits_unpack_one | intros c].
  apply emits_bind; [apply emits_extern; reflexivity | intros cid].
  apply emits_new_AuthorizationRecord.
Qed.

Lemma emits_get_authorizations_from w acme_client account_number ds dns_provider acc :
  emits (fun ev => is_log ev || is_orchestration_call ev)
    (get_authorizations_from w acme_client account_number ds dns_provider acc).
Proof.
  revert acc. induction ds as [| d ds IH]; intros acc; simpl.
  - apply emits_ret.
  - apply emits_bind; [apply emits_start_dns_challenge | intros l]. apply IH.
Qed.

(** A started challenge: the record is new, and the calls made are the
    challenge request and the creation of the record's TXT entry. *)
Lemma start_dns_challenge_inr_inv w acme_client account_number h dns_provider s l s' :
  start_dns_challenge w acme_client account_number h dns_provider s = (inr l, s') ->
  heap s !! l = None /\
  exists r,
    host r = h /\
    heap s' = <[l := r]> (heap s) /\
    trace s'
    = (trace s
       ++ [EvLog DEBUG "Starting DNS challenge for {0}" [h];
           EvRequestDomainChallenges acme_client h;
           creation_of w acme_client account_number dns_provider r])%list.
Proof.
  unfold start_dns_challenge. intros Hrun.
  apply bind_inr_inv in Hrun as ([] & s1 & Hlog & Hrun).
  apply bind_inr_inv in Hrun as (authz & s2 & Hreq & Hrun).
  apply bind_inr_inv in Hrun as (c & s3 & Hunpack & Hrun).
  apply bind_inr_inv in Hrun as (cid & s4 & Hcreate & Hrun).
  unfold log, extern in Hlog. inversion Hlog; subst s1. clear Hlog.
  unfold extern in Hreq. inversion Hreq as [[Hauthz Hs2]]. subst s2. clear Hreq.
  assert (s3 = {| trace := ((trace s ++ [EvLog DEBUG "Starting DNS challenge for {0}" [h]])
                            ++ [EvRequestDomainChallenges acme_client h])%list;
                  heap := heap s |}) as ->.
  { destruct (find_dns_challenge authz) as [| c0 [| c1 rest]]; simpl in Hunpack;
      inversion Hunpack; reflexivity. }
  unfold extern in Hcreate. simpl in Hcreate. inversion Hcreate as [[Hcid Hs4]].
  subst s4. clear Hcreate.
  unfold new_AuthorizationRecord in Hrun. simpl in Hrun.
  inversion Hrun as [[Hl Hs']]. clear Hrun.
  split; [apply not_elem_of_dom, is_fresh |].
  eexists. split; [| split]; [| reflexivity |]; [reflexivity |].
  simpl. unfold creation_of. simpl. rewrite <- !app_assoc. reflexivity.
Qed.

Section Orchestration.

Variable w : World.
Variable acme_client : AcmeClient.
Variable account_number : pyval.
Variable dns_provider : dns_module.

Lemma get_authorizations_from_inr_inv ds acc s refs s' :
  get_authorizations_from w acme_client account_number ds dns_provider acc s
  = (inr refs, s') ->
  exists new records evs,
    refs = (acc ++ new)%list /\
    denotes (heap s') new records /\
    map host records = ds /\
    NoDup new /\
    Forall (fun l => heap s !! l = None) new /\
    (forall l r, heap s !! l = Some r -> heap s' !! l = Some r) /\
    trace s' = (trace s ++ evs)%list /\
    List.filter is_create evs
    = map (creation_of w acme_client account_number dns_provider) records.
Proof.
  revert acc s. induction ds as [| d ds IH]; intros acc s Hrun; simpl in Hrun.
  - inversion Hrun; subst. exists [], [], []. rewrite !app_nil_r.
    repeat split; auto; constructor.
  - apply bind_inr_inv in Hrun as (l & s1 & Hstart & Hrun).
    apply start_dns_challenge_inr_inv in Hstart as (Hfresh & r & Hhost & Hheap & Htrace).
    apply IH in Hrun as (new & records & evs & Hrefs & Hden & Hhosts & Hnodup & Hnew
                         & Hkeep & Htr & Hcreates).
    assert (Hl : heap s1 !! l = Some r) by (rewrite Hheap; apply lookup_insert_eq).
    exists (l :: new), (r :: records),
      ([EvLog DEBUG "Starting DNS challenge for {0}" [d];
        EvRequestDomainChallenges acme_client d;
        creation_of w acme_client account_number dns_provider r] ++ evs)%list.
    split; [rewrite Hrefs, <- app_assoc; reflexivity |].
    split; [constructor; [apply Hkeep; exact Hl | exact Hden] |].
    split; [simpl; rewrite Hhost, Hhosts; reflexivity |].
    split.
    { constructor; [| exact Hnodup]. intros Hin.
      rewrite Forall_forall in Hnew. specialize (Hnew l Hin). congruence. }
    split.
    { constructor; [exact Hfresh |].
      rewrite Forall_forall in *. intros l' Hin. specialize (Hnew l' Hin).
      rewrite Hheap in Hnew. destruct (decide (l = l')) as [-> | Hne].
      - rewrite lookup_insert_eq in Hnew. discriminate.
      - rewrite lookup_insert_ne in Hnew by exact Hne. exact Hnew. }
    split.
    { intros l' r' Hl'. apply Hkeep. rewrite Hheap.
      rewrite lookup_insert_ne; [exact Hl' |]. intros ->. congruence. }
    split; [rewrite Htr, Htrace, <- app_assoc; reflexivity |].
    simpl. rewrite Hcreates. reflexivity.
Qed.

(** X3. When [get_authorizations] returns, it returns one new
    [AuthorizationRecord] per domain, in the order of the domains and with
    that domain as host; the records are distinct objects that did not
    exist before, the records that existed are untouched, and one TXT
    record was created for each, in order, under the record's validation
    name and value. *)
Theorem get_authorizations_one_record_per_domain (ds : list pyval) (s s' : state)
    (refs : list ref) :
  get_authorizations w acme_client account_number ds dns_provider s = (inr refs, s') ->
  exists records evs,
    denotes (heap s') refs records /\
    map host records = ds /\
    NoDup refs /\
    Forall (fun l => heap s !! l = None) refs /\
    (forall l r, heap s !! l = Some r -> heap s' !! l = Some r) /\
    trace s' = (trace s ++ evs)%list /\
    List.filter is_create evs
    = map (creation_of w acme_client account_number dns_provider) records.
Proof.
  unfold get_authorizations. intros Hrun.
  apply get_authorizations_from_inr_inv in Hrun
    as (new & records & evs & Hrefs & Hrest).
  simpl in Hrefs. subst new. exists records, evs. exact Hrest.
Qed.

(** X4. [get_authorizations] only logs, asks the CA for challenges and
    creates TXT records.  It never deletes one: when the challenge of a
    later domain fails, the records already created for the earlier
    domains are left in the zone and the exception leaves the function
    with no list of authorizations to clean up from. *)
Theorem get_authorizations_never_deletes (ds : list pyval) (s : state) :
  let outcome := get_authorizations w acme_client account_number ds dns_provider s in
  exists evs,
    trace (snd outcome) = (trace s ++ evs)%list /\
    forallb (fun ev => is_log ev || is_orchestration_call ev) evs = true /\
    List.filter is_delete evs = [].
Proof.
  intros outcome. subst outcome. unfold get_authorizations.
  destruct (emits_get_authorizations_from w acme_client account_number ds dns_provider [] s)
    as (evs & Htr & Honly).
  exists evs. split; [exact Htr |]. split; [exact Honly |].
  apply (filter_none (P := fun ev => is_log ev || is_orchestration_call ev));
    [| exact Honly].
  intros ev Hev. destruct ev; simpl in *; try reflexivity; discriminate.
Qed.

End Orchestration.

Lemma get_authorizations_one_record_per_domain_witness :
  exists records,
    denotes
      (heap (snd (get_authorizations Sample.happy Sample.client (PStr "123")
                    [PStr "example.com"; PStr "www.example.com"] route53
                    Sample.empty_state)))
      [1%positive; 2%positive] records /\
    map host records = [PStr "example.com"; PStr "www.example.com"].
Proof.
  destruct (get_authorizations_one_record_per_domain Sample.happy Sample.client
              (PStr "123") route53 [PStr "example.com"; PStr "www.example.com"]
              Sample.empty_state _ [1%positive; 2%positive] eq_refl)
    as (records & evs & Hden & Hhosts & _).
  exists records. split; [exact Hden | exact Hhosts].
Defined.

(** ** Orchestration followed by finalization *)

(** X5. Every TXT record that [get_authorizations] created is deleted by
    [finalize_authorizations], once, in the same order and under the same
    name, value and account, whatever happens to the challenges, as long
    as the provider does not fail a deletion. *)
Theorem created_txt_records_are_deleted (w : World) (acme_client : AcmeClient)
    (account_number : pyval) (dns_provider : dns_module) (ds : list pyval)
    (s s1 : state) (refs : list ref) :
  get_authorizations w acme_client account_number ds dns_provider s = (inr refs, s1) ->
  deletion_never_raises w ->
  exists created cleaned,
    trace s1 = (trace s ++ created)%list /\
    trace (snd (finalize_authorizations w acme_client account_number dns_provider refs s1))
    = (trace s1 ++ cleaned)%list /\
    length (List.filter is_create created) = length ds /\
    map txt_record_of (List.filter is_delete cleaned)
    = map txt_record_of (List.filter is_create created).
Proof.
  intros Horch Hnever.
  destruct (get_authorizations_from_inr_inv w acme_client account_number
              dns_provider ds [] s refs s1 Horch)
    as (new & records & created & Hrefs & Hden & Hhosts & _ & _ & _ & Htr & Hcreated).
  simpl in Hrefs. subst new.
  rewrite finalize_authorizations_run. simpl.
  destruct (emits_for_each _ refs
              (fun l => complete_dns_challenge w acme_client account_number l dns_provider)
              (emits_complete_dns_challenge w acme_client account_number dns_provider) s1)
    as (evs1 & Htr1 & Hnone).
  pose proof (frame_for_each refs
                (fun l => complete_dns_challenge w acme_client account_number l dns_provider)
                (frame_complete_dns_challenge w acme_client account_number dns_provider) s1)
    as Hheap1.
  set (s2 := snd (for_each refs
                    (fun l => complete_dns_challenge w acme_client account_number l
                                dns_provider) s1)) in *.
  assert (Hden2 : denotes (heap s2) refs records) by (rewrite Hheap1; exact Hden).
  destruct (cleanup_loop_run w acme_client account_number dns_provider refs records s2 Hden2)
    as (k & _ & Htr2 & _ & _ & _ & Hall).
  destruct (Hall Hnever) as [_ ->]. rewrite firstn_all in Htr2.
  exists created,
    (evs1 ++ map (deletion_of w acme_client account_number dns_provider) records)%list.
  split; [exact Htr |].
  split; [rewrite Htr2, Htr1, app_assoc; reflexivity |].
  split; [rewrite Hcreated, length_map, <- Hhosts, length_map; reflexivity |].
  rewrite List.filter_app, (filter_is_delete_none _ Hnone),
    (filter_is_delete_deletions w acme_client account_number dns_provider), Hcreated.
  simpl. rewrite !map_map. reflexivity.
Qed.

Lemma created_txt_records_are_deleted_witness :
  exists created cleaned,
    trace (snd (get_authorizations Sample.unverified Sample.client (PStr "123")
                  [PStr "example.com"; PStr "www.example.com"] route53
                  Sample.empty_state))
    = ([] ++ created)%list /\
    trace (snd (finalize_authorizations Sample.unverified Sample.client (PStr "123")
                  route53 [1%positive; 2%positive]
                  (snd (get_authorizations Sample.unverified Sample.client (PStr "123")
                          [PStr "example.com"; PStr "www.example.com"] route53
                          Sample.empty_state))))
    = (trace (snd (get_authorizations Sample.unverified Sample.client (PStr "123")
                     [PStr "example.com"; PStr "www.example.com"] route53
                     Sample.empty_state)) ++ cleaned)%list /\
    length (List.filter is_create created) = 2 /\
    map txt_record_of (List.filter is_delete cleaned)
    = map txt_record_of (List.filter is_create created).
Proof.
  apply (created_txt_records_are_deleted Sample.unverified Sample.client (PStr "123")
           route53 [PStr "example.com"; PStr "www.example.com"] Sample.empty_state
           _ [1%positive; 2%positive] eq_refl).
  intros tr m cid account name value. reflexivity.
Defined.

(** ** [request_certificate] *)

Lemma for_list_get_field_denotes {A} (field : AuthorizationRecord -> A) name refs records s :
  denotes (heap s) refs records ->
  for_list refs (get_field field name) s = (inr (map field records), s).
Proof.
  intros Hden. induction Hden as [| l r refs records Hl Hrest IH]; [reflexivity |].
  simpl for_list. unfold bind at 1. unfold get_field at 1. rewrite Hl.
  unfold bind at 1. rewrite IH. reflexivity.
Qed.

Lemma fold_left_append_map {A B} (f : A -> B) (items : list A) (acc : list B) :
  fold_left (fun acc x => (acc ++ [f x])%list) items acc = (acc ++ map f items)%list.
Proof.
  revert acc. induction items as [| x items IH]; intros acc; simpl.
  - symmetry. apply app_nil_r.
  - rewrite IH, <- app_assoc. reflexivity.
Qed.

(** X6. [request_certificate] parses the CSR before it contacts the CA: a
    CSR that does not load makes it raise with no call made.  Otherwise it
    asks for issuance once, with the authorizations of the records in list
    order, a minimum poll time of 60 and at most 10 attempts, fetches the
    chain once, and returns the leaf in PEM with the chain certificates in
    PEM joined by newlines, in the order the CA gave them. *)
Theorem request_certificate_polls_then_fetches_chain (w : World)
    (acme_client : AcmeClient) (refs : list ref) (records : list AuthorizationRecord)
    (csr : pyval) (s : state) :
  denotes (heap s) refs records ->
  (forall e,
     load_certificate_request w csr = inl e ->
     request_certificate w acme_client refs csr s = (inl e, s)) /\
  (forall request issued chain,
     load_certificate_request w csr = inr request ->
     let poll :=
       EvPollAndRequestIssuance acme_client request (map authz records) 60 10 in
     poll_and_request_issuance w (trace s) acme_client request (map authz records) 60 10
     = inr issued ->
     fetch_chain w (trace s ++ [poll])%list acme_client issued = inr chain ->
     request_certificate w acme_client refs csr s
     = (inr (dump_certificate w (body issued),
             join_lines (map (dump_certificate w) chain)),
        {| trace := (trace s
                     ++ [poll; EvFetchChain acme_client issued;
                         EvLog DEBUG "{0} {1}"
                           [PStr "<class 'str'>"; PStr "<class 'str'>"]])%list;
           heap := heap s |})).
Proof.
  intros Hden. split.
  - intros e Hload. unfold request_certificate, bind, lift. rewrite Hload. reflexivity.
  - intros request issued chain Hload poll Hpoll Hfetch.
    unfold request_certificate. unfold bind at 1. unfold lift. rewrite Hload.
    unfold bind at 1. rewrite (for_list_get_field_denotes authz "authz" refs records s Hden).
    unfold bind, extern, log, ret. simpl. fold poll. rewrite Hpoll. simpl.
    rewrite Hfetch. simpl. rewrite fold_left_append_map. simpl.
    rewrite <- !app_assoc. reflexivity.
Qed.

Lemma request_certificate_polls_then_fetches_chain_witness :
  fst (request_certificate Sample.happy Sample.client [1%positive; 2%positive]
         (PStr "CSR") Sample.two_records)
  = inr ("leaf", "intermediate") /\
  request_certificate Sample.happy Sample.client [1%positive; 2%positive] PNone
    Sample.two_records
  = (inl (Raise TypeError "initializer for ctype 'char[]' must be bytes"),
     Sample.two_records).
Proof.
  split.
  - rewrite (proj2 (request_certificate_polls_then_fetches_chain Sample.happy Sample.client
                      [1%positive; 2%positive] [Sample.record_1; Sample.record_2]
                      (PStr "CSR") Sample.two_records two_records_denote)
               _ _ _ eq_refl eq_refl eq_refl).
    reflexivity.
  - apply (proj1 (request_certificate_polls_then_fetches_chain Sample.happy Sample.client
                    [1%positive; 2%positive] [Sample.record_1; Sample.record_2]
                    PNone Sample.two_records two_records_denote) _ eq_refl).
Defined.

(** ** Options of an authority *)

Lemma read_options_app items1 items2 acc :
  read_options (items1 ++ items2) acc
  = match read_options items1 acc with
    | inr acc' => read_options items2 acc'
    | inl e => inl e
    end.
Proof.
  revert acc. induction items1 as [| option items1 IH]; intros acc; [reflexivity |].
  simpl. destruct (dict_get option "value" PNone) as [e | v]; [reflexivity |].
  destruct (subscript option "name") as [e | k]; [reflexivity |].
  destruct (options_set acc k v) as [e | acc']; [reflexivity |]. apply IH.
Qed.

(** Entries that do not carry a name leave its binding alone. *)
Lemma read_options_other_names name items acc opts default :
  read_options items acc = inr opts ->
  Forall (fun option => named name option = false) items ->
  options_get opts name default = options_get acc name default.
Proof.
  revert acc. induction items as [| option items IH]; intros acc Hread Hother.
  - inversion Hread; subst. reflexivity.
  - inversion Hother as [| ? ? Hoption Hrest]; subst. simpl in Hread.
    destruct (dict_get option "value" PNone) as [e | v]; [discriminate |].
    destruct (subscript option "name") as [e | k] eqn:Hname; [discriminate |].
    destruct (options_set acc k v) as [e | acc'] eqn:Hset; [discriminate |].
    rewrite (IH acc' Hread Hrest).
    unfold options_set in Hset. destruct (hashable k); [| discriminate].
    inversion Hset; subst acc'. simpl.
    assert (Hk : eq_str k name = false).
    { unfold named in Hoption. destruct option; simpl in Hname; try discriminate.
      simpl in Hoption. destruct (assoc "name" entries); [| discriminate].
      inversion Hname; subst. exact Hoption. }
    rewrite Hk. reflexivity.
Qed.

(** X7. Among the options of an authority, the last entry named
    [acme_url] decides the directory that [setup_acme_client] contacts,
    whatever the earlier entries and the configuration say; an entry
    without a value makes the directory [None] and does not fall back to
    [ACME_DIRECTORY_URL]. *)
Theorem setup_acme_client_last_acme_url_wins (w : World) (authority options decoded : pyval)
    (before after : list pyval) (item : list (string * pyval)) (opts : options_dict)
    (private_key : jwk) (s : state) :
  getattr authority "options" = inr options ->
  truthy options = true ->
  json_loads w options = inr decoded ->
  iterate decoded = inr (before ++ PDict item :: after)%list ->
  assoc "name" item = Some (PStr "acme_url") ->
  Forall (fun option => named "acme_url" option = false) after ->
  read_options (before ++ PDict item :: after)%list [] = inr opts ->
  generate_private_key w (trace s) "RSA2048" = inr private_key ->
  let directory_url :=
    match assoc "value" item with Some url => url | None => PNone end in
  exists evs,
    trace (snd (setup_acme_client w authority s))
    = (trace s
       ++ [EvGeneratePrivateKey "RSA2048";
           EvLog DEBUG "Connecting with directory at {0}" [directory_url];
           EvClient directory_url private_key]
       ++ evs)%list.
Proof.
  intros Hopt Htruthy Hloads Hiter Hname Hafter Hread Hkey directory_url.
  assert (Hurl : options_get opts "acme_url" (config w "ACME_DIRECTORY_URL") = directory_url).
  { rewrite read_options_app in Hread.
    destruct (read_options before []) as [e | acc1]; [discriminate |].
    simpl in Hread. rewrite Hname in Hread. simpl in Hread.
    subst directory_url.
    destruct (assoc "value" item) as [url |];
      rewrite (read_options_other_names "acme_url" after _ opts _ Hread Hafter);
      reflexivity. }
  unfold setup_acme_client, bind, lift, raise. rewrite Hopt, Htruthy. simpl.
  rewrite Hloads, Hiter, Hread, Hurl.
  unfold extern, log, ret; simpl. rewrite Hkey.
  repeat match goal with
         | |- context [match ?x with inl _ => _ | inr _ => _ end] =>
             destruct x
         end;
    simpl; repeat rewrite <- app_assoc; simpl; eexists; reflexivity.
Qed.

Lemma setup_acme_client_last_acme_url_wins_witness :
  exists evs,
    trace (snd (setup_acme_client Sample.configured
                  (PObj [("options", PStr Sample.repeated_acme_url)]) Sample.empty_state))
    = ([] ++ [EvGeneratePrivateKey "RSA2048";
              EvLog DEBUG "Connecting with directory at {0}" [PNone];
              EvClient PNone (JWKRSA "account-key")] ++ evs)%list.
Proof.
  apply (setup_acme_client_last_acme_url_wins Sample.configured
           (PObj [("options", PStr Sample.repeated_acme_url)])
           (PStr Sample.repeated_acme_url) Sample.repeated_acme_url_decoded
           [PDict [("name", PStr "acme_url");
                   ("value", PStr "https://old.example/directory")];
            PDict [("name", PStr "email"); ("value", PStr "admin@example.com")]]
           [] [("name", PStr "acme_url")] _ (JWKRSA "account-key") Sample.empty_state
           eq_refl eq_refl eq_refl eq_refl eq_refl (List.Forall_nil _) eq_refl eq_refl).
Defined.

(** ** [create_authority] *)

Lemma scan_certificate_app items1 items2 root :
  scan_certificate (items1 ++ items2) root
  = match scan_certificate items1 root with
    | inr root' => scan_certificate items2 root'
    | inl e => inl e
    end.
Proof.
  revert root. induction items1 as [| option items1 IH]; intros root; [reflexivity |].
  simpl. destruct (dict_get option "name" PNone) as [e | name]; [reflexivity |].
  destruct (eq_str name "certificate"); [| apply IH].
  destruct (dict_get option "value" PNone) as [e | v]; [reflexivity | apply IH].
Qed.

Lemma scan_certificate_others items root :
  Forall (other_option "certificate") items ->
  scan_certificate items root = inr root.
Proof.
  induction 1 as [| option items [[entries ->] Hother] Hrest IH]; [reflexivity |].
  simpl. unfold named in Hother. simpl in Hother.
  destruct (assoc "name" entries) as [name |]; simpl; [rewrite Hother |]; exact IH.
Qed.

(** X8. [create_authority] refuses options without plugin options: when
    the [plugin] entry is missing, or its [plugin_options] are missing or
    empty, it logs the error and raises [InvalidConfiguration]. *)
Theorem create_authority_requires_plugin_options (w : World)
    (entries : list (string * pyval)) (s : state) :
  let refused :=
    (inl (Raise InvalidConfiguration "Invalid options for lemur_acme plugin: {}"),
     {| trace := (trace s
                  ++ [EvLog ERROR "Invalid options for lemur_acme plugin: {}"
                        [PDict entries]])%list;
        heap := heap s |}) in
  (assoc "plugin" entries = None ->
   create_authority w (PDict entries) s = refused) /\
  (forall plugin,
     assoc "plugin" entries = Some (PDict plugin) ->
     match assoc "plugin_options" plugin with
     | Some plugin_options => truthy plugin_options = false
     | None => True
     end ->
     create_authority w (PDict entries) s = refused).
Proof.
  intros refused. subst refused. split.
  - intros Hnone. unfold create_authority, bind, lift, log, extern, raise. simpl.
    rewrite Hnone. reflexivity.
  - intros plugin Hplugin Hoptions.
    unfold create_authority, bind, lift, log, extern, raise. simpl.
    rewrite Hplugin. simpl.
    destruct (assoc "plugin_options" plugin) as [plugin_options |]; simpl.
    + rewrite Hoptions. reflexivity.
    + reflexivity.
Qed.

Lemma create_authority_requires_plugin_options_witness :
  fst (create_authority Sample.happy (PDict [("plugin", PDict [("slug", PStr "acme-issuer")])])
         Sample.empty_state)
  = inl (Raise InvalidConfiguration "Invalid options for lemur_acme plugin: {}").
Proof.
  rewrite (proj2 (create_authority_requires_plugin_options Sample.happy
                    [("plugin", PDict [("slug", PStr "acme-issuer")])] Sample.empty_state)
             [("slug", PStr "acme-issuer")] eq_refl I).
  reflexivity.
Defined.

(** X9. [create_authority] takes as root the value of the last plugin
    option named [certificate] ([None] when that option has no value), and
    the configured [ACME_ROOT] when no option is named so.  The chain it
    returns is empty, the only role is the [acme] role, and nothing is
    called or logged. *)
Theorem create_authority_root_is_last_certificate (w : World)
    (entries plugin : list (string * pyval)) (items : list pyval) (s : state) :
  assoc "plugin" entries = Some (PDict plugin) ->
  assoc "plugin_options" plugin = Some (PList items) ->
  items <> [] ->
  (Forall (other_option "certificate") items ->
   create_authority w (PDict entries) s
   = (inr (config w "ACME_ROOT", EmptyString, [role]), s)) /\
  (forall before item after root,
     items = (before ++ PDict item :: after)%list ->
     scan_certificate before (config w "ACME_ROOT") = inr root ->
     assoc "name" item = Some (PStr "certificate") ->
     Forall (other_option "certificate") after ->
     create_authority w (PDict entries) s
     = (inr (match assoc "value" item with Some v => v | None => PNone end,
             EmptyString, [role]), s)).
Proof.
  intros Hplugin Hoptions Hitems.
  assert (Hrun : create_authority w (PDict entries) s
                 = match scan_certificate items (config w "ACME_ROOT") with
                   | inr root => (inr (root, EmptyString, [role]), s)
                   | inl e => (inl e, s)
                   end).
  { unfold create_authority, bind, lift, ret. simpl. rewrite Hplugin. simpl.
    rewrite Hoptions. destruct items as [| option items']; [contradiction |].
    change (truthy (PList (option :: items'))) with true. cbn [negb iterate].
    destruct (scan_certificate (option :: items') (config w "ACME_ROOT")); reflexivity. }
  rewrite Hrun. split.
  - intros Hothers. rewrite (scan_certificate_others items _ Hothers). reflexivity.
  - intros before item after root -> Hbefore Hname Hafter.
    rewrite scan_certificate_app, Hbefore. simpl. rewrite Hname. simpl.
    destruct (assoc "value" item) as [v |];
      rewrite (scan_certificate_others after _ Hafter); reflexivity.
Qed.

Lemma create_authority_root_is_last_certificate_witness :
  create_authority Sample.happy (PDict Sample.authority_entries) Sample.empty_state
  = (inr (PStr "NEW ROOT", EmptyString, [role]), Sample.empty_state).
Proof.
  apply (proj2 (create_authority_root_is_last_certificate Sample.happy
                  Sample.authority_entries Sample.plugin_entries Sample.plugin_options
                  Sample.empty_state eq_refl eq_refl
                  ltac:(discriminate))
           [PDict [("name", PStr "certificate"); ("value", PStr "OLD ROOT")];
            PDict [("name", PStr "acme_url"); ("value", PStr "https://ca.example/directory")]]
           [("name", PStr "certificate"); ("value", PStr "NEW ROOT")]
           [PDict [("name", PStr "email"); ("value", PStr "a@b.com")]]
           (PStr "OLD ROOT") eq_refl eq_refl eq_refl).
  constructor; [| constructor]. split; [eexists; reflexivity | reflexivity].
Defined.

(** ** Order of the calls *)

Lemma phased_first {A} P Q (m : M A) : emits P m -> phased P Q m.
Proof.
  intros Hm s. destruct (Hm s) as (evs & Htr & HP).
  exists evs, []. rewrite app_nil_r. auto.
Qed.

Lemma phased_second {A} P Q (m : M A) : emits Q m -> phased P Q m.
Proof.
  intros Hm s. destruct (Hm s) as (evs & Htr & HQ).
  exists [], evs. auto.
Qed.

Lemma phased_bind {A B} P Q (m : M A) (k : A -> M B) :
  emits P m -> (forall a, phased P Q (k a)) -> phased P Q (bind m k).
Proof.
  intros Hm Hk s. unfold bind. destruct (Hm s) as (evs & Htr & HP).
  destruct (m s) as [[e | a] s1]; simpl in *.
  - exists evs, []. rewrite app_nil_r. auto.
  - destruct (Hk a s1) as (first & second & Htr' & HP' & HQ').
    exists (evs ++ first)%list, second.
    rewrite Htr', Htr, forallb_app, HP, HP', <- !app_assoc. auto.
Qed.

Lemma phased_bind_second {A B} P Q (m : M A) (k : A -> M B) :
  phased P Q m -> (forall a, emits Q (k a)) -> phased P Q (bind m k).
Proof.
  intros Hm Hk s. unfold bind. destruct (Hm s) as (first & second & Htr & HP & HQ).
  destruct (m s) as [[e | a] s1]; simpl in *.
  - exists first, second. auto.
  - destruct (Hk a s1) as (evs & Htr' & HQ').
    exists first, (second ++ evs)%list.
    rewrite Htr', Htr, forallb_app, HQ, HQ', <- !app_assoc. auto.
Qed.

Lemma emits_get_dns_provider P type : emits P (get_dns_provider type).
Proof. unfold get_dns_provider. walk. Qed.

Lemma emits_get_authorizations P w acme_client account_number ds dns_provider :
  (forall ev, is_log ev || is_orchestration_call ev = true -> P ev = true) ->
  emits P (get_authorizations w acme_client account_number ds dns_provider).
Proof.
  intros HP. apply (emits_weaken _ _ _ HP).
  apply emits_get_authorizations_from.
Qed.

Lemma emits_resolve_pending w pc :
  emits (fun ev => negb (is_completion_call ev) && negb (is_orchestration_call ev))
    (resolve_pending w pc).
Proof.
  unfold resolve_pending.
  apply emits_bind; [auto with py | intros authority].
  apply emits_bind; [unfold setup_acme_client; walk | intros session].
  apply emits_bind; [auto with py | intros external_id].
  apply emits_bind; [apply emits_extern; reflexivity | intros order_info].
  apply emits_bind; [auto with py | intros provider_id].
  apply emits_bind; [apply emits_extern; reflexivity | intros provider].
  apply emits_bind; [auto with py | intros provider_type].
  apply emits_bind; [apply emits_get_dns_provider | intros m]. apply emits_ret.
Qed.

Lemma emits_orchestrate_one w pc :
  emits (fun ev => negb (is_completion_call ev)) (orchestrate_one w pc).
Proof.
  unfold orchestrate_one.
  apply emits_bind.
  { apply (emits_weaken _ _ _ (fun ev H => proj1 (andb_prop _ _ H))
             (emits_resolve_pending w pc)). }
  intros resolved. apply emits_bind; [| intros; apply emits_ret].
  apply emits_get_authorizations. intros ev Hev.
  destruct ev; simpl in *; try reflexivity; discriminate.
Qed.

Lemma emits_orchestrate_all w pcs pending certs :
  emits (fun ev => negb (is_completion_call ev)) (orchestrate_all w pcs pending certs).
Proof.
  revert pending certs. induction pcs as [| pc pcs IH]; intros pending certs; simpl.
  - apply emits_ret.
  - apply emits_bind; [| intros lists; apply IH].
    apply emits_try_except.
    + apply emits_bind; [apply emits_orchestrate_one | intros; apply emits_ret].
    + apply emits_bind; [apply emits_log; reflexivity | intros; apply emits_ret].
Qed.

Lemma emits_finalize_authorizations w acme_client account_number dns_provider refs :
  emits (fun ev => negb (is_orchestration_call ev) && negb (is_issuance_call ev))
    (finalize_authorizations w acme_client account_number dns_provider refs).
Proof.
  unfold finalize_authorizations.
  apply emits_bind; [| intros; apply emits_ret].
  apply emits_try_finally; apply emits_for_each; intros l.
  - unfold complete_dns_challenge. walk.
  - unfold delete_record. walk.
Qed.

Lemma emits_request_certificate w acme_client refs csr :
  emits (fun ev => negb (is_orchestration_call ev) && negb (is_dns_call ev))
    (request_certificate w acme_client refs csr).
Proof. unfold request_certificate. walk. Qed.

Lemma emits_cert_dict P w pem chain pc : emits P (cert_dict w pem chain pc).
Proof. unfold cert_dict. walk. Qed.

Lemma emits_issue_one w entry :
  emits (fun ev => negb (is_orchestration_call ev)) (issue_one w entry).
Proof.
  unfold issue_one.
  apply emits_bind.
  { apply (emits_weaken _ _ _ (fun ev H => proj1 (andb_prop _ _ H))
             (emits_finalize_authorizations w _ _ _ _)). }
  intros refs. apply emits_bind; [auto with py | intros csr].
  apply emits_bind; [| intros pems; apply emits_cert_dict].
  apply (emits_weaken _ _ _ (fun ev H => proj1 (andb_prop _ _ H))
           (emits_request_certificate w _ _ _)).
Qed.

Lemma emits_issue_all w last pending certs :
  emits (fun ev => negb (is_orchestration_call ev)) (issue_all w last pending certs).
Proof.
  revert certs. induction pending as [| entry pending IH]; intros certs; simpl.
  - apply emits_ret.
  - apply emits_bind; [| intros certs'; apply IH].
    apply emits_try_except.
    + apply emits_bind; [apply emits_issue_one | intros; apply emits_ret].
    + apply emits_bind; [apply emits_log; reflexivity | intros; apply emits_ret].
Qed.

Lemma forallb_negb_filter (Q : event -> bool) (evs : list event) :
  forallb (fun ev => negb (Q ev)) evs = true -> List.filter Q evs = [].
Proof.
  apply filter_none. intros ev Hev. destruct (Q ev); [discriminate | reflexivity].
Qed.

(** X10. [get_ordered_certificates] works in two phases over the whole
    batch: every challenge request and TXT record creation, for all the
    pending certificates, is made before the first propagation wait,
    verification, challenge answer, record deletion or issuance request of
    any of them. *)
Theorem get_ordered_certificates_orchestrates_before_completing (w : World)
    (pending_certs : list pyval) (s : state) :
  exists started completed,
    trace (snd (get_ordered_certificates w pending_certs s))
    = (trace s ++ started ++ completed)%list /\
    List.filter is_completion_call started = [] /\
    List.filter is_orchestration_call completed = [].
Proof.
  assert (Hphased : phased (fun ev => negb (is_completion_call ev))
                      (fun ev => negb (is_orchestration_call ev))
                      (get_ordered_certificates w pending_certs)).
  { unfold get_ordered_certificates. apply phased_bind.
    - apply emits_orchestrate_all.
    - intros lists. apply phased_second. apply emits_issue_all. }
  destruct (Hphased s) as (started & completed & Htr & Hfirst & Hsecond).
  exists started, completed. split; [exact Htr |].
  split; apply forallb_negb_filter; assumption.
Qed.

Lemma emits_setup_no_issuance w authority :
  emits (fun ev => negb (is_issuance_call ev)) (setup_acme_client w authority).
Proof. unfold setup_acme_client. walk. Qed.

Lemma emits_get_domains_no_issuance options :
  emits (fun ev => negb (is_issuance_call ev)) (get_domains options).
Proof. unfold get_domains. walk. Qed.

Lemma emits_finalize_no_issuance w acme_client account_number dns_provider refs :
  emits (fun ev => negb (is_issuance_call ev))
    (finalize_authorizations w acme_client account_number dns_provider refs).
Proof.
  apply (emits_weaken _ _ _ (fun ev H => proj2 (andb_prop _ _ H))
           (emits_finalize_authorizations w _ _ _ _)).
Qed.

Lemma emits_get_authorizations_no_issuance w acme_client account_number ds dns_provider :
  emits (fun ev => negb (is_issuance_call ev))
    (get_authorizations w acme_client account_number ds dns_provider).
Proof.
  apply emits_get_authorizations. intros ev Hev.
  destruct ev; simpl in *; try reflexivity; discriminate.
Qed.

Lemma emits_request_no_dns w acme_client refs csr :
  emits (fun ev => negb (is_dns_call ev)) (request_certificate w acme_client refs csr).
Proof.
  apply (emits_weaken _ _ _ (fun ev H => proj2 (andb_prop _ _ H))
           (emits_request_certificate w _ _ _)).
Qed.

Lemma phased_create_certificate w csr issuer_options :
  phased (fun ev => negb (is_issuance_call ev)) (fun ev => negb (is_dns_call ev))
    (create_certificate w csr issuer_options).
Proof.
  unfold create_certificate.
  apply phased_bind; [auto with py | intros authority].
  apply phased_bind; [auto with py | intros create_immediately].
  apply phased_bind; [apply emits_setup_no_issuance | intros session].
  apply phased_bind; [auto with py | intros dns_provider].
  destruct (negb (truthy dns_provider)); [apply phased_first; auto with py |].
  do 3 (apply phased_bind; [auto with py | intros ?]).
  apply phased_bind; [apply emits_log; reflexivity | intros _].
  do 2 (apply phased_bind; [auto with py | intros ?]).
  match goal with |- phased _ _ (if ?b then _ else _) => destruct b end.
  - apply phased_first. walk.
  - apply phased_bind; [apply emits_get_domains_no_issuance | intros domains].
    destruct (negb (truthy create_immediately)).
    + apply phased_first. walk.
    + apply phased_bind; [apply emits_get_authorizations_no_issuance | intros refs].
      apply phased_bind; [apply emits_finalize_no_issuance | intros _].
      apply phased_bind_second; [| intros; apply emits_ret].
      apply phased_second. apply emits_request_no_dns.
Qed.

Lemma phased_get_ordered_certificate w pc :
  phased (fun ev => negb (is_issuance_call ev)) (fun ev => negb (is_dns_call ev))
    (get_ordered_certificate w pc).
Proof.
  unfold get_ordered_certificate.
  apply phased_bind.
  { unfold resolve_pending.
    apply emits_bind; [auto with py | intros authority].
    apply emits_bind; [apply emits_setup_no_issuance | intros session].
    apply emits_bind; [auto with py | intros external_id].
    apply emits_bind; [apply emits_extern; reflexivity | intros order_info].
    apply emits_bind; [auto with py | intros provider_id].
    apply emits_bind; [apply emits_extern; reflexivity | intros provider].
    apply emits_bind; [auto with py | intros provider_type].
    apply emits_bind; [apply emits_get_dns_provider | intros m]. apply emits_ret. }
  intros resolved. cbv zeta.
  apply phased_bind.
  { apply emits_try_except.
    - apply emits_bind; [apply emits_get_authorizations_no_issuance |].
      intros; apply emits_ret.
    - apply emits_bind; [auto with py | intros name].
      apply emits_bind; [apply emits_log; reflexivity | intros; apply emits_ret]. }
  intros [refs |]; [| apply phased_first; apply emits_ret].
  apply phased_bind; [apply emits_finalize_no_issuance | intros refs'].
  apply phased_bind; [auto with py | intros csr].
  apply phased_bind_second; [| intros; apply emits_cert_dict].
  apply phased_second. apply emits_request_no_dns.
Qed.

(** X11. In both single-certificate entry points, [create_certificate] and
    [get_ordered_certificate], every call to the DNS provider (creation,
    propagation wait, deletion) comes before the issuance request: the TXT
    records are already cleaned up when the CA is asked for the
    certificate, and no DNS call follows that request, on any path. *)
Theorem dns_calls_precede_issuance (w : World) (s : state) :
  (forall csr issuer_options,
     exists before after,
       trace (snd (create_certificate w csr issuer_options s))
       = (trace s ++ before ++ after)%list /\
       List.filter is_issuance_call before = [] /\
       List.filter is_dns_call after = []) /\
  (forall pending_cert,
     exists before after,
       trace (snd (get_ordered_certificate w pending_cert s))
       = (trace s ++ before ++ after)%list /\
       List.filter is_issuance_call before = [] /\
       List.filter is_dns_call after = []).
Proof.
  split.
  - intros csr issuer_options.
    destruct (phased_create_certificate w csr issuer_options s)
      as (before & after & Htr & Hfirst & Hsecond).
    exists before, after. split; [exact Htr |].
    split; apply forallb_negb_filter; assumption.
  - intros pending_cert.
    destruct (phased_get_ordered_certificate w pending_cert s)
      as (before & after & Htr & Hfirst & Hsecond).
    exists before, after. split; [exact Htr |].
    split; apply forallb_negb_filter; assumption.
Qed.

(** ** Single and batch resolution *)

(** X12. When [get_ordered_certificate] returns the certificate dictionary
    of a pending certificate, [get_ordered_certificates] called with that
    certificate alone makes the same calls and returns that dictionary as
    its only outcome. *)
Theorem batch_of_one_agrees_with_single (w : World) (pc : pyval)
    (d : list (string * pyval)) (s s' : state) :
  get_ordered_certificate w pc s = (inr (PDict d), s') ->
  get_ordered_certificates w [pc] s
  = (inr [{| cert := PDict d; pending_cert := pc |}], s').
Proof.
  unfold get_ordered_certificate. intros Hrun.
  apply bind_inr_inv in Hrun as (resolved & s1 & Hresolve & Hrun). cbv zeta in Hrun.
  apply bind_inr_inv in Hrun as (orchestrated & s2 & Htry & Hrun).
  destruct orchestrated as [refs |]; [| discriminate Hrun].
  assert (Hauth : get_authorizations w (fst (fst resolved))
                    (account_number (snd (fst resolved)))
                    (domains (snd (fst resolved))) (snd resolved) s1 = (inr refs, s2)).
  { unfold try_except, bind in Htry.
    destruct (get_authorizations w _ _ _ _ s1) as [[e | refs0] s0].
    - destruct (except_matches [ClientError] e); [| discriminate Htry].
      unfold lift, log, extern, ret in Htry.
      destruct (getattr pc "name"); simpl in Htry; discriminate Htry.
    - unfold ret in Htry. inversion Htry; subst. reflexivity. }
  unfold get_ordered_certificates.
  unfold bind at 1. rewrite orchestrate_all_cons.
  unfold orchestrate_one. unfold bind at 1. rewrite Hresolve. cbv zeta.
  unfold bind at 1. rewrite Hauth. unfold ret at 1. simpl orchestrate_all.
  unfold ret at 1. cbn [fst snd app].
  rewrite issue_all_cons. unfold issue_one. cbn [entry_acme_client entry_account_number
    entry_dns_provider_type entry_authorizations entry_pending_cert].
  rewrite Hrun. reflexivity.
Qed.

Lemma batch_of_one_agrees_with_single_witness :
  fst (get_ordered_certificates Sample.happy [Sample.pending_certificate "example-cert"]
         Sample.empty_state)
  = inr [{| cert := PDict [("body", PStr "leaf"); ("chain", PStr "intermediate");
                           ("external_id", PStr "7")];
            pending_cert := Sample.pending_certificate "example-cert" |}].
Proof.
  assert (Hsingle :
            get_ordered_certificate Sample.happy (Sample.pending_certificate "example-cert")
              Sample.empty_state
            = (inr (PDict [("body", PStr "leaf"); ("chain", PStr "intermediate");
                           ("external_id", PStr "7")]),
               snd (get_ordered_certificate Sample.happy
                      (Sample.pending_certificate "example-cert") Sample.empty_state)))
    by (vm_compute; reflexivity).
  rewrite (batch_of_one_agrees_with_single Sample.happy
             (Sample.pending_certificate "example-cert") _ Sample.empty_state _ Hsingle).
  reflexivity.
Defined.

(** X13. When the challenges of a pending certificate cannot all be
    started, [get_ordered_certificate] ends, by returning [False] or by
    raising, without a single [delete_txt_record] call: the TXT records
    created for the domains before the failing one stay in the zone. *)
Theorem get_ordered_certificate_failed_orchestration_deletes_nothing (w : World)
    (pc : pyval) (s s1 s2 : state) (acme_client : AcmeClient) (order_info : OrderInfo)
    (dns_provider_type : dns_module) (e : exn) :
  resolve_pending w pc s = (inr (acme_client, order_info, dns_provider_type), s1) ->
  get_authorizations w acme_client (account_number order_info) (domains order_info)
    dns_provider_type s1 = (inl e, s2) ->
  exists evs created,
    trace (snd (get_ordered_certificate w pc s)) = (trace s ++ evs)%list /\
    trace s2 = (trace s1 ++ created)%list /\
    List.filter is_create evs = List.filter is_create created /\
    List.filter is_delete evs = [].
Proof.
  intros Hresolve Hauth.
  destruct (emits_resolve_pending w pc s) as (evs1 & Htr1 & Hnone1).
  rewrite Hresolve in Htr1. simpl in Htr1.
  destruct (emits_get_authorizations_from w acme_client (account_number order_info)
              (domains order_info) dns_provider_type [] s1) as (evs2 & Htr2 & Honly2).
  fold (get_authorizations w acme_client (account_number order_info)
          (domains order_info) dns_provider_type) in Htr2.
  rewrite Hauth in Htr2. simpl in Htr2.
  assert (Hshape : exists logs,
            trace (snd (get_ordered_certificate w pc s)) = (trace s2 ++ logs)%list /\
            forallb is_log logs = true).
  { unfold get_ordered_certificate. unfold bind at 1. rewrite Hresolve. cbn [fst snd].
    unfold bind at 1. unfold try_except. unfold bind at 1. rewrite Hauth.
    destruct (except_matches [ClientError] e).
    - unfold bind, lift, log, extern, ret.
      destruct (getattr pc "name") as [e' | name]; simpl.
      + exists []. rewrite app_nil_r. auto.
      + eexists [_]. split; reflexivity.
    - exists []. simpl. rewrite app_nil_r. auto. }
  destruct Hshape as (logs & Htr & Hlogs).
  assert (Hno1 : forall Q : event -> bool,
            (forall ev, Q ev = true ->
                        is_orchestration_call ev || is_completion_call ev = true) ->
            List.filter Q evs1 = []).
  { intros Q HQ.
    apply (filter_none
             (P := fun ev => negb (is_completion_call ev) && negb (is_orchestration_call ev)));
      [| exact Hnone1].
    intros ev Hev. destruct (Q ev) eqn:HQev; [| reflexivity].
    specialize (HQ ev HQev).
    destruct (is_completion_call ev), (is_orchestration_call ev); simpl in *; discriminate. }
  assert (Hnolog : forall Q : event -> bool,
            (forall ev, Q ev = true -> is_log ev = false) -> List.filter Q logs = []).
  { intros Q HQ. apply (filter_none (P := is_log)); [| exact Hlogs].
    intros ev Hev. destruct (Q ev) eqn:HQev; [| reflexivity].
    rewrite (HQ ev HQev) in Hev. discriminate. }
  assert (Hcreate : forall ev, is_create ev = true ->
                               is_orchestration_call ev || is_completion_call ev = true)
    by (intros ev Hev; destruct ev; simpl in *; try discriminate; reflexivity).
  assert (Hdelete : forall ev, is_delete ev = true ->
                               is_orchestration_call ev || is_completion_call ev = true)
    by (intros ev Hev; destruct ev; simpl in *; try discriminate; reflexivity).
  assert (Hcreate' : forall ev, is_create ev = true -> is_log ev = false)
    by (intros ev Hev; destruct ev; simpl in *; try discriminate; reflexivity).
  assert (Hdelete' : forall ev, is_delete ev = true -> is_log ev = false)
    by (intros ev Hev; destruct ev; simpl in *; try discriminate; reflexivity).
  exists (evs1 ++ evs2 ++ logs)%list, evs2.
  split; [rewrite Htr, Htr2, Htr1, <- !app_assoc; reflexivity |].
  split; [exact Htr2 |].
  split.
  - rewrite !List.filter_app, (Hno1 _ Hcreate), (Hnolog _ Hcreate'), app_nil_r.
    reflexivity.
  - rewrite !List.filter_app, (Hno1 _ Hdelete), (Hnolog _ Hdelete'), app_nil_r. simpl.
    apply (filter_none (P := fun ev => is_log ev || is_orchestration_call ev));
      [| exact Honly2].
    intros ev Hev. destruct ev; simpl in *; try reflexivity; discriminate.
Qed.

Lemma get_ordered_certificate_failed_orchestration_deletes_nothing_witness :
  exists evs created,
    trace (snd (get_ordered_certificate Sample.second_creation_fails
                  (Sample.pending_certificate "example-cert") Sample.empty_state))
    = (trace Sample.empty_state ++ evs)%list /\
    trace (snd (get_authorizations Sample.second_creation_fails Sample.client
                  (PStr "123") [PStr "example.com"; PStr "www.example.com"] route53
                  (snd (resolve_pending Sample.second_creation_fails
                          (Sample.pending_certificate "example-cert")
                          Sample.empty_state))))
    = (trace (snd (resolve_pending Sample.second_creation_fails
                     (Sample.pending_certificate "example-cert") Sample.empty_state))
       ++ created)%list /\
    List.filter is_create evs = List.filter is_create created /\
    List.filter is_delete evs = [].
Proof.
  assert (Hresolve :
            resolve_pending Sample.second_creation_fails
              (Sample.pending_certificate "example-cert") Sample.empty_state
            = (inr (Sample.client,
                    {| account_number := PStr "123";
                       domains := [PStr "example.com"; PStr "www.example.com"] |},
                    route53),
               snd (resolve_pending Sample.second_creation_fails
                      (Sample.pending_certificate "example-cert") Sample.empty_state)))
    by (vm_compute; reflexivity).
  assert (Hauth :
            get_authorizations Sample.second_creation_fails Sample.client (PStr "123")
              [PStr "example.com"; PStr "www.example.com"] route53
              (snd (resolve_pending Sample.second_creation_fails
                      (Sample.pending_certificate "example-cert") Sample.empty_state))
            = (inl (Raise ClientError "Throttling"),
               snd (get_authorizations Sample.second_creation_fails Sample.client
                      (PStr "123") [PStr "example.com"; PStr "www.example.com"] route53
                      (snd (resolve_pending Sample.second_creation_fails
                              (Sample.pending_certificate "example-cert")
                              Sample.empty_state)))))
    by (vm_compute; reflexivity).
  exact (get_ordered_certificate_failed_orchestration_deletes_nothing
           Sample.second_creation_fails (Sample.pending_certificate "example-cert")
           Sample.empty_state _ _ Sample.client
           {| account_number := PStr "123";
              domains := [PStr "example.com"; PStr "www.example.com"] |}
           route53 (Raise ClientError "Throttling") Hresolve Hauth).
Defined.

(** ** Configuration checks of [create_certificate] *)

(** X14. [create_certificate] sets up the ACME session before it looks at
    the DNS provider: a failure of the setup is raised as it is, and with
    the session set up a missing (or falsy) [dns_provider] option raises
    [InvalidConfiguration] with nothing else called, in immediate and in
    deferred mode alike. *)
Theorem create_certificate_requires_dns_provider (w : World) (csr : pyval)
    (entries : list (string * pyval)) (s s1 : state) :
  let authority := match assoc "authority" entries with Some a => a | None => PNone end in
  (forall e,
     setup_acme_client w authority s = (inl e, s1) ->
     create_certificate w csr (PDict entries) s = (inl e, s1)) /\
  (forall session,
     setup_acme_client w authority s = (inr session, s1) ->
     match assoc "dns_provider" entries with
     | Some dns_provider => truthy dns_provider = false
     | None => True
     end ->
     create_certificate w csr (PDict entries) s
     = (inl (Raise InvalidConfiguration
               "DNS Provider setting is required for ACME certificates."), s1)).
Proof.
  intros authority. subst authority. unfold create_certificate. split.
  - intros e Hsetup.
    unfold bind at 1. unfold lift at 1. cbn [dict_get].
    destruct (assoc "authority" entries);
      (unfold bind at 1; unfold lift at 1; cbn [dict_get];
       destruct (assoc "create_immediately" entries);
       (unfold bind at 1; rewrite Hsetup; reflexivity)).
  - intros session Hsetup Hprovider.
    unfold bind at 1. unfold lift at 1. cbn [dict_get].
    destruct (assoc "authority" entries);
      (unfold bind at 1; unfold lift at 1; cbn [dict_get];
       destruct (assoc "create_immediately" entries);
       (unfold bind at 1; rewrite Hsetup;
        unfold bind at 1; unfold lift at 1; cbn [dict_get];
        destruct (assoc "dns_provider" entries) as [dns_provider |];
        [rewrite Hprovider; reflexivity | reflexivity])).
Qed.

Lemma create_certificate_requires_dns_provider_witness :
  fst (create_certificate Sample.happy (PStr "CSR")
         (PDict [("authority", Sample.authority); ("common_name", PStr "example.com")])
         Sample.empty_state)
  = inl (Raise InvalidConfiguration
           "DNS Provider setting is required for ACME certificates.").
Proof.
  rewrite (proj2 (create_certificate_requires_dns_provider Sample.happy (PStr "CSR")
                    [("authority", Sample.authority); ("common_name", PStr "example.com")]
                    Sample.empty_state _) _ eq_refl I).
  reflexivity.
Defined.

(** ** Domains *)

(** X15. [get_domains] reads its argument and logs, nothing else, and its
    result does not depend on the calls made before.  Without a
    [common_name] it raises [KeyError]; with non-empty [extensions] that
    lack [sub_alt_names] it raises [KeyError] instead of returning the
    common name alone; and when [names] is a string rather than a list,
    every character of it becomes a domain. *)
Theorem get_domains_edge_cases (entries : list (string * pyval)) (s : state) :
  (exists logs,
     trace (snd (get_domains (PDict entries) s)) = (trace s ++ logs)%list /\
     forallb is_log logs = true) /\
  (forall s', fst (get_domains (PDict entries) s') = fst (get_domains (PDict entries) s)) /\
  (assoc "common_name" entries = None ->
   fst (get_domains (PDict entries) s) = inl (Raise KeyError "common_name")) /\
  (forall common_name binding extensions,
     assoc "common_name" entries = Some common_name ->
     assoc "extensions" entries = Some (PDict (binding :: extensions)) ->
     assoc "sub_alt_names" (binding :: extensions) = None ->
     fst (get_domains (PDict entries) s) = inl (Raise KeyError "sub_alt_names")) /\
  (forall common_name extensions sub_alt_names text,
     assoc "common_name" entries = Some common_name ->
     assoc "extensions" entries = Some (PDict extensions) ->
     assoc "sub_alt_names" extensions = Some (PDict sub_alt_names) ->
     assoc "names" sub_alt_names = Some (PStr text) ->
     fst (get_domains (PDict entries) s) = inr (common_name :: chars text)).
Proof.
  split; [| split; [| split; [| split]]].
  - assert (Hlogs : emits is_log (get_domains (PDict entries)))
      by (unfold get_domains; walk).
    exact (Hlogs s).
  - intros s'. unfold get_domains, bind, log, extern, lift, ret; simpl.
    destruct (assoc "common_name" entries) as [cn |]; [| reflexivity]. simpl.
    destruct (assoc "extensions" entries) as [ext |]; [| reflexivity]. simpl.
    destruct (truthy ext); [| reflexivity].
    destruct (subscript ext "sub_alt_names") as [e | san]; [reflexivity |]. simpl.
    destruct (subscript san "names") as [e | names]; [reflexivity |]. simpl.
    destruct (iterate names); reflexivity.
  - intros Hcn. unfold get_domains, bind, log, extern, lift, ret; simpl.
    rewrite Hcn. reflexivity.
  - intros cn binding extensions Hcn Hext Hsan.
    unfold get_domains, bind, log, extern, lift, ret; simpl.
    rewrite Hcn, Hext. simpl truthy. cbv iota. unfold subscript at 1.
    rewrite Hsan. reflexivity.
  - intros cn extensions san text Hcn Hext Hsan Hnames.
    unfold get_domains, bind, log, extern, lift, ret; simpl.
    rewrite Hcn, Hext.
    destruct extensions as [| binding extensions']; [discriminate Hsan |].
    simpl truthy. cbv iota. unfold subscript at 1.
    rewrite Hsan. simpl. rewrite Hnames. simpl.
    rewrite fold_left_append. reflexivity.
Qed.

Lemma get_domains_edge_cases_witness :
  fst (get_domains
         (PDict [("common_name", PStr "example.com");
                 ("extensions",
                  PDict [("sub_alt_names", PDict [("names", PStr "a.io")])])])
         Sample.empty_state)
  = inr [PStr "example.com"; PStr "a"; PStr "."; PStr "i"; PStr "o"].
Proof.
  apply (proj2 (proj2 (proj2 (proj2 (get_domains_edge_cases
           [("common_name", PStr "example.com");
            ("extensions", PDict [("sub_alt_names", PDict [("names", PStr "a.io")])])]
           Sample.empty_state))))
           (PStr "example.com") [("sub_alt_names", PDict [("names", PStr "a.io")])]
           [("names", PStr "a.io")] "a.io" eq_refl eq_refl eq_refl eq_refl).
Defined.

(** X16. The flattening of the domains for a deferred authorization keeps
    strings as they are, so a list of strings is flattened to itself, and
    stops at the first domain that is neither a string nor an object with
    a [value] attribute, raising [AttributeError]. *)
Theorem flatten_domains_strings_and_failure (ds : list pyval) :
  (Forall (fun d => is_str d = true) ds -> flatten_domains ds [] = inr ds) /\
  (forall before d after e,
     ds = (before ++ d :: after)%list ->
     Forall (fun d => is_str d = true) before ->
     is_str d = false ->
     getattr d "value" = inl e ->
     flatten_domains ds [] = inl e).
Proof.
  assert (Hstrings : forall ds' acc rest,
            Forall (fun d => is_str d = true) ds' ->
            flatten_domains (ds' ++ rest) acc = flatten_domains rest (acc ++ ds')%list).
  { induction ds' as [| d ds' IH]; intros acc rest Hall; simpl.
    - rewrite app_nil_r. reflexivity.
    - inversion Hall as [| ? ? Hd Hrest]; subst. rewrite Hd.
      rewrite (IH _ _ Hrest), <- app_assoc. reflexivity. }
  split.
  - intros Hall. rewrite <- (app_nil_r ds) at 1. rewrite (Hstrings ds [] [] Hall).
    reflexivity.
  - intros before d after e -> Hbefore Hd Hvalue.
    rewrite (Hstrings before [] (d :: after) Hbefore). simpl.
    rewrite Hd, Hvalue. reflexivity.
Qed.

Lemma flatten_domains_strings_and_failure_witness :
  flatten_domains [PStr "example.com"; PInt 7; PStr "www.example.com"] []
  = inl (Raise AttributeError "value").
Proof.
  apply (proj2 (flatten_domains_strings_and_failure
                  [PStr "example.com"; PInt 7; PStr "www.example.com"])
           [PStr "example.com"] (PInt 7) [PStr "www.example.com"] _ eq_refl).
  - constructor; [reflexivity | constructor].
  - reflexivity.
  - reflexivity.
Defined.

(** ** The successful run of [finalize_authorizations] *)

Lemma complete_dns_challenge_inr_inv w acme_client account_number dns_provider l r s s' :
  heap s !! l = Some r ->
  complete_dns_challenge w acme_client account_number l dns_provider s = (inr tt, s') ->
  s' = {| trace := (trace s
                    ++ completion_of w acme_client account_number dns_provider r)%list;
          heap := heap s |}.
Proof.
  intros Hl. unfold complete_dns_challenge, bind, get_field, log, extern, raise; simpl.
  repeat (rewrite Hl; simpl).
  destruct (wait_for_dns_change w _ dns_provider (change_id r) account_number)
    as [e | []]; simpl; [discriminate |].
  repeat (rewrite Hl; simpl).
  destruct (simple_verify w _ _ _ _ _) as [e | [|]]; simpl; try discriminate.
  repeat (rewrite Hl; simpl).
  destruct (answer_challenge w _ _ _ _) as [e | []]; [discriminate |].
  intros Hrun. inversion Hrun. unfold completion_of.
  rewrite <- !app_assoc. reflexivity.
Qed.

Lemma complete_loop_inr_inv w acme_client account_number dns_provider refs records s s' :
  denotes (heap s) refs records ->
  for_each refs
    (fun l => complete_dns_challenge w acme_client account_number l dns_provider) s
  = (inr tt, s') ->
  s' = {| trace := (trace s
                    ++ flat_map (completion_of w acme_client account_number dns_provider)
                         records)%list;
          heap := heap s |}.
Proof.
  intros Hden. revert s s' Hden.
  induction refs as [| l refs IH] in records |- *; intros s s' Hden Hrun.
  - inversion Hden; subst. simpl in Hrun. unfold ret in Hrun.
    inversion Hrun; subst s'. destruct s as [tr h]; simpl.
    rewrite app_nil_r. reflexivity.
  - inversion Hden as [| ? r ? records' Hl Hrest]; subst.
    rewrite for_each_cons in Hrun.
    destruct (complete_dns_challenge w acme_client account_number l dns_provider s)
      as [[e | []] s1] eqn:Hone; [discriminate |].
    apply (complete_dns_challenge_inr_inv _ _ _ _ _ _ _ _ Hl) in Hone. subst s1.
    apply (IH records') in Hrun; [| exact Hrest].
    rewrite Hrun. simpl. rewrite <- !app_assoc. reflexivity.
Qed.

(** X17. When [finalize_authorizations] returns, the calls it made are, for
    each record in list order, the wait for propagation, the local
    verification and the answer to the CA, and only after the last answer
    the deletions, one per record in list order. *)
Theorem finalize_success_completes_then_cleans (w : World) (acme_client : AcmeClient)
    (account_number : pyval) (dns_provider : dns_module) (refs returned : list ref)
    (records : list AuthorizationRecord) (s s' : state) :
  denotes (heap s) refs records ->
  finalize_authorizations w acme_client account_number dns_provider refs s
  = (inr returned, s') ->
  trace s'
  = (trace s
     ++ flat_map (completion_of w acme_client account_number dns_provider) records
     ++ map (deletion_of w acme_client account_number dns_provider) records)%list.
Proof.
  intros Hden. rewrite finalize_authorizations_run. simpl.
  destruct (for_each refs
              (fun l => complete_dns_challenge w acme_client account_number l dns_provider)
              s) as [[e1 | []] s1] eqn:Hloop; simpl.
  - destruct (fst (for_each refs _ s1)); discriminate.
  - apply (complete_loop_inr_inv _ _ _ _ _ _ _ _ Hden) in Hloop. subst s1.
    match goal with
    | |- context [for_each refs ?f ?st] =>
        destruct (cleanup_loop_run w acme_client account_number dns_provider refs records
                    st Hden)
          as (k & _ & Htr & _ & Hok & _)
    end.
    destruct (for_each refs _ _) as [[e2 | []] s2]; simpl in *; [discriminate |].
    intros Hrun. inversion Hrun; subst.
    rewrite Htr, (Hok eq_refl), firstn_all, <- app_assoc. reflexivity.
Qed.

Lemma finalize_success_completes_then_cleans_witness :
  trace (snd (finalize_authorizations Sample.happy Sample.client (PStr "123") route53
                [1%positive; 2%positive] Sample.two_records))
  = ([] ++ flat_map (completion_of Sample.happy Sample.client (PStr "123") route53)
             [Sample.record_1; Sample.record_2]
        ++ map (deletion_of Sample.happy Sample.client (PStr "123") route53)
             [Sample.record_1; Sample.record_2])%list.
Proof.
  apply (finalize_success_completes_then_cleans Sample.happy Sample.client (PStr "123")
           route53 [1%positive; 2%positive] [1%positive; 2%positive]
           [Sample.record_1; Sample.record_2] Sample.two_records _
           two_records_denote eq_refl).
Defined.

(** ** Items of a batch, one by one *)

(** The [k]-th pending certificate is orchestrated in the state left by
    the [k] before it; its calls are part of the first loop's, and it ends
    up in [pending] when its orchestration returns and as a failure record
    in [certs] when it raises. *)
Lemma orchestrate_all_item w pcs s pending failed s1 k pc :
  orchestrate_all w pcs [] [] s = (inr (pending, failed), s1) ->
  pcs !! k = Some pc ->
  exists lists s0,
    orchestrate_all w (take k pcs) [] [] s = (inr lists, s0) /\
    (exists later,
       trace s1 = (trace (snd (orchestrate_one w pc s0)) ++ later)%list) /\
    match fst (orchestrate_one w pc s0) with
    | inr entry =>
        pending !! length (fst lists) = Some entry /\ entry_pending_cert entry = pc
    | inl _ =>
        failed !! length (snd lists) = Some {| cert := PBool false; pending_cert := pc |}
    end.
Proof.
  intros Hrun Hk.
  destruct (orchestrate_all_total w (take k pcs) [] [] s)
    as (entries0 & failed0 & s0 & Hprefix & _ & _).
  simpl in Hprefix.
  exists (entries0, failed0), s0. split; [exact Hprefix |].
  rewrite <- (take_drop_middle pcs k pc Hk), orchestrate_all_app, Hprefix,
    orchestrate_all_cons in Hrun.
  cbn [fst snd] in *.
  destruct (orchestrate_one w pc s0) as [[e | entry] s0'] eqn:Hone; cbn [fst snd].
  - match type of Hrun with
    | orchestrate_all w ?rest ?P ?C ?st = _ =>
        destruct (orchestrate_all_total w rest P C st)
          as (entries' & failed' & s3 & Hrest & _ & _);
        destruct (emits_orchestrate_all w rest P C st) as (evs & Htr & _)
    end.
    rewrite Hrun in Htr. rewrite Hrest in Hrun.
    inversion Hrun as [[Hpending Hfailed Hstate]].
    split.
    + eexists. simpl in Htr. rewrite Htr, <- app_assoc. reflexivity.
    + rewrite <- app_assoc. simpl. apply list_lookup_middle. reflexivity.
  - match type of Hrun with
    | orchestrate_all w ?rest ?P ?C ?st = _ =>
        destruct (orchestrate_all_total w rest P C st)
          as (entries' & failed' & s3 & Hrest & _ & _);
        destruct (emits_orchestrate_all w rest P C st) as (evs & Htr & _)
    end.
    rewrite Hrun in Htr. rewrite Hrest in Hrun.
    inversion Hrun as [[Hpending Hfailed Hstate]].
    split; [eexists; simpl in Htr; exact Htr |].
    split.
    + rewrite <- app_assoc. simpl. apply list_lookup_middle. reflexivity.
    + unfold orchestrate_one in Hone.
      apply bind_inr_inv in Hone as (resolved & s4 & _ & Hone).
      apply bind_inr_inv in Hone as (auths & s5 & _ & Hone).
      inversion Hone; subst. reflexivity.
Qed.


(** ** Order of the batch outcomes *)

Lemma orchestrate_all_order w pcs pending certs s :
  exists entries failed s',
    orchestrate_all w pcs pending certs s
    = (inr ((pending ++ entries)%list, (certs ++ failed)%list), s') /\
    sublist (map entry_pending_cert entries) pcs /\
    sublist (map pending_cert failed) pcs.
Proof.
  revert pending certs s. induction pcs as [| pc pcs IH]; intros pending certs s.
  - exists [], [], s. simpl. rewrite !app_nil_r. repeat split; constructor.
  - rewrite orchestrate_all_cons.
    destruct (orchestrate_one w pc s) as [[e | entry] s1] eqn:Hone.
    + match goal with
      | |- context [orchestrate_all w pcs pending ?C ?st] =>
          destruct (IH pending C st) as (entries & failed & s' & Hrun & Hsub1 & Hsub2)
      end.
      exists entries, ({| cert := PBool false; pending_cert := pc |} :: failed), s'.
      rewrite Hrun, <- app_assoc. split; [reflexivity |].
      split; [apply sublist_cons; exact Hsub1 | simpl; apply sublist_skip; exact Hsub2].
    + destruct (IH (pending ++ [entry])%list certs s1)
        as (entries & failed & s' & Hrun & Hsub1 & Hsub2).
      exists (entry :: entries), failed, s'.
      rewrite Hrun, <- app_assoc. split; [reflexivity |].
      assert (Hentry : entry_pending_cert entry = pc).
      { unfold orchestrate_one in Hone.
        apply bind_inr_inv in Hone as (resolved & s2 & _ & Hone).
        apply bind_inr_inv in Hone as (auths & s3 & _ & Hone).
        inversion Hone; subst. reflexivity. }
      split; [simpl; rewrite Hentry; apply sublist_skip; exact Hsub1
             | apply sublist_cons; exact Hsub2].
Qed.

(** X18. The outcomes of [get_ordered_certificates] are not in the order
    of the batch: the failure records of the items whose orchestration
    raised come first, each at the position given by the number of such
    items before it, and the outcomes of the orchestrated items follow
    after all of them, each at the position given by the number of
    orchestrated items before it; within each of the two groups the order
    of the batch is kept. *)
Theorem get_ordered_certificates_failures_first (w : World) (pending_certs : list pyval)
    (s : state) :
  exists pending failed issued s1 s',
    orchestrate_all w pending_certs [] [] s = (inr (pending, failed), s1) /\
    get_ordered_certificates w pending_certs s = (inr (failed ++ issued)%list, s') /\
    Forall (fun o => cert o = PBool false) failed /\
    sublist (map pending_cert failed) pending_certs /\
    sublist (map pending_cert issued) pending_certs /\
    (forall k pc,
       pending_certs !! k = Some pc ->
       exists lists s0,
         orchestrate_all w (take k pending_certs) [] [] s = (inr lists, s0) /\
         match fst (orchestrate_one w pc s0) with
         | inl _ =>
             length (snd lists) < length failed /\
             (failed ++ issued)%list !! length (snd lists)
             = Some {| cert := PBool false; pending_cert := pc |}
         | inr _ =>
             exists o,
               (failed ++ issued)%list !! (length failed + length (fst lists)) = Some o /\
               pending_cert o = pc
         end).
Proof.
  destruct (orchestrate_all_order w pending_certs [] [] s)
    as (pending & failed & s1 & Hfirst & Hsub1 & Hsub2).
  destruct (orchestrate_all_total w pending_certs [] [] s)
    as (pending' & failed' & s1' & Hfirst' & Hfalse & _).
  rewrite Hfirst in Hfirst'. inversion Hfirst'; subst pending' failed' s1'.
  simpl in Hfirst.
  destruct (issue_all_total w (List.last pending_certs PNone) pending failed s1)
    as (issued & s2 & Hsecond & Hmap & _).
  exists pending, failed, issued, s1, s2.
  split; [exact Hfirst |].
  split; [unfold get_ordered_certificates, bind; rewrite Hfirst; exact Hsecond |].
  split; [exact Hfalse |]. split; [exact Hsub2 |].
  split; [rewrite Hmap; exact Hsub1 |].
  intros k pc Hk.
  destruct (orchestrate_all_item w pending_certs s pending failed s1 k pc Hfirst Hk)
    as (lists & s0 & Hprefix & _ & Hitem).
  exists lists, s0. split; [exact Hprefix |].
  destruct (fst (orchestrate_one w pc s0)) as [e | entry].
  - split; [apply lookup_lt_Some in Hitem; exact Hitem |].
    rewrite lookup_app_l; [exact Hitem | apply lookup_lt_Some in Hitem; exact Hitem].
  - destruct Hitem as [Hentry Hpc].
    assert (Hissued : map pending_cert issued !! length (fst lists) = Some pc).
    { rewrite Hmap. change (map entry_pending_cert pending) with (entry_pending_cert <$> pending).
      rewrite list_lookup_fmap, Hentry. simpl. rewrite Hpc. reflexivity. }
    change (map pending_cert issued) with (pending_cert <$> issued) in Hissued.
    rewrite list_lookup_fmap in Hissued.
    destruct (issued !! length (fst lists)) as [o |] eqn:Ho; [| discriminate].
    exists o. split; [| simpl in Hissued; inversion Hissued; reflexivity].
    rewrite lookup_app_r by lia.
    replace (length failed + length (fst lists) - length failed) with (length (fst lists))
      by lia.
    exact Ho.
Qed.

Lemma get_ordered_certificates_failures_first_witness :
  exists outcomes,
    fst (get_ordered_certificates Sample.happy
           [Sample.pending_certificate "first";
            Sample.misconfigured_certificate "second"]
           Sample.empty_state) = inr outcomes /\
    outcomes !! 0
    = Some {| cert := PBool false;
              pending_cert := Sample.misconfigured_certificate "second" |}.
Proof.
  destruct (get_ordered_certificates_failures_first Sample.happy
              [Sample.pending_certificate "first";
               Sample.misconfigured_certificate "second"]
              Sample.empty_state)
    as (pending & failed & issued & s1 & s' & _ & Hrun & _ & _ & _ & Hitem).
  exists (failed ++ issued)%list. rewrite Hrun. split; [reflexivity |].
  destruct (Hitem 1 (Sample.misconfigured_certificate "second") eq_refl)
    as (lists & s0 & Hprefix & Hplace).
  vm_compute in Hprefix. inversion Hprefix as [[Hlists Hs0]]. subst lists s0.
  match type of Hplace with
  | context [orchestrate_one ?w ?pc ?st] =>
      assert (Hone : fst (orchestrate_one w pc st)
                     = inl (Raise InvalidAuthority "Invalid authority. Options not set"))
        by (vm_compute; reflexivity)
  end.
  rewrite Hone in Hplace. exact (proj2 Hplace).
Defined.

(** ** [get_dns_provider] *)

(** X19. [get_dns_provider] knows three provider types and no others: it
    returns a module exactly for the strings [cloudflare], [dyn] and
    [route53], each giving the module of that name, and makes no call;
    every other hashable value raises [UnknownProvider]. *)
Theorem get_dns_provider_three_types (type : pyval) (s : state) :
  (forall m s',
     get_dns_provider type s = (inr m, s') <->
     s' = s /\
     ((type = PStr "cloudflare" /\ m = cloudflare) \/
      (type = PStr "dyn" /\ m = dyn) \/
      (type = PStr "route53" /\ m = route53))) /\
  (hashable type = true ->
   type <> PStr "cloudflare" -> type <> PStr "dyn" -> type <> PStr "route53" ->
   get_dns_provider type s
   = (inl (Raise UnknownProvider "No such DNS provider: {}"), s)).
Proof.
  assert (Heq : forall lit, eq_str type lit = true <-> type = PStr lit).
  { intros lit. destruct type; simpl; try (split; [discriminate | intros H; discriminate H]).
    rewrite String.eqb_eq. split; [intros -> | intros H; inversion H]; reflexivity. }
  split.
  - intros m s'. unfold get_dns_provider, raise, ret.
    destruct (hashable type) eqn:Hhash; simpl.
    + destruct (eq_str type "cloudflare") eqn:H1.
      { apply Heq in H1. subst type. split.
        - intros H; inversion H; subst. auto.
        - intros [-> [[_ ->] | [[H _] | [H _]]]]; try discriminate H. reflexivity. }
      destruct (eq_str type "dyn") eqn:H2.
      { apply Heq in H2. subst type. split.
        - intros H; inversion H; subst. auto.
        - intros [-> [[H _] | [[_ ->] | [H _]]]]; try discriminate H. reflexivity. }
      destruct (eq_str type "route53") eqn:H3.
      { apply Heq in H3. subst type. split.
        - intros H; inversion H; subst. auto 6.
        - intros [-> [[H _] | [[H _] | [_ ->]]]]; try discriminate H. reflexivity. }
      split; [discriminate |].
      intros [_ [[H _] | [[H _] | [H _]]]]; apply Heq in H; congruence.
    + split; [discriminate |].
      intros [_ [[H _] | [[H _] | [H _]]]]; subst type; discriminate Hhash.
  - intros Hhash H1 H2 H3. unfold get_dns_provider, raise. rewrite Hhash. simpl.
    destruct (eq_str type "cloudflare") eqn:E1; [apply Heq in E1; contradiction |].
    destruct (eq_str type "dyn") eqn:E2; [apply Heq in E2; contradiction |].
    destruct (eq_str type "route53") eqn:E3; [apply Heq in E3; contradiction |].
    reflexivity.
Qed.

Lemma get_dns_provider_three_types_witness :
  get_dns_provider (PStr "bind9") Sample.empty_state
  = (inl (Raise UnknownProvider "No such DNS provider: {}"), Sample.empty_state).
Proof.
  apply (proj2 (get_dns_provider_three_types (PStr "bind9") Sample.empty_state) eq_refl);
    discriminate.
Defined.

(** ** Isolation of failures in a batch *)


